(** * The agent task protocol: server, client and coordinator

    A shallow embedding of [utils/a2a_server.py], [utils/a2a_client.py] and
    [agents/orchestrator.py].  Python values are a small dynamic universe;
    exceptions are values of a sum; the task store, the handler table and the
    coordinator's agent registry are finite maps; the client runs in a
    state-and-exception monad over the trace of its network calls. *)

From Stdlib Require Import ZArith QArith_base String Ascii List.
From stdpp Require Import base option gmap strings list pretty.
Import ListNotations.

Set Warnings "-register-all".

Local Open Scope string_scope.
Local Open Scope list_scope.

(** ** Python values *)

(** JSON-shaped values plus [Artifact] instances.  Dictionaries are ordered
    association lists with string keys (every dictionary of the program is
    keyed by strings). *)
Inductive PyVal : Type :=
| PNone
| PBool (b : bool)
| PInt (n : Z)
| PFloat (q : Q)
| PStr (s : string)
| PList (items : list PyVal)
| PDict (entries : list (string * PyVal))
| PArtifact (type : string) (content : PyVal) (metadata : list (string * PyVal)).

(** [d.get(k)] on an association list: the first binding of [k]. *)
Fixpoint dict_get {V : Type} (d : list (string * V)) (k : string) : option V :=
  match d with
  | [] => None
  | (k', v) :: rest => if bool_decide (k' = k) then Some v else dict_get rest k
  end.

(** [d[k] = v]: overwrite in place when the key is present, append otherwise. *)
Fixpoint dict_set {V : Type} (d : list (string * V)) (k : string) (v : V)
  : list (string * V) :=
  match d with
  | [] => [(k, v)]
  | (k', v') :: rest =>
      if bool_decide (k' = k) then (k, v) :: rest else (k', v') :: dict_set rest k v
  end.

Definition dict_mem {V : Type} (d : list (string * V)) (k : string) : bool :=
  match dict_get d k with Some _ => true | None => false end.

(** [type(v).__name__], as it appears in the interpreter's error messages. *)
Definition py_type_name (v : PyVal) : string :=
  match v with
  | PNone => "NoneType"
  | PBool _ => "bool"
  | PInt _ => "int"
  | PFloat _ => "float"
  | PStr _ => "str"
  | PList _ => "list"
  | PDict _ => "dict"
  | PArtifact _ _ _ => "Artifact"
  end.

(** Truth value of [v] in a condition ([if v:], [not v]). *)
Definition py_truthy (v : PyVal) : bool :=
  match v with
  | PNone => false
  | PBool b => b
  | PInt n => negb (n =? 0)%Z
  | PFloat q => negb (Qnum q =? 0)%Z
  | PStr s => negb (bool_decide (s = EmptyString))
  | PList l => match l with [] => false | _ => true end
  | PDict d => match d with [] => false | _ => true end
  | PArtifact _ _ _ => true
  end.

(** [v == "s"] for a string literal: only a [str] equals a [str]. *)
Definition py_eq_str (v : PyVal) (s : string) : bool :=
  match v with
  | PStr s' => bool_decide (s' = s)
  | _ => false
  end.

(** ** Exceptions and results *)

(** Subclasses of [Exception] the program raises or can receive.  Each one
    determines [str(e)], see [exn_str]. *)
Inductive Exn : Type :=
| ValueError (msg : string)
| TimeoutError (msg : string)
| KeyError (key_repr : string)
| AttributeError (msg : string)
| TypeError (msg : string)
| IndexError (msg : string)
| HTTPException (status_code : Z) (detail : string)
| HTTPStatusError (status_code : Z) (msg : string)
| HttpxError (is_timeout : bool) (msg : string)
| JSONDecodeError (msg : string)
| RetryError (last_attempt : Exn) (msg : string)
| OtherException (class_name : string) (msg : string).

Definition exn_str (e : Exn) : string :=
  match e with
  | ValueError m | TimeoutError m | AttributeError m | TypeError m
  | IndexError m | HTTPStatusError _ m | HttpxError _ m | JSONDecodeError m
  | RetryError _ m | OtherException _ m => m
  | KeyError k => k
  | HTTPException _ d => d
  end.

Inductive Result (A : Type) : Type :=
| Ok (a : A)
| Raise (e : Exn).
Arguments Ok {A} a.
Arguments Raise {A} e.

(** [v.get(k, default)]: defined on dictionaries only. *)
Definition py_get (v : PyVal) (k : string) (default : PyVal) : Result PyVal :=
  match v with
  | PDict d => Ok (match dict_get d k with Some x => x | None => default end)
  | _ => Raise (AttributeError
                  ("'" ++ py_type_name v ++ "' object has no attribute 'get'"))
  end.

(** [v[0]]. *)
Definition py_index0 (v : PyVal) : Result PyVal :=
  match v with
  | PList (x :: _) => Ok x
  | PList [] => Raise (IndexError "list index out of range")
  | PStr (String c _) => Ok (PStr (String c EmptyString))
  | PStr EmptyString => Raise (IndexError "string index out of range")
  | PDict _ => Raise (KeyError "0")
  | _ => Raise (TypeError ("'" ++ py_type_name v ++ "' object is not subscriptable"))
  end.

(** [v[:n]] is defined on strings and lists; on anything else it raises.
    (On a dictionary the exception is a [TypeError] up to Python 3.11 and a
    [KeyError] from 3.12 on; the former is kept.) *)
Definition py_sliceable (v : PyVal) : bool :=
  match v with
  | PStr _ | PList _ => true
  | _ => false
  end.

Definition py_slice_error (v : PyVal) : Exn :=
  match v with
  | PDict _ => TypeError "unhashable type: 'slice'"
  | _ => TypeError ("'" ++ py_type_name v ++ "' object is not subscriptable")
  end.

(** [dataclasses.asdict], the recursive part: dataclass instances become
    dictionaries of their fields, lists and dictionaries are traversed. *)
Fixpoint asdict_inner (v : PyVal) : PyVal :=
  match v with
  | PList l => PList (map asdict_inner l)
  | PDict d => PDict (map (fun kv => match kv with (k, x) => (k, asdict_inner x) end) d)
  | PArtifact ty c md =>
      PDict [("type", PStr ty);
             ("content", asdict_inner c);
             ("metadata",
              PDict (map (fun kv => match kv with (k, x) => (k, asdict_inner x) end) md))]
  | _ => v
  end.

(** [dataclasses.asdict(v)]: refuses what is not a dataclass instance. *)
Definition asdict (v : PyVal) : Result PyVal :=
  match v with
  | PArtifact _ _ _ => Ok (asdict_inner v)
  | _ => Raise (TypeError "asdict() should be called on dataclass instances")
  end.

(** A list comprehension whose body can raise: stops at the first exception. *)
Fixpoint map_result {A B : Type} (f : A -> Result B) (l : list A) : Result (list B) :=
  match l with
  | [] => Ok []
  | x :: rest =>
      match f x with
      | Raise e => Raise e
      | Ok y => match map_result f rest with
                | Raise e => Raise e
                | Ok ys => Ok (y :: ys)
                end
      end
  end.

(** ** The agent server ([utils/a2a_server.py]) *)

Inductive TaskStatus : Type :=
| SUBMITTED | WORKING | COMPLETED | FAILED | INPUT_REQUIRED | CANCELLED.

#[global] Instance TaskStatus_eq_dec : EqDecision TaskStatus.
Proof. solve_decision. Defined.

(** [status.value] *)
Definition TaskStatus_value (s : TaskStatus) : string :=
  match s with
  | SUBMITTED => "submitted"
  | WORKING => "working"
  | COMPLETED => "completed"
  | FAILED => "failed"
  | INPUT_REQUIRED => "input-required"
  | CANCELLED => "cancelled"
  end.

(** The three states without an outgoing transition. *)
Definition is_terminal (s : TaskStatus) : bool :=
  match s with
  | COMPLETED | FAILED | CANCELLED => true
  | _ => false
  end.

Record AgentSkill : Type := {
  sk_id : string;
  sk_name : string;
  sk_description : string;
  input_schema : list (string * PyVal);
  output_schema : list (string * PyVal);
  examples : list string
}.

(** [Artifact(type=..., content=...)], with the default empty metadata. *)
Definition Artifact (type : string) (content : PyVal) : PyVal :=
  PArtifact type content [].

Definition is_Artifact (v : PyVal) : bool :=
  match v with PArtifact _ _ _ => true | _ => false end.

(** [artifacts] is annotated [List[Artifact]] but nothing checks the items:
    it holds whatever list the engine stores. *)
Record TaskResponse : Type := {
  task_id : string;
  status : TaskStatus;
  artifacts : list PyVal;
  error : option string;
  created_at : string;
  updated_at : string
}.

Definition with_status (t : TaskResponse) (s : TaskStatus) : TaskResponse :=
  {| task_id := task_id t; status := s; artifacts := artifacts t;
     error := error t; created_at := created_at t; updated_at := updated_at t |}.

Definition with_artifacts (t : TaskResponse) (a : list PyVal) : TaskResponse :=
  {| task_id := task_id t; status := status t; artifacts := a;
     error := error t; created_at := created_at t; updated_at := updated_at t |}.

Definition with_error (t : TaskResponse) (e : string) : TaskResponse :=
  {| task_id := task_id t; status := status t; artifacts := artifacts t;
     error := Some e; created_at := created_at t; updated_at := updated_at t |}.

Definition with_updated_at (t : TaskResponse) (now : string) : TaskResponse :=
  {| task_id := task_id t; status := status t; artifacts := artifacts t;
     error := error t; created_at := created_at t; updated_at := now |}.

(** [TaskResponse.to_dict]; [asdict] raises on an item that is no dataclass. *)
Definition to_dict (t : TaskResponse) : Result PyVal :=
  match map_result asdict (artifacts t) with
  | Raise e => Raise e
  | Ok arts =>
      Ok (PDict [("task_id", PStr (task_id t));
                 ("status", PStr (TaskStatus_value (status t)));
                 ("artifacts", PList arts);
                 ("error", match error t with Some e => PStr e | None => PNone end);
                 ("created_at", PStr (created_at t));
                 ("updated_at", PStr (updated_at t))])
  end.

(** The pydantic model [TaskRequest]: validation has already made
    [parameters] a dictionary and [context] a dictionary or [None]. *)
Record TaskRequest : Type := {
  skill_id : string;
  parameters : list (string * PyVal);
  context : option (list (string * PyVal))
}.

(** A skill handler, [await handler(parameters, context)]: it returns a value
    or raises an [Exception]. *)
Definition Handler : Type :=
  list (string * PyVal) -> option (list (string * PyVal)) -> Result PyVal.

Record A2AServer : Type := {
  name : string;
  version : string;
  description : string;
  skills : list (string * AgentSkill);
  port : Z;
  host : string;
  tasks : gmap string TaskResponse;
  handlers : gmap string Handler
}.

Definition with_tasks (self : A2AServer) (ts : gmap string TaskResponse) : A2AServer :=
  {| name := name self; version := version self; description := description self;
     skills := skills self; port := port self; host := host self;
     tasks := ts; handlers := handlers self |}.

Definition with_handlers (self : A2AServer) (hs : gmap string Handler) : A2AServer :=
  {| name := name self; version := version self; description := description self;
     skills := skills self; port := port self; host := host self;
     tasks := tasks self; handlers := hs |}.

(** [A2AServer.__init__]: [self.skills = {s.id: s for s in skills}], empty
    task store and handler table. *)
Definition A2AServer_init (name version description : string)
    (skills : list AgentSkill) (port : Z) (host : string) : A2AServer :=
  {| name := name; version := version; description := description;
     skills := fold_left (fun d s => dict_set d (sk_id s) s) skills [];
     port := port; host := host; tasks := ∅; handlers := ∅ |}.

(** The arguments [create_task] hands to [background_tasks.add_task]. *)
Record Job : Type := {
  job_task_id : string;
  job_skill_id : string;
  job_parameters : list (string * PyVal);
  job_context : option (list (string * PyVal))
}.

Section Server.

(** Python's [repr] (also [str] of a value that is no string).  Its output
    only ever ends up inside messages, so its format is left open. *)
Variable py_repr : PyVal -> string.

(** [task = TaskResponse(task_id=task_id, status=TaskStatus.SUBMITTED)];
    the two timestamps come from two calls of [datetime.utcnow()]. *)
Definition new_task (uuid created updated : string) : TaskResponse :=
  {| task_id := uuid; status := SUBMITTED; artifacts := []; error := None;
     created_at := created; updated_at := updated |}.

(** [POST /tasks].  [uuid] is the value of [str(uuid.uuid4())].  Returns the
    response, the server afterwards and the background job, if any. *)
Definition create_task (self : A2AServer) (request : TaskRequest)
    (uuid created updated : string) : Result PyVal * A2AServer * option Job :=
  if negb (dict_mem (skills self) (skill_id request)) then
    (Raise (HTTPException 400
              ("Unknown skill: " ++ skill_id request ++ ". Available: "
               ++ py_repr (PList (map (fun kv => PStr (fst kv)) (skills self))))),
     self, None)
  else
    let task := new_task uuid created updated in
    (to_dict task,
     with_tasks self (<[uuid := task]> (tasks self)),
     Some {| job_task_id := uuid; job_skill_id := skill_id request;
             job_parameters := parameters request;
             job_context := context request |}).

(** [GET /tasks/{task_id}] *)
Definition get_task_status (self : A2AServer) (task_id : string) : Result PyVal :=
  match tasks self !! task_id with
  | None => Raise (HTTPException 404 "Task not found")
  | Some task => to_dict task
  end.

(** [POST /tasks/{task_id}/cancel] *)
Definition cancel_task (self : A2AServer) (task_id now : string)
    : Result PyVal * A2AServer :=
  match tasks self !! task_id with
  | None => (Raise (HTTPException 404 "Task not found"), self)
  | Some task =>
      if bool_decide (status task = SUBMITTED) || bool_decide (status task = WORKING)
      then
        let task' := with_updated_at (with_status task CANCELLED) now in
        (to_dict task', with_tasks self (<[task_id := task']> (tasks self)))
      else (to_dict task, self)
  end.

(** The conversion of a handler's result to artifacts in [_execute_task]. *)
Definition result_to_artifacts (result : PyVal) : list PyVal :=
  match result with
  | PList l => l
  | PArtifact _ _ _ => [result]
  | PDict _ => [Artifact "json" result]
  | PStr _ => [Artifact "text" result]
  | _ => [Artifact "json" (PStr (py_repr result))]
  end.

(** [_execute_task] up to its only suspension point, [await handler(...)]:
    the lookup of the task (a [KeyError] outside the [try]), the move to
    [WORKING], and the lookup of the handler.  The record is a shared
    object mutated in place; the store is updated at its key. *)
Definition _execute_task_until_await (self : A2AServer) (task_id skill_id now : string)
    : Result (A2AServer * option Handler) :=
  match tasks self !! task_id with
  | None => Raise (KeyError (py_repr (PStr task_id)))
  | Some task =>
      let task' := with_updated_at (with_status task WORKING) now in
      Ok (with_tasks self (<[task_id := task']> (tasks self)),
          handlers self !! skill_id)
  end.

(** What the [try] block evaluates to: the handler's outcome, or the
    [ValueError] raised when no handler is registered. *)
Definition handler_outcome (h : option Handler) (skill_id : string)
    (parameters : list (string * PyVal)) (context : option (list (string * PyVal)))
    : Result PyVal :=
  match h with
  | None => Raise (ValueError ("No handler registered for skill: " ++ skill_id))
  | Some handler => handler parameters context
  end.

(** The record after the [try]/[except] and the final timestamp. *)
Definition settle (outcome : Result PyVal) (now : string) (task : TaskResponse)
    : TaskResponse :=
  with_updated_at
    match outcome with
    | Ok result => with_status (with_artifacts task (result_to_artifacts result)) COMPLETED
    | Raise e => with_error (with_status task FAILED) (exn_str e)
    end
    now.

(** [_execute_task] from the point where the awaited handler is done. *)
Definition _execute_task_after_await (self : A2AServer) (task_id : string)
    (outcome : Result PyVal) (now : string) : A2AServer :=
  with_tasks self (alter (settle outcome now) task_id (tasks self)).

(** [_execute_task], run without interruption. *)
Definition _execute_task (self : A2AServer) (task_id skill_id : string)
    (parameters : list (string * PyVal)) (context : option (list (string * PyVal)))
    (now1 now2 : string) : Result A2AServer :=
  match _execute_task_until_await self task_id skill_id now1 with
  | Raise e => Raise e
  | Ok (self1, h) =>
      Ok (_execute_task_after_await self1 task_id
            (handler_outcome h skill_id parameters context) now2)
  end.

(** [POST /tasks/sync] *)
Definition create_task_sync (self : A2AServer) (request : TaskRequest)
    (uuid created updated now1 now2 : string) : Result PyVal * A2AServer :=
  if negb (dict_mem (skills self) (skill_id request)) then
    (Raise (HTTPException 400 ("Unknown skill: " ++ skill_id request)), self)
  else
    let task := new_task uuid created updated in
    let self1 := with_tasks self (<[uuid := task]> (tasks self)) in
    match _execute_task self1 uuid (skill_id request) (parameters request)
            (context request) now1 now2 with
    | Raise e => (Raise e, self1)
    | Ok self2 =>
        (match tasks self2 !! uuid with
         | None => Raise (KeyError (py_repr (PStr uuid)))
         | Some t => to_dict t
         end, self2)
    end.

(** [register_handler] *)
Definition register_handler (self : A2AServer) (skill_id : string) (handler : Handler)
    : Result A2AServer :=
  if negb (dict_mem (skills self) skill_id) then
    Raise (ValueError ("Unknown skill: " ++ skill_id))
  else Ok (with_handlers self (<[skill_id := handler]> (handlers self))).

(** *** One event loop serving requests and background jobs

    Coroutines of the server interleave only at an [await]; the only one
    between two accesses of the store is [await handler(...)].  A job is
    either scheduled (not started) or suspended at that point, waiting for
    its handler. *)
Record System : Type := {
  server : A2AServer;
  scheduled : list Job;
  suspended : list (Job * Handler)
}.

Inductive Event : Type :=
| PostTasks (request : TaskRequest) (uuid created updated : string)
| JobStarts (now1 now2 : string)
| HandlerDone (task_id : string) (now : string)
| PostCancel (task_id : string) (now : string).

Fixpoint take_job (task_id : string) (l : list (Job * Handler))
    : option (Job * Handler * list (Job * Handler)) :=
  match l with
  | [] => None
  | (j, h) :: rest =>
      if bool_decide (job_task_id j = task_id) then Some (j, h, rest)
      else match take_job task_id rest with
           | None => None
           | Some (j', h', rest') => Some (j', h', (j, h) :: rest')
           end
  end.

(** One turn of the event loop.  [JobStarts] runs the oldest scheduled job
    up to its [await]; without a handler there is nothing to await and the
    job runs to its end at once.  [HandlerDone] resumes the job of
    [task_id] with what its handler produced.  An event that is not enabled
    changes nothing. *)
Definition step (sys : System) (ev : Event) : System :=
  match ev with
  | PostTasks request uuid created updated =>
      match create_task (server sys) request uuid created updated with
      | (_, self', j) =>
          {| server := self';
             scheduled := scheduled sys ++ match j with Some j => [j] | None => [] end;
             suspended := suspended sys |}
      end
  | JobStarts now1 now2 =>
      match scheduled sys with
      | [] => sys
      | j :: rest =>
          match _execute_task_until_await (server sys) (job_task_id j)
                  (job_skill_id j) now1 with
          | Raise _ => {| server := server sys; scheduled := rest;
                          suspended := suspended sys |}
          | Ok (self', Some h) =>
              {| server := self'; scheduled := rest;
                 suspended := suspended sys ++ [(j, h)] |}
          | Ok (self', None) =>
              {| server :=
                   _execute_task_after_await self' (job_task_id j)
                     (handler_outcome None (job_skill_id j) (job_parameters j)
                        (job_context j)) now2;
                 scheduled := rest;
                 suspended := suspended sys |}
          end
      end
  | HandlerDone task_id now =>
      match take_job task_id (suspended sys) with
      | None => sys
      | Some (j, h, rest) =>
          {| server :=
               _execute_task_after_await (server sys) task_id
                 (h (job_parameters j) (job_context j)) now;
             scheduled := scheduled sys;
             suspended := rest |}
      end
  | PostCancel task_id now =>
      {| server := snd (cancel_task (server sys) task_id now);
         scheduled := scheduled sys;
         suspended := suspended sys |}
  end.

(** The status a poll of [task_id] sees after each event of a run. *)
Fixpoint observed (sys : System) (task_id : string) (evs : list Event)
    : list (option TaskStatus) :=
  match evs with
  | [] => []
  | ev :: rest =>
      let sys' := step sys ev in
      (status <$> tasks (server sys') !! task_id) :: observed sys' task_id rest
  end.

End Server.

(** ** The agent client ([utils/a2a_client.py]) *)

(** What the client does on the network, in the order it does it.  Durations
    are the program's float seconds, kept as rationals. *)
Inductive NetCall : Type :=
| Get (url : string) (timeout : Q)
| Post (url : string) (json : option PyVal) (timeout : Q)
| Sleep (seconds : Q).

(** What [httpx] hands back: an exception of its own, or a response with a
    status code and a body that parses as JSON or does not. *)
Inductive HttpOutcome : Type :=
| NetFail (e : Exn)
| Response (status_code : Z) (body : option PyVal).

(** A computation of the client: from the trace of calls so far to a value or
    an exception, and the trace afterwards. *)
Definition Client (A : Type) : Type := list NetCall -> Result A * list NetCall.

Definition ret {A : Type} (a : A) : Client A := fun tr => (Ok a, tr).

Definition raise {A : Type} (e : Exn) : Client A := fun tr => (Raise e, tr).

Definition bind {A B : Type} (c : Client A) (k : A -> Client B) : Client B :=
  fun tr =>
    match c tr with
    | (Ok a, tr') => k a tr'
    | (Raise e, tr') => (Raise e, tr')
    end.

(** [try: c  except Exception as e: h e] *)
Definition try_except {A : Type} (c : Client A) (h : Exn -> Client A) : Client A :=
  fun tr =>
    match c tr with
    | (Ok a, tr') => (Ok a, tr')
    | (Raise e, tr') => h e tr'
    end.

Definition lift {A : Type} (r : Result A) : Client A := fun tr => (r, tr).

#[global] Instance Client_ret : MRet Client := @ret.
#[global] Instance Client_bind : MBind Client := fun A B k c => bind c k.

(** [s.rstrip('/')] *)
Fixpoint rstrip_slash (s : string) : string :=
  match s with
  | EmptyString => EmptyString
  | String c rest =>
      match rstrip_slash rest with
      | EmptyString =>
          if bool_decide (c = "/"%char) then EmptyString else String c EmptyString
      | r => String c r
      end
  end.

(** [v[k]] for a string key. *)
Definition py_getitem (v : PyVal) (k : string) (key_repr : string) : Result PyVal :=
  match v with
  | PDict d => match dict_get d k with
               | Some x => Ok x
               | None => Raise (KeyError key_repr)
               end
  | PList _ => Raise (TypeError "list indices must be integers or slices, not str")
  | PStr _ => Raise (TypeError "string indices must be integers, not 'str'")
  | _ => Raise (TypeError ("'" ++ py_type_name v ++ "' object is not subscriptable"))
  end.

(** [status in ["completed", "failed", "cancelled"]] *)
Definition is_terminal_status (status : PyVal) : bool :=
  py_eq_str status "completed" || py_eq_str status "failed"
  || py_eq_str status "cancelled".

(** [response.raise_for_status()]: anything but 2xx raises.  The message
    of [httpx] names the status and the URL; it is abbreviated here. *)
Definition raise_for_status (status_code : Z) : Result unit :=
  if ((200 <=? status_code) && (status_code <=? 299))%Z then Ok tt
  else Raise (HTTPStatusError status_code "HTTP status error").

(** [response.raise_for_status(); response.json()] on what [httpx] returned. *)
Definition checked_json (o : HttpOutcome) : Result PyVal :=
  match o with
  | NetFail e => Raise e
  | Response code body =>
      match raise_for_status code with
      | Raise e => Raise e
      | Ok _ => match body with
                | Some v => Ok v
                | None => Raise (JSONDecodeError "Expecting value")
                end
      end
  end.

Record A2AClient : Type := {
  registry_url : option string;
  timeout : Q;
  poll_interval : Q;
  max_poll_attempts : Z
}.

(** [A2AClient()] with the defaults of [__init__]. *)
Definition A2AClient_default : A2AClient :=
  {| registry_url := None; timeout := Qmake 30 1; poll_interval := Qmake 1 2;
     max_poll_attempts := 120 |}.

Section Client.

(** The network and the agents behind it: the outcome of a call is a
    function of everything the client has done so far, this call last. *)
Variable env : list NetCall -> HttpOutcome.

Variable py_repr : PyVal -> string.

(** [tenacity]'s [wait_exponential(multiplier=1, min=1, max=10)] as a
    function of the attempt number, and the text of a [RetryError]. *)
Variable wait_exponential : Z -> Q.
Variable retry_error_str : Exn -> string.

(** [f"{v}"] *)
Definition py_format (v : PyVal) : string :=
  match v with PStr s => s | _ => py_repr v end.

(** [await self.client.get(url)], with the client's default timeout. *)
Definition client_get (self : A2AClient) (url : string) : Client HttpOutcome :=
  fun tr => let tr' := tr ++ [Get url (timeout self)] in (Ok (env tr'), tr').

(** [await self.client.post(url, json=payload, timeout=t)] *)
Definition client_post (url : string) (payload : option PyVal) (t : Q)
    : Client HttpOutcome :=
  fun tr => let tr' := tr ++ [Post url payload t] in (Ok (env tr'), tr').

(** [await asyncio.sleep(seconds)] *)
Definition sleep (seconds : Q) : Client unit :=
  fun tr => (Ok tt, tr ++ [Sleep seconds]).

(** The body of the [try] in [_poll_task]'s loop: [Some result] stands for
    [return result], [None] for falling through to the next iteration. *)
Definition poll_attempt (self : A2AClient) (status_url : string)
    : Client (option PyVal) :=
  response ← client_get self status_url;
  result ← lift (checked_json response);
  status ← lift (py_get result "status" PNone);
  if is_terminal_status status then ret (Some result)
  else sleep (poll_interval self);; ret None.

(** [for _ in range(n): try: ...  except Exception: sleep], then
    [raise TimeoutError]. *)
Fixpoint poll_loop (self : A2AClient) (status_url : string) (task_id : PyVal)
    (n : nat) : Client PyVal :=
  match n with
  | O => raise (TimeoutError ("Task " ++ py_format task_id ++ " did not complete in time"))
  | S n' =>
      r ← try_except (poll_attempt self status_url)
            (fun _ => sleep (poll_interval self);; ret None);
      match r with
      | Some result => ret result
      | None => poll_loop self status_url task_id n'
      end
  end.

(** [_poll_task] *)
Definition _poll_task (self : A2AClient) (agent_url : string) (task_id : PyVal)
    : Client PyVal :=
  let status_url := (rstrip_slash agent_url ++ "/tasks/" ++ py_format task_id)%string in
  poll_loop self status_url task_id (Z.to_nat (max_poll_attempts self)).

(** The function under [@retry]: the body of [send_task].  Its [except]
    clauses log and re-raise, so they leave the outcome as it is. *)
Definition send_task_body (self : A2AClient) (agent_url skill_id : string)
    (parameters : list (string * PyVal)) (context : option (list (string * PyVal)))
    (wait_for_completion : bool) : Client PyVal :=
  let task_url := (rstrip_slash agent_url ++ "/tasks")%string in
  let payload :=
    PDict [("skill_id", PStr skill_id);
           ("parameters", PDict parameters);
           ("context", match context with Some c => PDict c | None => PNone end)] in
  response ←
    (if wait_for_completion
     then client_post (task_url ++ "/sync")%string (Some payload) (Qmake 120 1)
     else client_post task_url (Some payload) (timeout self));
  result ← lift (checked_json response);
  if negb wait_for_completion then
    task_id ← lift (py_getitem result "task_id" "'task_id'");
    _poll_task self agent_url task_id
  else ret result.

(** [tenacity]'s [@retry(stop=stop_after_attempt(n), wait=...)] around an
    async function: run it; on any [Exception] stop with [RetryError] once
    [n] attempts are made, else sleep and run it again.  [more] counts the
    attempts still allowed after this one. *)
Fixpoint retrying {A : Type} (more : nat) (attempt_number : Z) (f : Client A)
    : Client A :=
  try_except f
    (fun e =>
       match more with
       | O => raise (RetryError e (retry_error_str e))
       | S more' =>
           sleep (wait_exponential attempt_number);;
           retrying more' (attempt_number + 1) f
       end).

Definition retry_stop_after_attempt_3 {A : Type} (f : Client A) : Client A :=
  retrying 2 1 f.

(** [send_task], as decorated. *)
Definition send_task (self : A2AClient) (agent_url skill_id : string)
    (parameters : list (string * PyVal)) (context : option (list (string * PyVal)))
    (wait_for_completion : bool) : Client PyVal :=
  retry_stop_after_attempt_3
    (send_task_body self agent_url skill_id parameters context wait_for_completion).

End Client.

(** Counting the calls of a trace. *)
Definition is_get (c : NetCall) : bool :=
  match c with Get _ _ => true | _ => false end.

Definition is_post (c : NetCall) : bool :=
  match c with Post _ _ _ => true | _ => false end.

Definition count_gets (tr : list NetCall) : nat := length (filter is_get tr).
Definition count_posts (tr : list NetCall) : nat := length (filter is_post tr).

(** ** The coordinator ([agents/orchestrator.py]) *)

Record AgentEndpoint : Type := {
  ep_name : string;
  ep_url : string;
  ep_skills : list string
}.

(** What the planner ([OrchestratorProgram.plan]) and the synthesizer
    ([OrchestratorProgram.synthesize_results]) return. *)
Record Prediction : Type := {
  task_plan : PyVal;
  required_skills : string
}.

Record Synthesis : Type := {
  answer : PyVal;
  recommendations : PyVal;
  confidence : PyVal
}.

(** The part of [OrchestratorAgent] its handlers use. *)
Record OrchestratorAgent : Type := {
  a2a_client : A2AClient;
  agents : gmap string AgentEndpoint
}.

(** [register_agent] *)
Definition register_agent (self : OrchestratorAgent) (name url : string)
    (skills : list string) : OrchestratorAgent :=
  {| a2a_client := a2a_client self;
     agents := <[name := {| ep_name := name; ep_url := url; ep_skills := skills |}]>
                 (agents self) |}.

Definition BUSINESS_CONTEXT : string :=
"
    RetailCo is a national retail chain with:
    - 500 stores across 4 regions (Northeast, Southeast, Midwest, West)
    - 5 product lines: Electronics, Apparel, Home, Outdoor, Food
    - 3 price tiers: Budget, Standard, Premium
    - 10M active customers with 4 loyalty tiers (Bronze, Silver, Gold, Platinum)
    - Data lakehouse with real-time sales and inventory data
    - Marketing campaigns tracked by region and product line
    - External data: weather, competitor pricing
    ".

(** [s.split(",")] *)
Fixpoint split_comma (s : string) : list string :=
  match s with
  | EmptyString => [EmptyString]
  | String c rest =>
      if bool_decide (c = ","%char) then EmptyString :: split_comma rest
      else match split_comma rest with
           | p :: ps => String c p :: ps
           | [] => [String c EmptyString]
           end
  end.

(** [c.isspace()].  A text here is a sequence of characters with code
    points below 256; the whitespace among them: tab to carriage return,
    the four separators, the space, next line and the no-break space. *)
Definition is_space (c : ascii) : bool :=
  let n := nat_of_ascii c in
  ((9 <=? n) && (n <=? 13) || (28 <=? n) && (n <=? 32)
   || (n =? 133) || (n =? 160))%nat.

Fixpoint lstrip (s : string) : string :=
  match s with
  | EmptyString => EmptyString
  | String c rest => if is_space c then lstrip rest else s
  end.

Fixpoint rstrip (s : string) : string :=
  match s with
  | EmptyString => EmptyString
  | String c rest =>
      match rstrip rest with
      | EmptyString => if is_space c then EmptyString else String c EmptyString
      | r => String c r
      end
  end.

(** [s.strip()] *)
Definition strip (s : string) : string := rstrip (lstrip s).

(** The handler's local [results] dictionary together with the client's
    trace: the state of the [try] block of [_handle_answer_question].  An
    exception leaves the state as it was when it was raised, which is what
    the [except] clause then reports. *)
Definition Body (A : Type) : Type :=
  list (string * PyVal) -> list NetCall ->
  Result A * list (string * PyVal) * list NetCall.

Definition body_ret {A : Type} (a : A) : Body A := fun rs tr => (Ok a, rs, tr).

Definition body_bind {A B : Type} (c : Body A) (k : A -> Body B) : Body B :=
  fun rs tr =>
    match c rs tr with
    | (Ok a, rs', tr') => k a rs' tr'
    | (Raise e, rs', tr') => (Raise e, rs', tr')
    end.

#[global] Instance Body_ret : MRet Body := @body_ret.
#[global] Instance Body_bind : MBind Body := fun A B k c => body_bind c k.

Definition body_lift {A : Type} (r : Result A) : Body A := fun rs tr => (r, rs, tr).

Definition body_call {A : Type} (c : Client A) : Body A :=
  fun rs tr => match c tr with (r, tr') => (r, rs, tr') end.

Definition body_read : Body (list (string * PyVal)) := fun rs tr => (Ok rs, rs, tr).

Definition body_update (f : list (string * PyVal) -> list (string * PyVal)) : Body unit :=
  fun rs tr => (Ok tt, f rs, tr).

(** [results["steps"].append(s)] *)
Definition append_step (s : PyVal) (results : list (string * PyVal))
    : list (string * PyVal) :=
  match dict_get results "steps" with
  | Some (PList l) => dict_set results "steps" (PList (l ++ [s]))
  | _ => results
  end.

(** [results["agent_results"][k] = v] *)
Definition set_agent_result (k : string) (v : PyVal) (results : list (string * PyVal))
    : list (string * PyVal) :=
  match dict_get results "agent_results" with
  | Some (PDict d) => dict_set results "agent_results" (PDict (dict_set d k v))
  | _ => results
  end.

(** [results["agent_results"]] *)
Definition agent_results_of (results : list (string * PyVal)) : PyVal :=
  match dict_get results "agent_results" with
  | Some v => v
  | None => PDict []
  end.

Section Orchestrator.

Variable env : list NetCall -> HttpOutcome.
Variable py_repr : PyVal -> string.
Variable wait_exponential : Z -> Q.
Variable retry_error_str : Exn -> string.

(** The external collaborators: the planner, given the question and the
    business context, and the synthesizer, given the question and the
    text of the agents' results.  Either can raise. *)
Variable plan : PyVal -> string -> Result Prediction.
Variable synthesize_results : PyVal -> string -> Result Synthesis.

(** [return {"error": result.get("error", "Unknown error")}] *)
Definition error_of (result : PyVal) : Client PyVal :=
  e ← lift (py_get result "error" (PStr "Unknown error"));
  ret (PDict [("error", e)]).

(** [_call_agent] *)
Definition _call_agent (self : OrchestratorAgent) (agent_name skill_id : string)
    (parameters : list (string * PyVal)) : Client PyVal :=
  match agents self !! agent_name with
  | None => raise (ValueError ("Unknown agent: " ++ agent_name))
  | Some agent =>
      try_except
        (result ← send_task env py_repr wait_exponential retry_error_str
                    (a2a_client self) (ep_url agent) skill_id parameters None true;
         status ← lift (py_get result "status" PNone);
         if py_eq_str status "completed" then
           artifacts ← lift (py_get result "artifacts" (PList []));
           if py_truthy artifacts then
             first ← lift (py_index0 artifacts);
             lift (py_get first "content" (PDict []))
           else error_of result
         else error_of result)
        (fun e => ret (PDict [("error", PStr (exn_str e))]))
  end.

(** Step 2 of [_handle_answer_question]. *)
Definition discovery_step (self : OrchestratorAgent) (question : PyVal)
    (skills : list string) : Body unit :=
  if bool_decide ("discover-tables" ∈ skills)
     && bool_decide (is_Some (agents self !! "data_discovery"))
  then
    discovery_result ← body_call (_call_agent self "data_discovery" "discover-tables"
                                    [("question", question)]);
    body_update (set_agent_result "data_discovery" discovery_result);;
    tables ← body_lift (py_get discovery_result "tables" (PList []));
    body_update (append_step (PDict [("step", PStr "data_discovery");
                                     ("tables", tables)]))
  else mret tt.

(** Step 3. *)
Definition sql_step (self : OrchestratorAgent) (question : PyVal)
    (skills : list string) : Body unit :=
  if bool_decide ("text-to-sql" ∈ skills)
     && bool_decide (is_Some (agents self !! "sql_generation"))
  then
    results ← body_read;
    discovered ← body_lift (py_get (agent_results_of results) "data_discovery" (PDict []));
    tables ← body_lift (py_get discovered "tables" (PList []));
    sql_result ← body_call (_call_agent self "sql_generation" "text-to-sql"
                              [("requirement", question);
                               ("tables", tables);
                               ("execute", PBool true)]);
    body_update (set_agent_result "sql_generation" sql_result);;
    sql ← body_lift (py_get sql_result "sql" (PStr EmptyString));
    row_count ← body_lift (py_get sql_result "row_count" (PInt 0));
    body_update (append_step (PDict [("step", PStr "sql_generation");
                                     ("sql", sql);
                                     ("row_count", row_count)]))
  else mret tt.

(** Step 4. *)
Definition synthesis_step (question : PyVal) : Body unit :=
  results ← body_read;
  synthesis ← body_lift (synthesize_results question
                           (py_repr (agent_results_of results)));
  body_update (fun rs => dict_set rs "answer" (answer synthesis));;
  body_update (fun rs => dict_set rs "recommendations" (recommendations synthesis));;
  body_update (fun rs => dict_set rs "confidence" (confidence synthesis)).

(** Step 1: the plan and the list of required skills. *)
Definition planning_step (question : PyVal) : Body (list string) :=
  plan_result ← body_lift (plan question BUSINESS_CONTEXT);
  body_update (fun rs => dict_set rs "plan" (task_plan plan_result));;
  body_update (append_step (PDict [("step", PStr "planning");
                                   ("result", PStr "Created analysis plan")]));;
  mret (map strip (split_comma (required_skills plan_result))).

(** The [try] block. *)
Definition answer_question_steps (self : OrchestratorAgent) (question : PyVal)
    : Body unit :=
  skills ← planning_step question;
  discovery_step self question skills;;
  sql_step self question skills;;
  synthesis_step question.

(** [_handle_answer_question]: both the [try] block and the [except]
    clause end in [return [Artifact(type="json", content=results)]].  The
    log line before the [try] evaluates [question[:100]], which raises for
    a question that cannot be sliced. *)
Definition _handle_answer_question (self : OrchestratorAgent)
    (parameters : list (string * PyVal)) (context : option (list (string * PyVal)))
    : Client PyVal :=
  let question := default (PStr EmptyString) (dict_get parameters "question") in
  if negb (py_truthy question) then raise (ValueError "Question is required")
  else if negb (py_sliceable question) then raise (py_slice_error question)
  else
    fun tr =>
      let results := [("question", question);
                      ("steps", PList []);
                      ("agent_results", PDict [])] in
      match answer_question_steps self question results tr with
      | (Ok _, results', tr') =>
          (Ok (PList [Artifact "json" (PDict results')]), tr')
      | (Raise e, results', tr') =>
          (Ok (PList [Artifact "json"
                        (PDict (dict_set results' "error" (PStr (exn_str e))))]),
           tr')
      end.

End Orchestrator.

(** *** Vocabulary for the poll loop

    What one status check amounts to: [Some result] when the request
    succeeds with a JSON record whose status is terminal, [None] in every
    other case (a transport error, a bad status code, a body that is no
    JSON, a value without [get], a status that is not terminal). *)
Definition poll_result (o : HttpOutcome) : option PyVal :=
  match checked_json o with
  | Ok result =>
      match py_get result "status" PNone with
      | Ok status => if is_terminal_status status then Some result else None
      | Raise _ => None
      end
  | Raise _ => None
  end.

(** None of the status checks among [calls], made after [tr], found a
    terminal record. *)
Definition gets_not_terminal (env : list NetCall -> HttpOutcome)
    (tr calls : list NetCall) : Prop :=
  forall before c after,
    calls = before ++ c :: after -> is_get c = true ->
    poll_result (env (tr ++ before ++ [c])) = None.

(** *** What the claim about the poll loop speaks of

    A status check is answered with a terminal record: the response has a
    2xx status code and its body is a JSON dictionary whose [status] is the
    text completed, failed or cancelled.  This is said of the response
    itself, not through the test the loop makes. *)
Definition terminal_answer (o : HttpOutcome) (record : PyVal) : Prop :=
  exists code d s,
    o = Response code (Some (PDict d))
    /\ record = PDict d
    /\ (200 <= code <= 299)%Z
    /\ dict_get d "status" = Some (PStr s)
    /\ (s = "completed" \/ s = "failed" \/ s = "cancelled").

(** The calls of [k] iterations that returned nothing: each a status check
    and the wait after it. *)
Fixpoint fruitless_checks (get wait : NetCall) (k : nat) : list NetCall :=
  match k with
  | O => []
  | S k' => get :: wait :: fruitless_checks get wait k'
  end.

(** *** Vocabulary for the coordinator *)

(** The [results] dictionary after the planning step. *)
Definition planned_results (question : PyVal) (p : Prediction) : list (string * PyVal) :=
  [("question", question);
   ("steps", PList [PDict [("step", PStr "planning");
                           ("result", PStr "Created analysis plan")]]);
   ("agent_results", PDict []);
   ("plan", task_plan p)].

(** Whether the dictionary a run returns says anything about [agent]: an
    [error] entry of the run, an entry of the agent among the agents'
    results, or a step under the agent's name. *)
Definition step_named (name : string) (v : PyVal) : bool :=
  match v with
  | PDict d => match dict_get d "step" with
               | Some s => py_eq_str s name
               | None => false
               end
  | _ => false
  end.

Definition mentions_agent_or_error (agent : string) (content : PyVal) : bool :=
  match content with
  | PDict results =>
      dict_mem results "error"
      || match dict_get results "agent_results" with
         | Some (PDict ar) => dict_mem ar agent
         | _ => false
         end
      || match dict_get results "steps" with
         | Some (PList steps) => existsb (step_named agent) steps
         | _ => false
         end
  | _ => false
  end.

(** ** Concrete runs

    A printer standing for Python's [repr] on the values of the runs below:
    [None], booleans, integers, strings without quotes or escapes, and lists,
    dictionaries and artifacts of those. *)
Fixpoint repr_simple (v : PyVal) : string :=
  let fix items (l : list PyVal) : string :=
    match l with
    | [] => EmptyString
    | x :: rest =>
        match rest with
        | [] => repr_simple x
        | _ => (repr_simple x ++ ", " ++ items rest)%string
        end
    end in
  let fix entries (d : list (string * PyVal)) : string :=
    match d with
    | [] => EmptyString
    | (k, x) :: rest =>
        match rest with
        | [] => ("'" ++ k ++ "': " ++ repr_simple x)%string
        | _ => ("'" ++ k ++ "': " ++ repr_simple x ++ ", " ++ entries rest)%string
        end
    end in
  match v with
  | PNone => "None"
  | PBool true => "True"
  | PBool false => "False"
  | PInt n => pretty n
  | PFloat q => (pretty (Qnum q) ++ "/" ++ pretty (Zpos (Qden q)))%string
  | PStr s => ("'" ++ s ++ "'")%string
  | PList l => ("[" ++ items l ++ "]")%string
  | PDict d => ("{" ++ entries d ++ "}")%string
  | PArtifact ty c md =>
      ("Artifact(type='" ++ ty ++ "', content=" ++ repr_simple c
       ++ ", metadata={" ++ entries md ++ "})")%string
  end.

(** [tenacity] 8: [min(max, max(min, multiplier * 2 ** (attempt - 1)))]. *)
Definition wait_exponential_1_1_10 (attempt_number : Z) : Q :=
  Qmake (Z.max 1 (Z.min 10 (2 ^ (attempt_number - 1)))) 1.

(** A text standing for [str] of a [RetryError]. *)
Definition retry_error_str_simple (e : Exn) : string :=
  "RetryError[" ++ exn_str e ++ "]".

Definition echo_skill : AgentSkill :=
  {| sk_id := "echo"; sk_name := "Echo"; sk_description := "Returns a fixed text";
     input_schema := []; output_schema := []; examples := [] |}.

(** An agent that declares the skill [echo] and has no handler yet. *)
Definition echo_agent_bare : A2AServer :=
  A2AServer_init "Echo Agent" "1.0.0" "An agent for the runs below" [echo_skill]
    8000 "0.0.0.0".

Definition echo_request : TaskRequest :=
  {| skill_id := "echo"; parameters := []; context := None |}.

Definition with_echo_handler (h : Handler) : A2AServer :=
  with_handlers echo_agent_bare (<[ "echo" := h ]> (handlers echo_agent_bare)).

(** The same agent with a handler that returns the text [done]. *)
Definition echo_agent : A2AServer := with_echo_handler (fun _ _ => Ok (PStr "done")).

(** ... and with a handler that returns a list holding one plain string. *)
Definition echo_agent_list_of_str : A2AServer :=
  with_echo_handler (fun _ _ => Ok (PList [PStr "x"])).

(** ... and with a handler that returns a list holding one artifact. *)
Definition echo_agent_list_of_artifact : A2AServer :=
  with_echo_handler (fun _ _ => Ok (PList [Artifact "text" (PStr "done")])).

(** ... and with a handler that raises. *)
Definition echo_agent_raising : A2AServer :=
  with_echo_handler (fun _ _ => Raise (ValueError "boom")).

(** A task is submitted, its job starts and waits for the handler, the task
    is cancelled, and then the handler returns. *)
Definition cancel_while_working : list Event :=
  [PostTasks echo_request "t1" "00:00" "00:00";
   JobStarts "00:01" "00:01";
   PostCancel "t1" "00:02";
   HandlerDone "t1" "00:03"].

(** A network where every submission is accepted and every poll finds the
    task still working. *)
Definition env_never_done (tr : list NetCall) : HttpOutcome :=
  match last tr with
  | Some (Post _ _ _) =>
      Response 200 (Some (PDict [("task_id", PStr "t1");
                                 ("status", PStr "submitted");
                                 ("artifacts", PList []);
                                 ("error", PNone);
                                 ("created_at", PStr "00:00");
                                 ("updated_at", PStr "00:00")]))
  | _ => Response 200 (Some (PDict [("task_id", PStr "t1");
                                 ("status", PStr "working");
                                 ("artifacts", PList []);
                                 ("error", PNone);
                                 ("created_at", PStr "00:00");
                                 ("updated_at", PStr "00:01")]))
  end.

Definition impatient_client : A2AClient :=
  {| registry_url := None; timeout := Qmake 30 1; poll_interval := Qmake 1 2;
     max_poll_attempts := 2 |}.

(** A network where every poll finds the task completed. *)
Definition completed_record (arts : list PyVal) : PyVal :=
  PDict [("task_id", PStr "t1");
         ("status", PStr "completed");
         ("artifacts", PList arts);
         ("error", PNone);
         ("created_at", PStr "00:00");
         ("updated_at", PStr "00:01")].

Definition env_completed (arts : list PyVal) (tr : list NetCall) : HttpOutcome :=
  Response 200 (Some (completed_record arts)).

(** The coordinator with the discovery agent registered and the SQL agent
    not registered. *)
Definition coordinator_without_sql : OrchestratorAgent :=
  register_agent {| a2a_client := A2AClient_default; agents := ∅ |}
    "data_discovery" "http://localhost:8001" ["discover-tables"].

Definition discovery_content : PyVal := PDict [("tables", PList [PStr "sales"])].

Definition env_discovery : list NetCall -> HttpOutcome :=
  env_completed [PDict [("type", PStr "json");
                        ("content", discovery_content);
                        ("metadata", PDict [])]].

Definition plan_both (question : PyVal) (business_context : string) : Result Prediction :=
  Ok {| task_plan := PStr "1. find tables 2. query";
        required_skills := "discover-tables, text-to-sql" |}.

Definition synthesize_fixed (question : PyVal) (agent_results : string)
    : Result Synthesis :=
  Ok {| answer := PStr agent_results;
        recommendations := PStr "none";
        confidence := PStr "low" |}.

Definition sales_question : list (string * PyVal) :=
  [("question", PStr "Which stores sell most?")].

(** The agent after an asynchronous submission of [echo_request], and after
    a synchronous one. *)
Definition echo_agent_submitted : A2AServer :=
  snd (fst (create_task repr_simple echo_agent echo_request "t1" "00:00" "00:00")).

Definition echo_agent_done : A2AServer :=
  snd (create_task_sync repr_simple echo_agent echo_request
         "t1" "00:00" "00:00" "00:01" "00:02").

Definition done_task : TaskResponse :=
  {| task_id := "t1"; status := COMPLETED;
     artifacts := [PArtifact "text" (PStr "done") []]; error := None;
     created_at := "00:00"; updated_at := "00:02" |}.

(** ** Further vocabulary

    A value made of JSON's own shapes only: no [Artifact] instance in it. *)
Fixpoint json_only (v : PyVal) : bool :=
  match v with
  | PList l => forallb json_only l
  | PDict d => forallb (fun kv => match kv with (_, x) => json_only x end) d
  | PArtifact _ _ _ => false
  | _ => true
  end.

(** The registrations the [__init__] of an agent makes after
    [super().__init__(...)], one call of [register_handler] after the other;
    the first one that raises ends the construction. *)
Fixpoint register_all (self : A2AServer) (regs : list (string * Handler))
    : Result A2AServer :=
  match regs with
  | [] => Ok self
  | (sid, h) :: rest =>
      match register_handler self sid h with
      | Raise e => Raise e
      | Ok self' => register_all self' rest
      end
  end.

(** *** Vocabulary for runs of the event loop

    The changes of a task's status that a run without cancellation can
    show between two polls: none, creation, start, end, and the end at once
    of a job that finds no handler. *)
Definition allowed_transition (a b : option TaskStatus) : bool :=
  bool_decide (a = b)
  || match a, b with
     | None, Some SUBMITTED => true
     | Some SUBMITTED, Some WORKING => true
     | Some SUBMITTED, Some FAILED => true
     | Some WORKING, Some COMPLETED => true
     | Some WORKING, Some FAILED => true
     | _, _ => false
     end.

Fixpoint transitions_allowed (l : list (option TaskStatus)) : bool :=
  match l with
  | a :: ((b :: _) as rest) => allowed_transition a b && transitions_allowed rest
  | _ => true
  end.

Section Runs.

Variable py_repr : PyVal -> string.

(** A run in which nobody cancels and every submission gets an id that is
    not in the store yet (as [uuid4] gives). *)
Fixpoint uninterrupted_run (sys : System) (evs : list Event) : bool :=
  match evs with
  | [] => true
  | ev :: rest =>
      match ev with
      | PostTasks _ uuid _ _ => bool_decide (tasks (server sys) !! uuid = None)
      | PostCancel _ _ => false
      | _ => true
      end
      && uninterrupted_run (step py_repr sys ev) rest
  end.

(** What the event loop keeps true of its jobs: a scheduled job's task is
    SUBMITTED, a suspended job's task is WORKING, and no task has two jobs. *)
Definition jobs_consistent (sys : System) : Prop :=
  (forall j, j ∈ scheduled sys ->
     (status <$> tasks (server sys) !! job_task_id j) = Some SUBMITTED)
  /\ (forall jh, jh ∈ suspended sys ->
        (status <$> tasks (server sys) !! job_task_id (fst jh)) = Some WORKING)
  /\ NoDup (map job_task_id (scheduled sys))
  /\ NoDup (map (fun jh => job_task_id (fst jh)) (suspended sys)).

End Runs.

(** ** The capability card ([AgentCard], [GET /.well-known/agent.json]) *)

Record AgentCard : Type := {
  card_name : string;
  card_version : string;
  card_description : string;
  card_skills : list AgentSkill;
  card_url : string
}.

(** [asdict(s)] for a skill: its fields in order, the schemas traversed. *)
Definition AgentSkill_asdict (s : AgentSkill) : PyVal :=
  PDict [("id", PStr (sk_id s));
         ("name", PStr (sk_name s));
         ("description", PStr (sk_description s));
         ("input_schema",
          PDict (map (fun kv => match kv with (k, x) => (k, asdict_inner x) end)
                   (input_schema s)));
         ("output_schema",
          PDict (map (fun kv => match kv with (k, x) => (k, asdict_inner x) end)
                   (output_schema s)));
         ("examples", PList (map PStr (examples s)))].

(** [AgentCard.to_dict] *)
Definition AgentCard_to_dict (c : AgentCard) : PyVal :=
  PDict [("name", PStr (card_name c));
         ("version", PStr (card_version c));
         ("description", PStr (card_description c));
         ("url", PStr (card_url c));
         ("skills", PList (map AgentSkill_asdict (card_skills c)))].

(** The card [A2AServer.__init__] builds from its arguments:
    [url=f"http://{host}:{port}"], the skills as they were given. *)
Definition A2AServer_agent_card (name version description : string)
    (skills : list AgentSkill) (port : Z) (host : string) : AgentCard :=
  {| card_name := name; card_version := version; card_description := description;
     card_skills := skills;
     card_url := ("http://" ++ host ++ ":" ++ pretty port)%string |}.

(** [GET /.well-known/agent.json] and [GET /health] *)
Definition get_agent_card (card : AgentCard) : PyVal := AgentCard_to_dict card.

Definition health_check (self : A2AServer) : PyVal :=
  PDict [("status", PStr "healthy"); ("agent", PStr (name self))].

(** ** More of the client *)

(** [AgentInfo]: what [discover_agent] keeps of a card.  The fields come
    out of parsed JSON and are not checked. *)
Record AgentInfo : Type := {
  info_name : PyVal;
  info_url : string;
  info_version : PyVal;
  info_description : PyVal;
  info_skills : PyVal
}.

(** The value of a key as a number, when it is one ([True] is [1]). *)
Definition py_number (v : PyVal) : option Q :=
  match v with
  | PBool b => Some (Qmake (if b then 1 else 0) 1)
  | PInt n => Some (Qmake n 1)
  | PFloat q => Some q
  | _ => None
  end.

(** Whether two hashable values are the same dictionary key: equal
    strings, [None] twice, or equal numbers. *)
Definition py_key_eqb (a b : PyVal) : bool :=
  match a, b with
  | PStr s, PStr s' => bool_decide (s = s')
  | PNone, PNone => true
  | _, _ => match py_number a, py_number b with
            | Some x, Some y => Qeq_bool x y
            | _, _ => false
            end
  end.

Definition py_hashable (v : PyVal) : bool :=
  match v with
  | PList _ | PDict _ | PArtifact _ _ _ => false
  | _ => true
  end.

(** The client's cache [self.agents], a dictionary keyed by whatever the
    cards gave as names. *)
Fixpoint cache_get (cache : list (PyVal * AgentInfo)) (k : PyVal) : option AgentInfo :=
  match cache with
  | [] => None
  | (k', v) :: rest => if py_key_eqb k' k then Some v else cache_get rest k
  end.

Fixpoint cache_put (cache : list (PyVal * AgentInfo)) (k : PyVal) (v : AgentInfo)
    : list (PyVal * AgentInfo) :=
  match cache with
  | [] => [(k, v)]
  | (k', v') :: rest =>
      if py_key_eqb k' k then (k', v) :: rest else (k', v') :: cache_put rest k v
  end.

(** [self.agents[k] = v] *)
Definition cache_set (cache : list (PyVal * AgentInfo)) (k : PyVal) (v : AgentInfo)
    : Result (list (PyVal * AgentInfo)) :=
  if py_hashable k then Ok (cache_put cache k v)
  else Raise (TypeError ("unhashable type: '" ++ py_type_name k ++ "'")).

Section ClientFurther.

Variable env : list NetCall -> HttpOutcome.
Variable py_repr : PyVal -> string.
Variable wait_exponential : Z -> Q.
Variable retry_error_str : Exn -> string.

(** The function under [@retry] in [discover_agent]; its [except] clause
    logs and re-raises.  The cache is written last, so an attempt that
    raises has not touched it. *)
Definition discover_agent_body (self : A2AClient) (cache : list (PyVal * AgentInfo))
    (agent_url : string) : Client (AgentInfo * list (PyVal * AgentInfo)) :=
  let discovery_url := (rstrip_slash agent_url ++ "/.well-known/agent.json")%string in
  response ← client_get env self discovery_url;
  data ← lift (checked_json response);
  name ← lift (py_getitem data "name" "'name'");
  version ← lift (py_get data "version" (PStr "1.0.0"));
  description ← lift (py_get data "description" (PStr EmptyString));
  skills ← lift (py_get data "skills" (PList []));
  let agent := {| info_name := name; info_url := agent_url; info_version := version;
                  info_description := description; info_skills := skills |} in
  cache' ← lift (cache_set cache name agent);
  ret (agent, cache').

(** [discover_agent], as decorated: the agent and the cache afterwards. *)
Definition discover_agent (self : A2AClient) (cache : list (PyVal * AgentInfo))
    (agent_url : string) : Client (AgentInfo * list (PyVal * AgentInfo)) :=
  retry_stop_after_attempt_3 wait_exponential retry_error_str
    (discover_agent_body self cache agent_url).

(** [get_agent_skills] *)
Definition get_agent_skills (self : A2AClient) (cache : list (PyVal * AgentInfo))
    (agent_url : string) : Client (PyVal * list (PyVal * AgentInfo)) :=
  found ← discover_agent self cache agent_url;
  ret (info_skills (fst found), snd found).

(** [A2AClient.get_task_status] *)
Definition A2AClient_get_task_status (self : A2AClient) (agent_url task_id : string)
    : Client PyVal :=
  let status_url := (rstrip_slash agent_url ++ "/tasks/" ++ task_id)%string in
  response ← client_get env self status_url;
  lift (checked_json response).

(** [A2AClient.cancel_task]: a POST without a body. *)
Definition A2AClient_cancel_task (self : A2AClient) (agent_url task_id : string)
    : Client PyVal :=
  let cancel_url := (rstrip_slash agent_url ++ "/tasks/" ++ task_id ++ "/cancel")%string in
  response ← client_post env cancel_url None (timeout self);
  lift (checked_json response).

(** [A2AClient.health_check]: one GET with a timeout of five seconds;
    [True] for status code 200 exactly, [False] for any exception. *)
Definition A2AClient_health_check (self : A2AClient) (agent_url : string) : Client bool :=
  try_except
    (fun tr =>
       let tr' := tr ++ [Get (rstrip_slash agent_url ++ "/health")%string (Qmake 5 1)] in
       match env tr' with
       | NetFail e => (Raise e, tr')
       | Response status_code _ => (Ok (status_code =? 200)%Z, tr')
       end)
    (fun _ => ret false).

End ClientFurther.

(** The skill ids a reader takes from the [skills] entry of a card:
    [[s.get("id") for s in skills]]. *)
Definition advertised_ids (skills : PyVal) : list PyVal :=
  match skills with
  | PList items =>
      map (fun s => match py_get s "id" PNone with Ok v => v | Raise _ => PNone end) items
  | _ => []
  end.

(** ** More of the coordinator *)

(** [s.split("```")] *)
Fixpoint split_fence (s : string) : list string :=
  match s with
  | EmptyString => [EmptyString]
  | String c rest =>
      match s with
      | String "`" (String "`" (String "`" rest3)) => EmptyString :: split_fence rest3
      | _ => match split_fence rest with
             | p :: ps => String c p :: ps
             | [] => [String c EmptyString]
             end
      end
  end.

(** [s[3:]] *)
Definition drop3 (s : string) : string :=
  match s with
  | String _ (String _ (String _ rest)) => rest
  | _ => EmptyString
  end.

(** [parts[1]] *)
Definition py_index1 (parts : list string) : Result string :=
  match parts with
  | _ :: p :: _ => Ok p
  | _ => Raise (IndexError "list index out of range")
  end.

(** The clean-up of a generated query in [process_query] (and, in the same
    words, in the SQL agent): strip it, and when it opens with a code fence
    take what follows the fence, without a leading [sql], stripped again. *)
Definition clean_sql (sql_query : string) : Result string :=
  let sql_query := strip sql_query in
  if String.prefix "```" sql_query then
    match py_index1 (split_fence sql_query) with
    | Raise e => Raise e
    | Ok inner =>
        let inner := if String.prefix "sql" inner then drop3 inner else inner in
        Ok (strip inner)
    end
  else Ok sql_query.

Section OrchestratorFurther.

Variable py_repr : PyVal -> string.
Variable plan : PyVal -> string -> Result Prediction.
Variable synthesize_results : PyVal -> string -> Result Synthesis.

(** [_handle_plan_analysis]: its [except] clause logs and re-raises. *)
Definition _handle_plan_analysis (parameters : list (string * PyVal))
    (context : option (list (string * PyVal))) : Result PyVal :=
  let question := default (PStr EmptyString) (dict_get parameters "question") in
  if negb (py_truthy question) then Raise (ValueError "Question is required")
  else
    match plan question BUSINESS_CONTEXT with
    | Raise e => Raise e
    | Ok plan_result =>
        let required_skills := map strip (split_comma (required_skills plan_result)) in
        Ok (PList [Artifact "json"
                     (PDict [("plan", task_plan plan_result);
                             ("required_agents", PList (map PStr required_skills))])])
    end.

(** What the standalone orchestrator gets from its collaborators: the table
    finder, the query writer, and the database. *)
Record Discovery : Type := { relevant_tables : string }.

Record Generated : Type := { sql_query : string; explanation : PyVal }.

(** The first [n] characters of a string, [s[:n]]. *)
Fixpoint take_chars (n : nat) (s : string) : string :=
  match n, s with
  | S n', String c rest => String c (take_chars n' rest)
  | _, _ => EmptyString
  end.

Variable discovery_program : string -> string -> Result Discovery.

(** [SQLGenerationProgram.generate], the chain of thought behind the query
    writer, given the requirement, the schema and the business rules. *)
Variable generate : string -> string -> string -> Result Generated.

(** The texts of the interpreter's [TypeError]s for a call that does not
    fit the function's parameters, given the function's qualified name: for
    a keyword that is no parameter, and for parameters left without a
    value.  Their wording differs between interpreter versions. *)
Variable unexpected_keyword : string -> string -> string.
Variable missing_arguments : string -> list string -> string.

(** [self.sql_program(k1=v1, ...)]: [dspy.Module.__call__] hands its
    keyword arguments on to
    [SQLGenerationProgram.forward(self, requirement, db_schema,
    business_rules="")], where the interpreter binds them to the
    parameters: a keyword that is no parameter raises, then a parameter
    without a value and without a default raises. *)
Definition SQLGenerationProgram_call (kwargs : list (string * string))
    : Result Generated :=
  let forward := "SQLGenerationProgram.forward" in
  match filter (fun kv => fst kv ∉ ["requirement"; "db_schema"; "business_rules"])
          kwargs with
  | (keyword, _) :: _ => Raise (TypeError (unexpected_keyword forward keyword))
  | [] =>
      match dict_get kwargs "requirement", dict_get kwargs "db_schema" with
      | Some requirement, Some db_schema =>
          generate requirement db_schema
            (default EmptyString (dict_get kwargs "business_rules"))
      | _, _ =>
          Raise (TypeError
                   (missing_arguments forward
                      (filter (fun k => dict_get kwargs k = None)
                         ["requirement"; "db_schema"])))
      end
  end.

(** [self.db]: absent, or a connector whose [execute_query] gives the rows
    of the frame or raises. *)
Variable db : option (string -> Result (list PyVal)).

(** The texts [process_query] builds from the schema table:
    the table descriptions and [get_schema_prompt()]. *)
Variable table_descriptions : string.
Variable schema_prompt : string.

(** Step 4 of [process_query]: the query runs inside a [try]; its failure
    is written into [results] and the run goes on. *)
Definition execution_step (sql_query : string) (results : list (string * PyVal))
    : list (string * PyVal) :=
  match db with
  | None => results
  | Some execute_query =>
      match execute_query sql_query with
      | Ok rows =>
          let results := dict_set results "data" (PList (take 20 rows)) in
          let results := dict_set results "row_count" (PInt (Z.of_nat (length rows))) in
          append_step (PDict [("step", PStr "execution");
                              ("row_count", PInt (Z.of_nat (length rows)));
                              ("status", PStr "complete")]) results
      | Raise e =>
          let results := dict_set results "execution_error" (PStr (exn_str e)) in
          append_step (PDict [("step", PStr "execution");
                              ("error", PStr (exn_str e));
                              ("status", PStr "failed")]) results
      end
  end.

(** [StandaloneOrchestrator.process_query].  Nothing outside step 4 is
    caught: an exception of a collaborator ends the run.  Step 3 passes
    the schema under the keyword [schema]. *)
Definition process_query (question : string) : Result (list (string * PyVal)) :=
  let results := [("question", PStr question); ("steps", PList [])] in
  match plan (PStr question) BUSINESS_CONTEXT with
  | Raise e => Raise e
  | Ok plan_result =>
  let results := dict_set results "plan" (task_plan plan_result) in
  let results := append_step (PDict [("step", PStr "planning");
                                     ("status", PStr "complete")]) results in
  match discovery_program question table_descriptions with
  | Raise e => Raise e
  | Ok discovery =>
  let tables := PList (map PStr (map strip (split_comma (relevant_tables discovery)))) in
  let results := dict_set results "tables" tables in
  let results := append_step (PDict [("step", PStr "discovery");
                                     ("tables", tables);
                                     ("status", PStr "complete")]) results in
  match SQLGenerationProgram_call [("requirement", question);
                                   ("schema", schema_prompt);
                                   ("business_rules", EmptyString)] with
  | Raise e => Raise e
  | Ok sql_result =>
  match clean_sql (sql_query sql_result) with
  | Raise e => Raise e
  | Ok query =>
  let results := dict_set results "sql" (PStr query) in
  let results := dict_set results "sql_explanation" (explanation sql_result) in
  let results := append_step (PDict [("step", PStr "sql_generation");
                                     ("sql", PStr (take_chars 100 query ++ "..."));
                                     ("status", PStr "complete")]) results in
  let results := execution_step query results in
  match synthesize_results (PStr question) (py_repr (PDict results)) with
  | Raise e => Raise e
  | Ok synthesis =>
  let results := dict_set results "answer" (answer synthesis) in
  let results := dict_set results "recommendations" (recommendations synthesis) in
  let results := dict_set results "confidence" (confidence synthesis) in
  Ok (append_step (PDict [("step", PStr "synthesis"); ("status", PStr "complete")])
        results)
  end end end end end.

End OrchestratorFurther.

(** *** Vocabulary for the handler's [results] dictionary

    The shape the handler gives [results] and every step keeps: the
    question, a list of steps, a dictionary of the agents' results. *)
Definition results_shaped (question : PyVal) (results : list (string * PyVal)) : Prop :=
  dict_get results "question" = Some question
  /\ (exists l, dict_get results "steps" = Some (PList l))
  /\ (exists d, dict_get results "agent_results" = Some (PDict d)).

(** A computation of the [try] block that leaves [results] in a state
    satisfying [I] whenever it starts in one, raise or not. *)
Definition keeps (I : list (string * PyVal) -> Prop) {A : Type} (c : Body A) : Prop :=
  forall rs tr, I rs -> I (snd (fst (c rs tr))).

(** Whether the character occurs in the string. *)
Fixpoint contains_char (c : ascii) (s : string) : bool :=
  match s with
  | EmptyString => false
  | String c' rest => bool_decide (c' = c) || contains_char c rest
  end.

(** ** The data discovery agent ([agents/data_discovery_agent.py]) *)

(** What the table finder returns. *)
Record TableDiscovery : Type := {
  td_relevant_tables : PyVal;
  td_explanation : PyVal;
  td_join_hints : PyVal
}.

(** [needle in hay] *)
Fixpoint contains_text (needle hay : string) : bool :=
  String.prefix needle hay
  || match hay with
     | EmptyString => false
     | String _ rest => contains_text needle rest
     end.

(** [list(dict.fromkeys(l))]: the first occurrence of each item, in order. *)
Fixpoint fromkeys (l : list string) : list string :=
  match l with
  | [] => []
  | x :: rest => x :: filter (fun y => y <> x) (fromkeys rest)
  end.

(** The table [keywords_to_tables] of [_fallback_discovery], in the order
    it is written. *)
Definition keywords_to_tables : list (list string * list string) :=
  [(["sale"; "revenue"; "transaction"],
    ["sales_transactions"; "stores_locations"; "products_catalog"]);
   (["customer"; "loyalty"; "member"], ["customers_profiles"]);
   (["product"; "item"; "catalog"], ["products_catalog"]);
   (["store"; "location"; "region"], ["stores_locations"]);
   (["inventory"; "stock"], ["inventory_levels"]);
   (["weather"; "temperature"], ["weather_data"]);
   (["campaign"; "marketing"; "promotion"], ["marketing_campaigns"]);
   (["competitor"; "pricing"], ["competitors_pricing"]);
   (["outdoor"], ["products_catalog"; "sales_transactions"; "stores_locations"])].

(** Whether one of the keywords occurs in the lowered question. *)
Definition group_matches (question_lower : string) (keywords : list string) : bool :=
  existsb (fun kw => contains_text kw question_lower) keywords.

(** The tables [_fallback_discovery] settles on for a lowered question. *)
Definition fallback_tables (question_lower : string) : list string :=
  let relevant_tables :=
    flat_map (fun group => if group_matches question_lower (fst group)
                           then snd group else [])
      keywords_to_tables in
  match fromkeys relevant_tables with
  | [] => ["sales_transactions"; "products_catalog"; "stores_locations"]
  | found => found
  end.

(** The two skills [DataDiscoveryAgent.__init__] declares. *)
Definition discover_tables_skill : AgentSkill :=
  {| sk_id := "discover-tables";
     sk_name := "Discover Relevant Tables";
     sk_description := "Find tables relevant to a user's analytical question";
     input_schema :=
       [("question", PStr "string - The user's question");
        ("context", PStr "object - Optional additional context")];
     output_schema :=
       [("tables", PStr "array - List of relevant table names");
        ("explanation", PStr "string - Why these tables are relevant");
        ("join_hints", PStr "string - Suggested join keys");
        ("schema_details", PStr "object - Detailed schema for each table")];
     examples :=
       ["What tables contain sales data?";
        "Where can I find customer information?";
        "Which tables have regional data?"] |}.

Definition get_table_schema_skill : AgentSkill :=
  {| sk_id := "get-table-schema";
     sk_name := "Get Table Schema";
     sk_description := "Get detailed schema information for specific tables";
     input_schema := [("tables", PStr "array - List of table names")];
     output_schema := [("schemas", PStr "object - Schema details for each table")];
     examples :=
       ["Get schema for sales_transactions"; "Show columns in products_catalog"] |}.

Section DataDiscovery.

(** Python's [str.lower], which knows more letters than ASCII has. *)
Variable py_lower : string -> string.

(** [RETAIL_SCHEMA["tables"]] *)
Variable retail_tables : list (string * PyVal).

Variable discovery_program : PyVal -> string -> Result TableDiscovery.
Variable table_descriptions : string.

(** [{t: RETAIL_SCHEMA["tables"][t] for t in tables if t in ...}], also the
    loop that fills [schema_details] in [_handle_discover_tables]. *)
Definition schema_details_of (tables : list string) : list (string * PyVal) :=
  fold_left (fun d t => match dict_get retail_tables t with
                        | Some info => dict_set d t info
                        | None => d
                        end) tables [].

(** [_fallback_discovery]; [question.lower()] needs a text. *)
Definition _fallback_discovery (question : PyVal) : Result PyVal :=
  match question with
  | PStr q =>
      let relevant_tables := fallback_tables (py_lower q) in
      Ok (PList [Artifact "json"
                   (PDict [("tables", PList (map PStr relevant_tables));
                           ("explanation",
                            PStr "Tables identified based on keyword matching");
                           ("join_hints",
                            PStr "Join on store_id, product_id as appropriate");
                           ("schema_details",
                            PDict (schema_details_of relevant_tables))])])
  | _ => Raise (AttributeError
                  ("'" ++ py_type_name question ++ "' object has no attribute 'lower'"))
  end.

(** [_handle_discover_tables]: whatever the table finder raises, and a
    [relevant_tables] that has no [split], sends the handler to the
    fallback. *)
Definition _handle_discover_tables (parameters : list (string * PyVal))
    (context : option (list (string * PyVal))) : Result PyVal :=
  let question := default (PStr EmptyString) (dict_get parameters "question") in
  if negb (py_truthy question) then Raise (ValueError "Question is required")
  else
    match discovery_program question table_descriptions with
    | Raise _ => _fallback_discovery question
    | Ok result =>
        match td_relevant_tables result with
        | PStr relevant_tables =>
            let table_names :=
              filter (fun t => is_Some (dict_get retail_tables t))
                (map strip (split_comma relevant_tables)) in
            Ok (PList [Artifact "json"
                         (PDict [("tables", PList (map PStr table_names));
                                 ("explanation", td_explanation result);
                                 ("join_hints", td_join_hints result);
                                 ("schema_details",
                                  PDict (schema_details_of table_names))])])
        | _ => _fallback_discovery question
        end
    end.

(** The handler of the second skill is left open: the dictionary it builds
    is keyed by whatever the request lists, texts or not. *)
Variable _handle_get_schema : Handler.

(** [DataDiscoveryAgent.__init__]: the server with the two skills, then the
    two registrations. *)
Definition DataDiscoveryAgent_init (port : Z) : Result A2AServer :=
  register_all
    (A2AServer_init "Data Discovery Agent" "1.0.0"
       "Discovers relevant tables in the retail data lakehouse"
       [discover_tables_skill; get_table_schema_skill] port "0.0.0.0")
    [("discover-tables", _handle_discover_tables);
     ("get-table-schema", _handle_get_schema)].

End DataDiscovery.

(** ** Further concrete runs *)

(** A submission, the start of its job and the end of its handler. *)
Definition uninterrupted_echo_run : list Event :=
  [PostTasks echo_request "t1" "00:00" "00:00";
   JobStarts "00:01" "00:01";
   HandlerDone "t1" "00:03"].

Definition echo_card : PyVal :=
  get_agent_card
    (A2AServer_agent_card "Echo Agent" "1.0.0" "An agent for the runs below"
       [echo_skill] 8000 "0.0.0.0").

(** A network that answers every request with the card of the echo agent. *)
Definition env_card (tr : list NetCall) : HttpOutcome :=
  Response 200 (Some echo_card).

(** A network where the connection fails until the third GET. *)
Definition env_card_on_third_get (tr : list NetCall) : HttpOutcome :=
  if (count_gets tr <? 3)%nat
  then NetFail (HttpxError false "All connection attempts failed")
  else Response 200 (Some echo_card).

(** A server declaring the skill [plan-analysis], with the coordinator's
    handler under it. *)
Definition planner_agent : A2AServer :=
  let bare :=
    A2AServer_init "Orchestrator Agent" "1.0.0" "An agent for the runs below"
      [{| sk_id := "plan-analysis"; sk_name := "Plan Analysis";
          sk_description := "Create an analysis plan";
          input_schema := []; output_schema := []; examples := [] |}]
      8000 "0.0.0.0" in
  with_handlers bare (<[ "plan-analysis" := _handle_plan_analysis plan_both ]>
                        (handlers bare)).

Definition plan_request : TaskRequest :=
  {| skill_id := "plan-analysis"; parameters := sales_question; context := None |}.

(** The coordinator with both agents registered, and its results after a
    discovery step. *)
Definition coordinator_with_sql : OrchestratorAgent :=
  register_agent coordinator_without_sql
    "sql_generation" "http://localhost:8002" ["text-to-sql"].

Definition results_after_discovery : list (string * PyVal) :=
  [("steps", PList []);
   ("agent_results", PDict [("data_discovery", discovery_content)])].

(** [str.lower] on ASCII letters. *)
Fixpoint lower_ascii (s : string) : string :=
  match s with
  | EmptyString => EmptyString
  | String c rest =>
      let n := nat_of_ascii c in
      String (if ((65 <=? n) && (n <=? 90))%nat then ascii_of_nat (n + 32) else c)
        (lower_ascii rest)
  end.

Definition retail_two_tables : list (string * PyVal) :=
  [("stores_locations", PDict [("description", PStr "Store master data")]);
   ("sales_transactions", PDict [("description", PStr "Sales line items")])].

(** A table finder with no language model behind it. *)
Definition discovery_program_down (question : PyVal) (available_tables : string)
    : Result TableDiscovery :=
  Raise (OtherException "RuntimeError" "No LM is loaded.").

Definition discover_request : TaskRequest :=
  {| skill_id := "discover-tables"; parameters := sales_question; context := None |}.

(** A network where the first status check finds the task working and
    the second finds it completed. *)
Definition env_done_on_second_check (tr : list NetCall) : HttpOutcome :=
  if (count_gets tr <? 2)%nat then env_never_done tr
  else Response 200 (Some (completed_record [])).

(** A network where the discovery agent answers with a text artifact. *)
Definition env_discovery_text : list NetCall -> HttpOutcome :=
  env_completed [PDict [("type", PStr "text");
                        ("content", PStr "sales");
                        ("metadata", PDict [])]].

(** * Properties *)

(** ** The server *)

Lemma dict_mem_false {V : Type} (d : list (string * V)) (k : string) :
  dict_get d k = None -> dict_mem d k = false.
Proof. unfold dict_mem. intros Hget. rewrite Hget. reflexivity. Qed.

Lemma dict_mem_true {V : Type} (d : list (string * V)) (k : string) :
  is_Some (dict_get d k) -> dict_mem d k = true.
Proof. unfold dict_mem. intros [v Hget]. rewrite Hget. reflexivity. Qed.

Section ServerProperties.

Variable py_repr : PyVal -> string.

(** Running the engine on a stored task: the record it leaves behind. *)
Lemma _execute_task_stored (self : A2AServer) (tid sid : string)
    (ps : list (string * PyVal)) (ctx : option (list (string * PyVal)))
    (now1 now2 : string) (task : TaskResponse) :
  tasks self !! tid = Some task ->
  exists self',
    _execute_task py_repr self tid sid ps ctx now1 now2 = Ok self'
    /\ skills self' = skills self
    /\ handlers self' = handlers self
    /\ tasks self' !! tid =
       Some (settle py_repr (handler_outcome (handlers self !! sid) sid ps ctx) now2
               (with_updated_at (with_status task WORKING) now1)).
Proof.
  intros Htask. unfold _execute_task, _execute_task_until_await.
  rewrite Htask. eexists. split; [reflexivity|].
  unfold _execute_task_after_await. cbn.
  rewrite lookup_alter_eq, lookup_insert_eq. auto.
Qed.

(** C2.  A submission, asynchronous or synchronous, whose skill is not
    among the agent's declared skills is answered with an invalid-request
    error (HTTP 400); the server, and so its task store, is left as it
    was, and no background job is scheduled. *)
Theorem unknown_skill_creates_no_task (self : A2AServer) (request : TaskRequest)
    (uuid created updated now1 now2 : string) :
  dict_get (skills self) (skill_id request) = None ->
  (exists detail,
      create_task py_repr self request uuid created updated
      = (Raise (HTTPException 400 detail), self, None))
  /\ (exists detail,
      create_task_sync py_repr self request uuid created updated now1 now2
      = (Raise (HTTPException 400 detail), self)).
Proof.
  intros Hskill. apply dict_mem_false in Hskill.
  unfold create_task, create_task_sync. rewrite Hskill. cbn.
  split; eexists; reflexivity.
Qed.

(** C8.  Cancelling a task that is COMPLETED, FAILED or CANCELLED changes
    nothing: the answer is the stored record as it is, and the server
    afterwards is the server before, so status, artifacts, error,
    created_at and updated_at are all unchanged. *)
Theorem cancel_terminal_task_is_noop (self : A2AServer) (tid now : string)
    (task : TaskResponse) :
  tasks self !! tid = Some task ->
  is_terminal (status task) = true ->
  cancel_task self tid now = (to_dict task, self)
  /\ tasks (snd (cancel_task self tid now)) !! tid = Some task.
Proof.
  intros Htask Hterm. unfold cancel_task. rewrite Htask.
  destruct (status task); try discriminate; cbn; auto.
Qed.

(** C4.  When the handler of the request's skill raises [e]: the engine
    returns normally and leaves the task FAILED with [str(e)] as its error;
    whatever happened to the record while the handler ran, resuming with
    the exception leaves it FAILED with that error; and the synchronous
    submission answers with the failed record instead of raising. *)
Theorem raising_handler_yields_failed_task (self : A2AServer) (request : TaskRequest)
    (h : Handler) (e : Exn) :
  handlers self !! skill_id request = Some h ->
  h (parameters request) (context request) = Raise e ->
  (forall tid task now1 now2,
      tasks self !! tid = Some task ->
      exists self',
        _execute_task py_repr self tid (skill_id request) (parameters request)
          (context request) now1 now2 = Ok self'
        /\ tasks self' !! tid =
           Some {| task_id := task_id task; status := FAILED;
                   artifacts := artifacts task; error := Some (exn_str e);
                   created_at := created_at task; updated_at := now2 |})
  /\ (forall (self1 : A2AServer) tid task now,
      tasks self1 !! tid = Some task ->
      tasks (_execute_task_after_await py_repr self1 tid (Raise e) now) !! tid =
      Some {| task_id := task_id task; status := FAILED;
              artifacts := artifacts task; error := Some (exn_str e);
              created_at := created_at task; updated_at := now |})
  /\ (forall uuid created updated now1 now2,
      is_Some (dict_get (skills self) (skill_id request)) ->
      exists self',
        create_task_sync py_repr self request uuid created updated now1 now2 =
        (Ok (PDict [("task_id", PStr uuid);
                    ("status", PStr "failed");
                    ("artifacts", PList []);
                    ("error", PStr (exn_str e));
                    ("created_at", PStr created);
                    ("updated_at", PStr now2)]), self')
        /\ (status <$> tasks self' !! uuid) = Some FAILED).
Proof.
  intros Hh Hraise. split; [|split].
  - intros tid task now1 now2 Htask.
    destruct (_execute_task_stored self tid (skill_id request) (parameters request)
                (context request) now1 now2 task Htask)
      as (self' & Hrun & _ & _ & Hstored).
    exists self'. split; [exact Hrun|].
    rewrite Hstored, Hh. cbn. rewrite Hraise. reflexivity.
  - intros self1 tid task now Htask.
    unfold _execute_task_after_await. cbn.
    rewrite lookup_alter_eq, Htask. reflexivity.
  - intros uuid created updated now1 now2 Hskill.
    apply dict_mem_true in Hskill.
    unfold create_task_sync. rewrite Hskill. cbn [negb].
    set (self1 := with_tasks self _).
    destruct (_execute_task_stored self1 uuid (skill_id request) (parameters request)
                (context request) now1 now2 (new_task uuid created updated))
      as (self' & Hrun & _ & _ & Hstored).
    { subst self1. cbn. apply lookup_insert_eq. }
    exists self'. rewrite Hrun, Hstored.
    subst self1. cbn [handlers with_tasks]. rewrite Hh. cbn. rewrite Hraise.
    split; reflexivity.
Qed.

(** C9.  A handler returns an [Artifact], a list of [Artifact]s, a
    dictionary, a text, or another value that is not a list (its contract:
    a returned list is a list of artifacts).  For every such result the
    engine leaves the task COMPLETED and the record holds a list of
    artifacts: the one-element list of [result] when it is an [Artifact];
    the list itself when it is a list; one [json] artifact around a
    dictionary; one [text] artifact around a text; and one [json] artifact
    around [str(result)] for anything else. *)
Theorem handler_result_becomes_artifact_list (self : A2AServer) (request : TaskRequest)
    (h : Handler) (result : PyVal) (tid now1 now2 : string) (task : TaskResponse) :
  handlers self !! skill_id request = Some h ->
  h (parameters request) (context request) = Ok result ->
  tasks self !! tid = Some task ->
  (forall l, result = PList l -> forallb is_Artifact l = true) ->
  exists self' task',
    _execute_task py_repr self tid (skill_id request) (parameters request)
      (context request) now1 now2 = Ok self'
    /\ tasks self' !! tid = Some task'
    /\ status task' = COMPLETED
    /\ forallb is_Artifact (artifacts task') = true
    /\ (is_Artifact result = true -> artifacts task' = [result])
    /\ (forall l, result = PList l -> artifacts task' = l)
    /\ (forall d, result = PDict d -> artifacts task' = [PArtifact "json" (PDict d) []])
    /\ (forall s, result = PStr s -> artifacts task' = [PArtifact "text" (PStr s) []])
    /\ (is_Artifact result = false -> (forall l, result <> PList l) ->
        (forall d, result <> PDict d) -> (forall s, result <> PStr s) ->
        artifacts task' = [PArtifact "json" (PStr (py_repr result)) []]).
Proof.
  intros Hh Hret Htask Hcontract.
  destruct (_execute_task_stored self tid (skill_id request) (parameters request)
              (context request) now1 now2 task Htask)
    as (self' & Hrun & _ & _ & Hstored).
  rewrite Hh in Hstored. cbn in Hstored. rewrite Hret in Hstored.
  eexists self', _. split; [exact Hrun|]. split; [exact Hstored|].
  cbn. split; [reflexivity|].
  split; [|repeat split].
  - destruct result; cbn; try reflexivity. apply Hcontract. reflexivity.
  - destruct result; cbn; intros; try discriminate; reflexivity.
  - intros l ->. reflexivity.
  - intros d ->. reflexivity.
  - intros s ->. reflexivity.
  - intros Hart Hlist Hdict Hstr. destruct result; cbn; try reflexivity.
    + exfalso. eapply Hstr. reflexivity.
    + exfalso. eapply Hlist. reflexivity.
    + exfalso. eapply Hdict. reflexivity.
    + discriminate.
Qed.

(** C3, as the code has it.  For a skill without a registered handler:
    when the skill is not declared either, both submissions are rejected
    and the server is left as it was; when it is declared, the task is
    created as SUBMITTED, the engine moves it to WORKING, finds no
    handler, and leaves it FAILED with the text of that error. *)
Theorem skill_without_handler (self : A2AServer) (request : TaskRequest)
    (uuid created updated now1 now2 : string) :
  handlers self !! skill_id request = None ->
  (dict_get (skills self) (skill_id request) = None ->
   fst (create_task py_repr self request uuid created updated) = (
     Raise (HTTPException 400
              ("Unknown skill: " ++ skill_id request ++ ". Available: "
               ++ py_repr (PList (map (fun kv => PStr (fst kv)) (skills self))))),
     self)
   /\ create_task_sync py_repr self request uuid created updated now1 now2 =
      (Raise (HTTPException 400 ("Unknown skill: " ++ skill_id request)), self))
  /\ (is_Some (dict_get (skills self) (skill_id request)) ->
      exists self1 self2 self3,
        fst (create_task py_repr self request uuid created updated)
        = (to_dict (new_task uuid created updated), self1)
        /\ tasks self1 !! uuid = Some (new_task uuid created updated)
        /\ _execute_task_until_await py_repr self1 uuid (skill_id request) now1
           = Ok (self2, None)
        /\ (status <$> tasks self2 !! uuid) = Some WORKING
        /\ _execute_task py_repr self1 uuid (skill_id request) (parameters request)
             (context request) now1 now2 = Ok self3
        /\ tasks self3 !! uuid =
           Some {| task_id := uuid; status := FAILED; artifacts := [];
                   error := Some ("No handler registered for skill: "
                                  ++ skill_id request)%string;
                   created_at := created; updated_at := now2 |}
        /\ snd (create_task_sync py_repr self request uuid created updated now1 now2)
           = self3).
Proof.
  intros Hnone. split.
  - intros Hskill. apply dict_mem_false in Hskill.
    unfold create_task, create_task_sync. rewrite Hskill. cbn. auto.
  - intros Hskill. apply dict_mem_true in Hskill.
    set (self1 := with_tasks self (<[uuid := new_task uuid created updated]> (tasks self))).
    assert (Hstored1 : tasks self1 !! uuid = Some (new_task uuid created updated))
      by (subst self1; cbn; apply lookup_insert_eq).
    destruct (_execute_task_stored self1 uuid (skill_id request) (parameters request)
                (context request) now1 now2 _ Hstored1)
      as (self3 & Hrun & _ & _ & Hstored3).
    exists self1, (with_tasks self1
                     (<[uuid := with_updated_at
                                  (with_status (new_task uuid created updated) WORKING)
                                  now1]> (tasks self1))), self3.
    split.
    { unfold create_task. rewrite Hskill. reflexivity. }
    split; [exact Hstored1|]. split.
    { unfold _execute_task_until_await. rewrite Hstored1.
      subst self1. cbn. rewrite Hnone. reflexivity. }
    split.
    { cbn. rewrite lookup_insert_eq. reflexivity. }
    split; [exact Hrun|]. split.
    { rewrite Hstored3. subst self1. cbn. rewrite Hnone. reflexivity. }
    unfold create_task_sync. rewrite Hskill. cbn [negb].
    fold self1. rewrite Hrun. reflexivity.
Qed.

(** Resuming a job writes the status whatever the record's status is by
    then: the engine does not look at it. *)
Lemma after_await_overwrites_status (self : A2AServer) (tid now : string)
    (task : TaskResponse) (outcome : Result PyVal) :
  tasks self !! tid = Some task ->
  (status <$> tasks (_execute_task_after_await py_repr self tid outcome now) !! tid)
  = Some (match outcome with Ok _ => COMPLETED | Raise _ => FAILED end).
Proof.
  intros Htask. unfold _execute_task_after_await. cbn.
  rewrite lookup_alter_eq, Htask. destruct outcome; reflexivity.
Qed.

(** [register_handler] only ever adds handlers for declared skills. *)
Lemma register_handler_declared_only (self self' : A2AServer) (sid : string)
    (h : Handler) :
  (forall k, is_Some (handlers self !! k) -> is_Some (dict_get (skills self) k)) ->
  register_handler self sid h = Ok self' ->
  forall k, is_Some (handlers self' !! k) -> is_Some (dict_get (skills self') k).
Proof.
  intros Hinv. unfold register_handler, dict_mem.
  destruct (dict_get (skills self) sid) as [sk|] eqn:Hsid; [|discriminate].
  cbn. intros [= <-] k. cbn.
  destruct (decide (sid = k)) as [<-|Hne].
  - rewrite Hsid. eauto.
  - rewrite lookup_insert_ne by exact Hne. apply Hinv.
Qed.

End ServerProperties.

Lemma unknown_skill_creates_no_task_witness :
  dict_get (skills echo_agent)
    (skill_id {| skill_id := "translate"; parameters := []; context := None |}) = None
  /\ ((exists detail,
          create_task repr_simple echo_agent
            {| skill_id := "translate"; parameters := []; context := None |}
            "t1" "00:00" "00:00"
          = (Raise (HTTPException 400 detail), echo_agent, None))
      /\ (exists detail,
          create_task_sync repr_simple echo_agent
            {| skill_id := "translate"; parameters := []; context := None |}
            "t1" "00:00" "00:00" "00:01" "00:02"
          = (Raise (HTTPException 400 detail), echo_agent))).
Proof.
  split; [reflexivity|].
  apply (unknown_skill_creates_no_task repr_simple echo_agent
           {| skill_id := "translate"; parameters := []; context := None |}).
  reflexivity.
Defined.

Lemma cancel_terminal_task_is_noop_witness :
  tasks echo_agent_done !! "t1" = Some done_task
  /\ is_terminal (status done_task) = true
  /\ cancel_task echo_agent_done "t1" "00:05" = (to_dict done_task, echo_agent_done)
  /\ tasks (snd (cancel_task echo_agent_done "t1" "00:05")) !! "t1" = Some done_task.
Proof.
  assert (Hstored : tasks echo_agent_done !! "t1" = Some done_task)
    by (vm_compute; reflexivity).
  split; [exact Hstored|]. split; [reflexivity|].
  apply (cancel_terminal_task_is_noop echo_agent_done "t1" "00:05" done_task Hstored).
  reflexivity.
Defined.

Lemma raising_handler_yields_failed_task_witness :
  exists self',
    create_task_sync repr_simple echo_agent_raising echo_request
      "t1" "00:00" "00:00" "00:01" "00:02" =
    (Ok (PDict [("task_id", PStr "t1");
                ("status", PStr "failed");
                ("artifacts", PList []);
                ("error", PStr "boom");
                ("created_at", PStr "00:00");
                ("updated_at", PStr "00:02")]), self')
    /\ (status <$> tasks self' !! "t1") = Some FAILED.
Proof.
  assert (Hh : handlers echo_agent_raising !! skill_id echo_request
               = Some (fun _ _ => Raise (ValueError "boom")))
    by (vm_compute; reflexivity).
  destruct (raising_handler_yields_failed_task repr_simple echo_agent_raising
              echo_request _ (ValueError "boom") Hh eq_refl) as (_ & _ & Hsync).
  apply (Hsync "t1" "00:00" "00:00" "00:01" "00:02").
  vm_compute. eauto.
Defined.

Lemma handler_result_becomes_artifact_list_witness :
  let self := snd (fst (create_task repr_simple echo_agent_list_of_artifact echo_request
                          "t1" "00:00" "00:00")) in
  forallb is_Artifact [PArtifact "text" (PStr "done") []] = true
  /\ exists self' task',
       _execute_task repr_simple self "t1" "echo" [] None "00:01" "00:02" = Ok self'
       /\ tasks self' !! "t1" = Some task'
       /\ status task' = COMPLETED
       /\ artifacts task' = [PArtifact "text" (PStr "done") []]
       /\ forallb is_Artifact (artifacts task') = true.
Proof.
  intros self. split; [reflexivity|].
  assert (Hh : handlers self !! skill_id echo_request
               = Some (fun _ _ => Ok (PList [Artifact "text" (PStr "done")])))
    by (vm_compute; reflexivity).
  assert (Htask : tasks self !! "t1" = Some (new_task "t1" "00:00" "00:00"))
    by (vm_compute; reflexivity).
  destruct (handler_result_becomes_artifact_list repr_simple self
              echo_request _ (PList [Artifact "text" (PStr "done")])
              "t1" "00:01" "00:02" _ Hh eq_refl Htask)
    as (self' & task' & Hrun & Hstored & Hstatus & Hall & _ & Hlist & _).
  { intros l [= <-]. reflexivity. }
  exists self', task'. repeat split; try assumption.
  apply Hlist. reflexivity.
Defined.

(** Outside that contract nothing is checked.  A handler that returns a
    list holding a plain string: the task is COMPLETED and its stored list
    holds that string, which is no artifact, and the record no longer
    serialises. *)
Lemma completed_task_can_hold_non_artifacts :
  let self' := snd (create_task_sync repr_simple echo_agent_list_of_str echo_request
                      "t1" "00:00" "00:00" "00:01" "00:02") in
  (status <$> tasks self' !! "t1") = Some COMPLETED
  /\ (artifacts <$> tasks self' !! "t1") = Some [PStr "x"]
  /\ forallb is_Artifact [PStr "x"] = false
  /\ get_task_status self' "t1"
     = Raise (TypeError "asdict() should be called on dataclass instances").
Proof. vm_compute. repeat split; reflexivity. Qed.

Lemma skill_without_handler_witness :
  handlers echo_agent_bare !! skill_id echo_request = None
  /\ exists self3,
       snd (create_task_sync repr_simple echo_agent_bare echo_request
              "t1" "00:00" "00:00" "00:01" "00:02") = self3
       /\ tasks self3 !! "t1" =
          Some {| task_id := "t1"; status := FAILED; artifacts := [];
                  error := Some "No handler registered for skill: echo";
                  created_at := "00:00"; updated_at := "00:02" |}.
Proof.
  assert (Hnone : handlers echo_agent_bare !! skill_id echo_request = None)
    by reflexivity.
  split; [exact Hnone|].
  destruct (skill_without_handler repr_simple echo_agent_bare echo_request
              "t1" "00:00" "00:00" "00:01" "00:02" Hnone) as [_ Hdeclared].
  destruct Hdeclared as (self1 & self2 & self3 & _ & _ & _ & _ & _ & Hstored & Hsync).
  { vm_compute. eauto. }
  exists self3. split; [exact Hsync | exact Hstored].
Defined.

(** C3, refuting the statement of the specification.  The skill [echo] is
    declared and has no handler: the submission is accepted, the task is
    created, the engine moves it to WORKING before it looks for the handler,
    and the task ends FAILED. *)
Lemma task_created_for_skill_without_handler :
  handlers echo_agent_bare !! "echo" = None
  /\ tasks echo_agent_bare !! "t1" = None
  /\ (let self1 := snd (fst (create_task repr_simple echo_agent_bare echo_request
                               "t1" "00:00" "00:00")) in
      (status <$> tasks self1 !! "t1") = Some SUBMITTED
      /\ (match _execute_task_until_await repr_simple self1 "t1" "echo" "00:01" with
          | Ok (self2, None) => status <$> tasks self2 !! "t1"
          | _ => None
          end) = Some WORKING)
  /\ observed repr_simple {| server := echo_agent_bare; scheduled := []; suspended := [] |}
       "t1" [PostTasks echo_request "t1" "00:00" "00:00"; JobStarts "00:01" "00:02"]
     = [Some SUBMITTED; Some FAILED].
Proof. vm_compute. repeat split; reflexivity. Qed.

(** C1, at the failing run.  A task cancelled while its handler is running
    is observed SUBMITTED, WORKING, CANCELLED and then COMPLETED: the engine
    overwrites the terminal state CANCELLED when the handler returns, and
    stores the handler's result. *)
Lemma cancelled_task_is_later_completed :
  let start := {| server := echo_agent; scheduled := []; suspended := [] |} in
  observed repr_simple start "t1" cancel_while_working
  = [Some SUBMITTED; Some WORKING; Some CANCELLED; Some COMPLETED]
  /\ tasks (server (fold_left (step repr_simple) cancel_while_working start)) !! "t1"
     = Some {| task_id := "t1"; status := COMPLETED;
               artifacts := [PArtifact "text" (PStr "done") []]; error := None;
               created_at := "00:00"; updated_at := "00:03" |}.
Proof. vm_compute. split; reflexivity. Qed.

(** ** The client *)

Lemma count_gets_app (l1 l2 : list NetCall) :
  count_gets (l1 ++ l2) = count_gets l1 + count_gets l2.
Proof. unfold count_gets. rewrite filter_app, length_app. reflexivity. Qed.

Lemma count_posts_app (l1 l2 : list NetCall) :
  count_posts (l1 ++ l2) = count_posts l1 + count_posts l2.
Proof. unfold count_posts. rewrite filter_app, length_app. reflexivity. Qed.

Lemma count_gets_cons (c : NetCall) (l : list NetCall) :
  count_gets (c :: l) = (if is_get c then 1 else 0) + count_gets l.
Proof.
  unfold count_gets. rewrite filter_cons.
  destruct c; cbn; reflexivity.
Qed.

Lemma count_posts_cons (c : NetCall) (l : list NetCall) :
  count_posts (c :: l) = (if is_post c then 1 else 0) + count_posts l.
Proof.
  unfold count_posts. rewrite filter_cons.
  destruct c; cbn; reflexivity.
Qed.

Lemma poll_result_terminal (o : HttpOutcome) (result : PyVal) :
  poll_result o = Some result ->
  exists s, py_get result "status" PNone = Ok (PStr s)
            /\ (s = "completed" \/ s = "failed" \/ s = "cancelled").
Proof.
  unfold poll_result. destruct (checked_json o) as [r|]; [|discriminate].
  destruct (py_get r "status" PNone) as [st|] eqn:Hget; [|discriminate].
  destruct (is_terminal_status st) eqn:Hterm; [|discriminate].
  intros [= <-]. unfold is_terminal_status, py_eq_str in Hterm.
  destruct st; try discriminate. exists s. split; [exact Hget|].
  repeat case_bool_decide; auto; discriminate.
Qed.

Lemma gets_not_terminal_nil (env : list NetCall -> HttpOutcome) (tr : list NetCall) :
  gets_not_terminal env tr [].
Proof. intros [|b before] c after Heq; discriminate. Qed.

(** One fruitless iteration in front of a fruitless rest. *)
Lemma gets_not_terminal_iteration (env : list NetCall -> HttpOutcome)
    (tr rest : list NetCall) (g s : NetCall) :
  poll_result (env (tr ++ [g])) = None ->
  is_get s = false ->
  gets_not_terminal env (tr ++ [g; s]) rest ->
  gets_not_terminal env tr (g :: s :: rest).
Proof.
  intros Hfirst Hs Hrest before c after Heq Hget.
  destruct before as [|b0 [|b1 before]]; cbn in Heq.
  - injection Heq as <- _. exact Hfirst.
  - injection Heq as _ <- _. congruence.
  - injection Heq as <- <- Heq.
    specialize (Hrest before c after Heq Hget).
    rewrite <- Hrest. f_equal. rewrite <- !app_assoc. reflexivity.
Qed.

Section ClientProperties.

Variable env : list NetCall -> HttpOutcome.
Variable py_repr : PyVal -> string.
Variable wait_exponential : Z -> Q.
Variable retry_error_str : Exn -> string.

(** One iteration of the loop of [_poll_task], exceptions included. *)
Lemma poll_iteration (self : A2AClient) (url : string) (tr : list NetCall) :
  try_except (poll_attempt env self url)
    (fun _ => sleep (poll_interval self);; ret None) tr =
  match poll_result (env (tr ++ [Get url (timeout self)])) with
  | Some result => (Ok (Some result), tr ++ [Get url (timeout self)])
  | None => (Ok None, tr ++ [Get url (timeout self)] ++ [Sleep (poll_interval self)])
  end.
Proof.
  unfold try_except, poll_attempt, poll_result, mbind, Client_bind, bind,
    client_get, lift, sleep, ret.
  destruct (checked_json (env (tr ++ [Get url (timeout self)]))) as [r|e]; cbn.
  - destruct (py_get r "status" PNone) as [st|e]; cbn.
    + destruct (is_terminal_status st); cbn; rewrite <- ?app_assoc; reflexivity.
    + rewrite <- app_assoc. reflexivity.
  - rewrite <- app_assoc. reflexivity.
Qed.

Lemma poll_loop_step (self : A2AClient) (url : string) (task_id : PyVal) (n : nat)
    (tr : list NetCall) :
  poll_loop env py_repr self url task_id (S n) tr =
  match poll_result (env (tr ++ [Get url (timeout self)])) with
  | Some result => (Ok result, tr ++ [Get url (timeout self)])
  | None =>
      poll_loop env py_repr self url task_id n
        (tr ++ [Get url (timeout self)] ++ [Sleep (poll_interval self)])
  end.
Proof.
  cbn [poll_loop]. unfold mbind, Client_bind, bind.
  rewrite poll_iteration.
  destruct (poll_result (env (tr ++ [Get url (timeout self)]))); reflexivity.
Qed.

Lemma poll_loop_spec (self : A2AClient) (url : string) (task_id : PyVal) (n : nat) :
  forall tr, exists calls,
    snd (poll_loop env py_repr self url task_id n tr) = tr ++ calls
    /\ count_gets calls <= n
    /\ count_posts calls = 0
    /\ match fst (poll_loop env py_repr self url task_id n tr) with
       | Ok result =>
           exists before,
             calls = before ++ [Get url (timeout self)]
             /\ gets_not_terminal env tr before
             /\ poll_result (env (tr ++ calls)) = Some result
       | Raise e =>
           e = TimeoutError ("Task " ++ py_format py_repr task_id
                             ++ " did not complete in time")
           /\ count_gets calls = n
           /\ gets_not_terminal env tr calls
       end.
Proof.
  induction n as [|n IH]; intros tr.
  - exists []. cbn. rewrite app_nil_r.
    repeat split; auto using gets_not_terminal_nil.
  - rewrite poll_loop_step.
    destruct (poll_result (env (tr ++ [Get url (timeout self)]))) as [result|] eqn:Hpoll.
    + exists [Get url (timeout self)]. cbn [fst snd].
      split; [reflexivity|]. split; [rewrite count_gets_cons; cbn; lia|].
      split; [rewrite count_posts_cons; reflexivity|].
      exists []. repeat split; auto using gets_not_terminal_nil.
    + destruct (IH (tr ++ [Get url (timeout self)] ++ [Sleep (poll_interval self)]))
        as (calls & Htr & Hgets & Hposts & Hres).
      exists (Get url (timeout self) :: Sleep (poll_interval self) :: calls).
      split; [rewrite Htr, <- !app_assoc; reflexivity|].
      split; [rewrite !count_gets_cons; cbn; lia|].
      split; [rewrite !count_posts_cons; cbn; exact Hposts|].
      destruct (fst (poll_loop env py_repr self url task_id n _)) as [result|e].
      * destruct Hres as (before & -> & Hbefore & Hlast).
        exists (Get url (timeout self) :: Sleep (poll_interval self) :: before).
        split; [reflexivity|]. split.
        { apply gets_not_terminal_iteration; auto. }
        rewrite <- Hlast. f_equal. rewrite <- !app_assoc. reflexivity.
      * destruct Hres as (-> & Hcount & Hall).
        split; [reflexivity|]. split.
        { rewrite !count_gets_cons. cbn. lia. }
        apply gets_not_terminal_iteration; auto.
Qed.

(** The loop's test and the claim's notion of a terminal answer agree. *)
Lemma poll_result_iff (o : HttpOutcome) (record : PyVal) :
  poll_result o = Some record <-> terminal_answer o record.
Proof.
  split.
  - intros Hpoll. pose proof (poll_result_terminal o record Hpoll) as (s & Hget & Hs).
    unfold poll_result in Hpoll.
    destruct o as [e|code [v|]]; cbn in Hpoll; try discriminate.
    + unfold raise_for_status in Hpoll.
      destruct ((200 <=? code) && (code <=? 299))%Z eqn:Hcode; [|discriminate].
      destruct (py_get v "status" PNone) as [st|]; [|discriminate].
      destruct (is_terminal_status st); [|discriminate].
      injection Hpoll as ->.
      destruct record as [| | | | | |d|]; try discriminate.
      exists code, d, s. split; [reflexivity|]. split; [reflexivity|].
      split; [lia|]. split; [|exact Hs].
      cbn in Hget. destruct (dict_get d "status") as [x|]; [congruence|discriminate].
    + destruct (raise_for_status code); discriminate.
  - intros (code & d & s & -> & -> & Hcode & Hstatus & Hs).
    unfold poll_result, checked_json, raise_for_status.
    replace ((200 <=? code) && (code <=? 299))%Z with true
      by (symmetry; apply andb_true_intro; split; apply Z.leb_le; lia).
    cbn [py_get]. rewrite Hstatus.
    destruct Hs as [-> | [-> | ->]]; reflexivity.
Qed.

Lemma poll_result_none (o : HttpOutcome) :
  (forall r, ~ terminal_answer o r) -> poll_result o = None.
Proof.
  intros Hnone. destruct (poll_result o) as [r|] eqn:Hpoll; [|reflexivity].
  exfalso. apply (Hnone r), poll_result_iff, Hpoll.
Qed.

(** The loop returns at the first check that is answered with a terminal
    record. *)
Lemma poll_loop_prompt (self : A2AClient) (url : string) (task_id : PyVal)
    (k : nat) :
  forall n tr record,
    k < n ->
    (forall j r, j < k ->
       ~ terminal_answer
           (env (tr ++ fruitless_checks (Get url (timeout self))
                         (Sleep (poll_interval self)) j
                    ++ [Get url (timeout self)])) r) ->
    terminal_answer
      (env (tr ++ fruitless_checks (Get url (timeout self))
                    (Sleep (poll_interval self)) k
               ++ [Get url (timeout self)])) record ->
    poll_loop env py_repr self url task_id n tr
    = (Ok record,
       tr ++ fruitless_checks (Get url (timeout self)) (Sleep (poll_interval self)) k
          ++ [Get url (timeout self)]).
Proof.
  induction k as [|k IH]; intros n tr record Hk Hbefore Hat;
    destruct n as [|n]; try lia; rewrite poll_loop_step.
  - cbn [fruitless_checks app] in Hat |- *.
    apply poll_result_iff in Hat. rewrite Hat. reflexivity.
  - rewrite poll_result_none by (intros r; apply (Hbefore 0 r); lia).
    rewrite (IH n _ record); [| lia | |].
    + cbn [fruitless_checks]. rewrite <- !app_assoc. reflexivity.
    + intros j r Hj. specialize (Hbefore (S j) r ltac:(lia)).
      cbn [fruitless_checks] in Hbefore. rewrite <- !app_assoc. exact Hbefore.
    + cbn [fruitless_checks] in Hat. rewrite <- !app_assoc. exact Hat.
Qed.

(** Without such an answer the loop uses its whole budget and raises. *)
Lemma poll_loop_timeout (self : A2AClient) (url : string) (task_id : PyVal)
    (n : nat) :
  forall tr,
    (forall j r, j < n ->
       ~ terminal_answer
           (env (tr ++ fruitless_checks (Get url (timeout self))
                         (Sleep (poll_interval self)) j
                    ++ [Get url (timeout self)])) r) ->
    poll_loop env py_repr self url task_id n tr
    = (Raise (TimeoutError ("Task " ++ py_format py_repr task_id
                            ++ " did not complete in time")),
       tr ++ fruitless_checks (Get url (timeout self)) (Sleep (poll_interval self)) n).
Proof.
  induction n as [|n IH]; intros tr Hnone.
  - cbn. rewrite app_nil_r. reflexivity.
  - rewrite poll_loop_step.
    rewrite poll_result_none by (intros r; apply (Hnone 0 r); lia).
    rewrite IH.
    + cbn [fruitless_checks]. rewrite <- !app_assoc. reflexivity.
    + intros j r Hj. specialize (Hnone (S j) r ltac:(lia)).
      cbn [fruitless_checks] in Hnone. rewrite <- !app_assoc. exact Hnone.
Qed.

(** C7.  Let the answer to check number [k + 1] be what the network gives
    after [k] checks that returned nothing.  (1) When that answer is a
    terminal record (status completed, failed or cancelled), no earlier
    answer was, and [k] is below [max_poll_attempts], [_poll_task] returns
    that very record straight after that check, without a further wait or
    request.  (2) When none of the [max_poll_attempts] answers is a
    terminal record, it raises the [TimeoutError], after exactly that many
    checks: an exception of the client, where a task the server reports as
    failed is a returned record.  (3) Whatever the network does, it makes
    at most [max_poll_attempts] status checks and no other request, a
    record it returns is a dictionary with one of the three terminal
    statuses, and the only exception it raises is that [TimeoutError].
    (4) A check that fails is followed by the next one: after a transport
    failure, a check answered with a terminal record ends in that record. *)
Theorem poll_task_is_bounded_and_prompt (self : A2AClient) (agent_url : string)
    (task_id : PyVal) (tr : list NetCall) :
  let url := (rstrip_slash agent_url ++ "/tasks/" ++ py_format py_repr task_id)%string in
  let get := Get url (timeout self) in
  let wait := Sleep (poll_interval self) in
  let budget := Z.to_nat (max_poll_attempts self) in
  let answer k := env (tr ++ fruitless_checks get wait k ++ [get]) in
  let timeout_error :=
    TimeoutError ("Task " ++ py_format py_repr task_id ++ " did not complete in time") in
  (forall k record,
      k < budget ->
      (forall j r, j < k -> ~ terminal_answer (answer j) r) ->
      terminal_answer (answer k) record ->
      _poll_task env py_repr self agent_url task_id tr
      = (Ok record, tr ++ fruitless_checks get wait k ++ [get]))
  /\ ((forall j r, j < budget -> ~ terminal_answer (answer j) r) ->
      _poll_task env py_repr self agent_url task_id tr
      = (Raise timeout_error, tr ++ fruitless_checks get wait budget))
  /\ (exists calls,
        snd (_poll_task env py_repr self agent_url task_id tr) = tr ++ calls
        /\ count_gets calls <= budget
        /\ count_posts calls = 0
        /\ match fst (_poll_task env py_repr self agent_url task_id tr) with
           | Ok record =>
               exists d s, record = PDict d
                           /\ dict_get d "status" = Some (PStr s)
                           /\ (s = "completed" \/ s = "failed" \/ s = "cancelled")
           | Raise e => e = timeout_error
           end)
  /\ (forall e record,
        (2 <= max_poll_attempts self)%Z ->
        env (tr ++ [get]) = NetFail e ->
        terminal_answer (env (tr ++ [get; wait; get])) record ->
        _poll_task env py_repr self agent_url task_id tr
        = (Ok record, tr ++ [get; wait; get])).
Proof.
  intros url get wait budget answer timeout_error.
  unfold _poll_task. fold url. fold budget.
  split; [|split; [|split]].
  - intros k record Hk Hbefore Hat.
    apply (poll_loop_prompt self url task_id k budget tr record Hk Hbefore Hat).
  - intros Hnone. apply (poll_loop_timeout self url task_id budget tr Hnone).
  - destruct (poll_loop_spec self url task_id budget tr)
      as (calls & Htr & Hgets & Hposts & Hres).
    exists calls. repeat (split; [assumption|]).
    destruct (fst (poll_loop env py_repr self url task_id _ tr)) as [record|e].
    + destruct Hres as (before & _ & _ & Hlast).
      apply poll_result_iff in Hlast as (code & d & s & _ & -> & _ & Hstatus & Hs).
      exists d, s. auto.
    + apply Hres.
  - intros e record Hbudget Hfail Hsecond.
    apply (poll_loop_prompt self url task_id 1 budget tr record).
    + subst budget. lia.
    + intros j r Hj (code & d & s & Hresp & _).
      assert (j = 0) as -> by lia. cbn [fruitless_checks app] in Hresp.
      fold get in Hresp. rewrite Hfail in Hresp. discriminate.
    + exact Hsecond.
Qed.

End ClientProperties.

Section RetryProperties.

Variable env : list NetCall -> HttpOutcome.
Variable py_repr : PyVal -> string.
Variable wait_exponential : Z -> Q.
Variable retry_error_str : Exn -> string.

(** When no status check ever finds a terminal record, the loop spends its
    whole budget and raises. *)
Lemma poll_loop_exhausted (self : A2AClient) (url : string) (task_id : PyVal)
    (n : nat) (tr : list NetCall) :
  (forall tr' u t, poll_result (env (tr' ++ [Get u t])) = None) ->
  exists calls,
    poll_loop env py_repr self url task_id n tr =
    (Raise (TimeoutError ("Task " ++ py_format py_repr task_id
                          ++ " did not complete in time")), tr ++ calls)
    /\ count_gets calls = n /\ count_posts calls = 0.
Proof.
  intros Hnever.
  destruct (poll_loop_spec env py_repr self url task_id n tr)
    as (calls & Htr & _ & Hposts & Hres).
  exists calls.
  destruct (poll_loop env py_repr self url task_id n tr) as [[result|e] tr'];
    cbn [fst snd] in *.
  - destruct Hres as (before & -> & _ & Hlast).
    rewrite app_assoc, Hnever in Hlast. discriminate.
  - destruct Hres as (-> & Hcount & _). subst tr'. auto.
Qed.

(** A retried function every attempt of which raises, making [a]
    submissions and [b] status checks: all attempts are made, and the
    requests add up. *)
Lemma retrying_all_attempts_fail {A : Type} (f : Client A) (P : Exn -> Prop)
    (a b : nat) :
  (forall tr, exists calls e,
      f tr = (Raise e, tr ++ calls) /\ P e
      /\ count_posts calls = a /\ count_gets calls = b) ->
  forall more attempt_number tr, exists calls e,
    retrying wait_exponential retry_error_str more attempt_number f tr
    = (Raise (RetryError e (retry_error_str e)), tr ++ calls)
    /\ P e
    /\ count_posts calls = S more * a /\ count_gets calls = S more * b.
Proof.
  intros Hf. induction more as [|more IH]; intros j tr.
  - destruct (Hf tr) as (calls & e & Hrun & HP & Hposts & Hgets).
    exists calls, e. cbn [retrying]. unfold try_except. rewrite Hrun.
    repeat split; auto; lia.
  - destruct (Hf tr) as (calls & e & Hrun & HP & Hposts & Hgets).
    destruct (IH (j + 1)%Z (tr ++ calls ++ [Sleep (wait_exponential j)]))
      as (calls' & e' & Hrun' & HP' & Hposts' & Hgets').
    exists (calls ++ Sleep (wait_exponential j) :: calls'), e'.
    cbn [retrying]. unfold try_except. rewrite Hrun.
    unfold mbind, Client_bind, bind, sleep.
    rewrite <- app_assoc, Hrun'.
    split; [rewrite <- !app_assoc; reflexivity|].
    split; [exact HP'|].
    rewrite count_posts_app, count_gets_app, count_posts_cons, count_gets_cons.
    cbn [is_post is_get]. lia.
Qed.

(** C5, as the code has it.  The retry policy is around the whole of
    [send_task], the polling included.  On a network that accepts every
    submission and never shows a terminal record, submitting without
    waiting ends in the policy's [RetryError] around the poll's
    [TimeoutError], after the task was submitted three times and each
    submission was polled for its full budget. *)
Theorem send_task_resubmits_after_poll_timeout (self : A2AClient)
    (agent_url skill_id : string) (parameters : list (string * PyVal))
    (context : option (list (string * PyVal))) (tr : list NetCall) :
  (forall tr' u p t, exists result task_id,
      checked_json (env (tr' ++ [Post u p t])) = Ok result
      /\ py_getitem result "task_id" "'task_id'" = Ok task_id) ->
  (forall tr' u t, poll_result (env (tr' ++ [Get u t])) = None) ->
  exists calls msg,
    send_task env py_repr wait_exponential retry_error_str self agent_url skill_id
      parameters context false tr
    = (Raise (RetryError (TimeoutError msg) (retry_error_str (TimeoutError msg))),
       tr ++ calls)
    /\ count_posts calls = 3
    /\ count_gets calls = 3 * Z.to_nat (max_poll_attempts self).
Proof.
  intros Haccept Hnever.
  destruct (retrying_all_attempts_fail
              (send_task_body env py_repr self agent_url skill_id parameters context false)
              (fun e => exists msg, e = TimeoutError msg)
              1 (Z.to_nat (max_poll_attempts self))) with (more := 2) (attempt_number := 1%Z) (tr := tr)
    as (calls & e & Hrun & [msg ->] & Hposts & Hgets).
  - intros tr0. unfold send_task_body.
    unfold mbind, Client_bind, bind, client_post, lift. cbn [negb].
    match goal with
    | |- context [env (tr0 ++ [Post ?u ?p ?t])] =>
        destruct (Haccept tr0 u p t) as (result & task_id & Hjson & Hid);
        rewrite Hjson, Hid
    end.
    unfold _poll_task.
    match goal with
    | |- context [poll_loop env py_repr self ?url task_id ?n ?tr1] =>
        destruct (poll_loop_exhausted self url task_id n tr1 Hnever)
          as (calls & Hloop & Hgets & Hposts);
        rewrite Hloop
    end.
    eexists (_ :: calls), _. rewrite <- app_assoc. split; [reflexivity|].
    split; [eauto|].
    rewrite count_posts_cons, count_gets_cons. cbn. lia.
  - exists calls, msg. unfold send_task, retry_stop_after_attempt_3.
    rewrite Hrun. repeat split; lia.
Qed.

End RetryProperties.

(** C5, refuting the statement of the specification.  With a budget of
    two status checks and a task that stays in WORKING, one call of
    [send_task] without waiting sends the submission three times and polls
    six times. *)
Lemma poll_timeout_resends_submission :
  let run := send_task env_never_done repr_simple wait_exponential_1_1_10
               retry_error_str_simple impatient_client "http://h/" "echo" [] None
               false [] in
  count_posts (snd run) = 3
  /\ count_gets (snd run) = 6
  /\ fst run = Raise (RetryError (TimeoutError "Task t1 did not complete in time")
                        (retry_error_str_simple
                           (TimeoutError "Task t1 did not complete in time"))).
Proof. vm_compute. repeat split; reflexivity. Qed.

Lemma send_task_resubmits_after_poll_timeout_witness :
  exists calls msg,
    send_task env_never_done repr_simple wait_exponential_1_1_10 retry_error_str_simple
      impatient_client "http://h/" "echo" [] None false []
    = (Raise (RetryError (TimeoutError msg) (retry_error_str_simple (TimeoutError msg))),
       [] ++ calls)
    /\ count_posts calls = 3
    /\ count_gets calls = 3 * Z.to_nat (max_poll_attempts impatient_client).
Proof.
  apply (send_task_resubmits_after_poll_timeout env_never_done repr_simple
           wait_exponential_1_1_10 retry_error_str_simple impatient_client
           "http://h/" "echo" [] None []).
  - intros tr' u p t. unfold env_never_done. rewrite last_snoc.
    eexists _, _. split; reflexivity.
  - intros tr' u t. unfold env_never_done. rewrite last_snoc. reflexivity.
Defined.

(** ** The coordinator *)

Section OrchestratorProperties.

Variable env : list NetCall -> HttpOutcome.
Variable py_repr : PyVal -> string.
Variable wait_exponential : Z -> Q.
Variable retry_error_str : Exn -> string.
Variable plan : PyVal -> string -> Result Prediction.
Variable synthesize_results : PyVal -> string -> Result Synthesis.

(** C10.  Whatever [send_task] produced for a registered agent,
    [_call_agent] returns a value and does not raise.  For a completed
    record whose artifact list is empty or absent that value is the
    dictionary with the single key [error], holding the record's error
    entry.  A value that is not such an error dictionary comes from a
    completed record with at least one artifact, and is the content of the
    first artifact (or the empty dictionary when it has none). *)
Theorem call_agent_needs_an_artifact (self : OrchestratorAgent)
    (agent_name skill_id : string) (parameters : list (string * PyVal))
    (agent : AgentEndpoint) (tr tr' : list NetCall) (r : Result PyVal) :
  agents self !! agent_name = Some agent ->
  send_task env py_repr wait_exponential retry_error_str (a2a_client self)
    (ep_url agent) skill_id parameters None true tr = (r, tr') ->
  exists v,
    _call_agent env py_repr wait_exponential retry_error_str self agent_name
      skill_id parameters tr = (Ok v, tr')
    /\ (forall d,
           r = Ok (PDict d) ->
           dict_get d "status" = Some (PStr "completed") ->
           dict_get d "artifacts" = Some (PList []) \/ dict_get d "artifacts" = None ->
           v = PDict [("error", default (PStr "Unknown error") (dict_get d "error"))])
    /\ ((exists err, v = PDict [("error", err)])
        \/ (exists d first rest,
               r = Ok (PDict d)
               /\ dict_get d "status" = Some (PStr "completed")
               /\ dict_get d "artifacts" = Some (PList (PDict first :: rest))
               /\ v = default (PDict []) (dict_get first "content"))).
Proof.
  intros Hagent Hsend. unfold _call_agent. rewrite Hagent.
  unfold try_except, mbind, Client_bind, bind. rewrite Hsend.
  destruct r as [result|e]; [|eexists; split; [reflexivity|]; split; [discriminate|eauto]].
  destruct result as [| | | | |l|d|ty c md];
    try (eexists; split; [reflexivity|]; split; [discriminate|eauto]; fail).
  cbn [lift py_get].
  destruct (dict_get d "status") as [st|] eqn:Hst; cbn [py_eq_str];
    [|eexists; split; [reflexivity|]; split; [intros ? [= <-]; congruence | eauto]].
  destruct (py_eq_str st "completed") eqn:Hcompleted;
    [|eexists; split; [reflexivity|]; split;
      [intros ? [= <-] Hst'; assert (st = PStr "completed") as -> by congruence;
       vm_compute in Hcompleted; discriminate | eauto]].
  assert (st = PStr "completed") as ->.
  { destruct st; try discriminate. cbn in Hcompleted.
    case_bool_decide; [congruence|discriminate]. }
  destruct (dict_get d "artifacts") as [arts|] eqn:Harts;
    [|eexists; split; [reflexivity|]; split; [intros ? [= <-]; reflexivity | eauto]].
  destruct arts as [| | | |s|l|ad|ty c md];
    try (eexists; split; [cbn; reflexivity|]; split;
         [intros ? [= <-] _ [?|?]; congruence | eauto]; fail).
  - destruct b;
      (eexists; split; [cbn; reflexivity|]; split;
       [intros ? [= <-] _ [?|?]; congruence | eauto]).
  - cbn [py_truthy]. destruct (negb (n =? 0)%Z);
      (eexists; split; [cbn; reflexivity|]; split;
       [intros ? [= <-] _ [?|?]; congruence | eauto]).
  - cbn [py_truthy]. destruct (negb (Qnum q =? 0)%Z);
      (eexists; split; [cbn; reflexivity|]; split;
       [intros ? [= <-] _ [?|?]; congruence | eauto]).
  - destruct s as [|ch s];
      (eexists; split; [cbn; reflexivity|]; split;
       [intros ? [= <-] _ [?|?]; congruence | eauto]).
  - destruct l as [|first rest].
    + eexists; split; [cbn; reflexivity|]; split;
        [intros ? [= <-] _ _; reflexivity | eauto].
    + destruct first as [| | | | | |fd|];
        try (eexists; split; [cbn; reflexivity|]; split;
             [intros ? [= <-] _ [?|?]; congruence | eauto]; fail).
      eexists; split; [cbn; reflexivity|]; split;
        [intros ? [= <-] _ [?|?]; congruence |].
      right. exists d, fd, rest. auto.
  - destruct ad;
      (eexists; split; [cbn; reflexivity|]; split;
       [intros ? [= <-] _ [?|?]; congruence | eauto]).
Qed.

Lemma planning_step_ok (question : PyVal) (p : Prediction) (tr : list NetCall) :
  plan question BUSINESS_CONTEXT = Ok p ->
  planning_step plan question
    [("question", question); ("steps", PList []); ("agent_results", PDict [])] tr
  = (Ok (map strip (split_comma (required_skills p))), planned_results question p, tr).
Proof.
  intros Hplan. unfold planning_step, mbind, Body_bind, body_bind, body_lift.
  rewrite Hplan. reflexivity.
Qed.

(** A step whose agent is not registered does nothing at all. *)
Lemma discovery_step_skipped (self : OrchestratorAgent) (question : PyVal)
    (skills : list string) (results : list (string * PyVal)) (tr : list NetCall) :
  agents self !! "data_discovery" = None ->
  discovery_step env py_repr wait_exponential retry_error_str self question skills
    results tr = (Ok tt, results, tr).
Proof.
  intros Hnone. unfold discovery_step. rewrite Hnone.
  rewrite andb_false_r. reflexivity.
Qed.

Lemma sql_step_skipped (self : OrchestratorAgent) (question : PyVal)
    (skills : list string) (results : list (string * PyVal)) (tr : list NetCall) :
  agents self !! "sql_generation" = None ->
  sql_step env py_repr wait_exponential retry_error_str self question skills
    results tr = (Ok tt, results, tr).
Proof.
  intros Hnone. unfold sql_step. rewrite Hnone.
  rewrite andb_false_r. reflexivity.
Qed.

End OrchestratorProperties.

Lemma call_agent_needs_an_artifact_witness :
  fst (_call_agent (env_completed []) repr_simple wait_exponential_1_1_10
         retry_error_str_simple coordinator_without_sql "data_discovery"
         "discover-tables" [] [])
  = Ok (PDict [("error", PNone)]).
Proof.
  assert (Hagent : agents coordinator_without_sql !! "data_discovery"
                   = Some {| ep_name := "data_discovery";
                             ep_url := "http://localhost:8001";
                             ep_skills := ["discover-tables"] |})
    by (vm_compute; reflexivity).
  destruct (call_agent_needs_an_artifact (env_completed []) repr_simple
              wait_exponential_1_1_10 retry_error_str_simple coordinator_without_sql
              "data_discovery" "discover-tables" [] _ [] _ _ Hagent eq_refl)
    as (v & Hrun & Hempty & _).
  rewrite Hrun. cbn [fst]. f_equal.
  apply (Hempty (match completed_record [] with PDict d => d | _ => [] end));
    [vm_compute; reflexivity | reflexivity | left; reflexivity].
Defined.


(** * Further properties *)

(** ** Dictionaries *)

Lemma dict_get_set_eq {V : Type} (d : list (string * V)) (k : string) (v : V) :
  dict_get (dict_set d k v) k = Some v.
Proof.
  induction d as [|[k' v'] d IH]; cbn.
  - rewrite bool_decide_true by reflexivity. reflexivity.
  - destruct (bool_decide (k' = k)) eqn:Hk; cbn.
    + rewrite bool_decide_true by reflexivity. reflexivity.
    + rewrite Hk. exact IH.
Qed.

Lemma dict_get_set_ne {V : Type} (d : list (string * V)) (k k' : string) (v : V) :
  k <> k' -> dict_get (dict_set d k v) k' = dict_get d k'.
Proof.
  intros Hne. induction d as [|[k0 v0] d IH]; cbn.
  - rewrite bool_decide_false by exact Hne. reflexivity.
  - destruct (bool_decide (k0 = k)) eqn:Hk; cbn.
    + apply bool_decide_eq_true in Hk. subst k0.
      rewrite !bool_decide_false by exact Hne. reflexivity.
    + destruct (bool_decide (k0 = k')); [reflexivity | exact IH].
Qed.

Lemma dict_set_keys {V : Type} (d : list (string * V)) (k k' : string) (v : V) :
  k' ∈ map fst (dict_set d k v) <-> k' = k \/ k' ∈ map fst d.
Proof.
  induction d as [|[k0 v0] d IH]; cbn.
  - rewrite list_elem_of_singleton.
    split; [auto | intros [?|H]; [auto | inversion H]].
  - destruct (bool_decide (k0 = k)) eqn:Hk; cbn.
    + apply bool_decide_eq_true in Hk. subst k0. rewrite !elem_of_cons. tauto.
    + rewrite !elem_of_cons, IH. tauto.
Qed.

Lemma dict_set_keys_NoDup {V : Type} (d : list (string * V)) (k : string) (v : V) :
  NoDup (map fst d) -> NoDup (map fst (dict_set d k v)).
Proof.
  induction d as [|[k0 v0] d IH]; cbn; intros Hnd.
  - apply NoDup_singleton.
  - apply NoDup_cons in Hnd as [Hnotin Hnd].
    destruct (bool_decide (k0 = k)) eqn:Hk; cbn.
    + apply bool_decide_eq_true in Hk. subst k0. apply NoDup_cons. auto.
    + apply bool_decide_eq_false in Hk. apply NoDup_cons. split; [|auto].
      rewrite dict_set_keys. intros [?|?]; congruence.
Qed.

Lemma dict_get_is_Some {V : Type} (d : list (string * V)) (k : string) :
  is_Some (dict_get d k) <-> k ∈ map fst d.
Proof.
  induction d as [|[k0 v0] d IH]; cbn.
  - split; [intros [? ?]; discriminate | intros H; inversion H].
  - destruct (bool_decide (k0 = k)) eqn:Hk.
    + apply bool_decide_eq_true in Hk. subst. split; [left | eauto].
    + apply bool_decide_eq_false in Hk. rewrite elem_of_cons, IH.
      split; [auto | intros [?|?]; [congruence | auto]].
Qed.

(** ** The server, continued *)

(** The dictionary [{s.id: s for s in skills}] built on top of [d]. *)
Lemma skills_dict_fold (l : list AgentSkill) (d : list (string * AgentSkill)) (k : string) :
  (is_Some (dict_get (fold_left (fun d s => dict_set d (sk_id s) s) l d) k)
   <-> k ∈ map sk_id l \/ is_Some (dict_get d k))
  /\ (NoDup (map fst d) ->
      NoDup (map fst (fold_left (fun d s => dict_set d (sk_id s) s) l d)))
  /\ dict_get (fold_left (fun d s => dict_set d (sk_id s) s) l d) k
     = match last (filter (fun s => sk_id s = k) l) with
       | Some s => Some s
       | None => dict_get d k
       end.
Proof.
  revert d. induction l as [|s l IH]; intros d; cbn [fold_left map].
  - split; [|split]; [|auto|reflexivity].
    split; [auto | intros [H|H]; [inversion H | exact H]].
  - destruct (IH (dict_set d (sk_id s) s)) as (Hin & Hnd & Hlast).
    split; [|split].
    + rewrite Hin, elem_of_cons.
      destruct (decide (sk_id s = k)) as [<-|Hne].
      * rewrite dict_get_set_eq. split; [auto | eauto].
      * rewrite dict_get_set_ne by exact Hne.
        split; [intros [?|?]; auto | intros [[?|?]|?]; auto; congruence].
    + intros Hd. apply Hnd, dict_set_keys_NoDup, Hd.
    + rewrite Hlast, filter_cons.
      destruct (decide (sk_id s = k)) as [<-|Hne].
      * rewrite last_cons, dict_get_set_eq.
        destruct (last (filter (fun s0 => sk_id s0 = sk_id s) l)); reflexivity.
      * rewrite dict_get_set_ne by exact Hne. reflexivity.
Qed.

(** X1.  The server's skill table holds exactly the ids declared at
    construction, each once; under an id declared more than once it keeps
    the last declaration; the task store and the handler table start
    empty. *)
Theorem declared_skills_are_the_keys (name version description : string)
    (l : list AgentSkill) (port : Z) (host : string) (k : string) :
  let self := A2AServer_init name version description l port host in
  (is_Some (dict_get (skills self) k) <-> k ∈ map sk_id l)
  /\ NoDup (map fst (skills self))
  /\ dict_get (skills self) k = last (filter (fun s => sk_id s = k) l)
  /\ tasks self = ∅
  /\ handlers self = ∅.
Proof.
  cbn. destruct (skills_dict_fold l [] k) as (Hin & Hnd & Hlast).
  split; [|split; [|split]]; [| |rewrite Hlast|auto].
  - rewrite Hin. split; [intros [?|[? ?]]; [auto|discriminate] | auto].
  - apply Hnd. constructor.
  - destruct (last (filter (fun s => sk_id s = k) l)); reflexivity.
Qed.

(** Membership in the skill table of a freshly constructed server. *)
Lemma declared_skills_dict (name version description : string)
    (l : list AgentSkill) (port : Z) (host : string) (k : string) :
  is_Some (dict_get (skills (A2AServer_init name version description l port host)) k)
  -> k ∈ map sk_id l.
Proof.
  cbn. intros H. apply (skills_dict_fold l [] k) in H as [H|[? H]];
    [exact H | discriminate].
Qed.

Lemma map_result_asdict_ok (l : list PyVal) :
  forallb is_Artifact l = true -> map_result asdict l = Ok (map asdict_inner l).
Proof.
  induction l as [|x l IH]; cbn; [reflexivity|].
  intros [Hx Hl]%andb_true_iff. rewrite (IH Hl).
  destruct x; try discriminate. reflexivity.
Qed.

Lemma map_result_asdict_raise (l : list PyVal) :
  forallb is_Artifact l = false ->
  map_result asdict l
  = Raise (TypeError "asdict() should be called on dataclass instances").
Proof.
  induction l as [|x l IH]; cbn; [discriminate|].
  intros [Hx|Hl]%andb_false_iff.
  - destruct x; try discriminate; reflexivity.
  - destruct x; try reflexivity. cbn [asdict]. rewrite (IH Hl). reflexivity.
Qed.

(** Serialising with [asdict] leaves no [Artifact] instance behind. *)
Fixpoint asdict_inner_json_only (v : PyVal) : json_only (asdict_inner v) = true.
Proof.
  destruct v as [| | | | |l|d|ty c md]; cbn; try reflexivity.
  - induction l as [|x l IH]; cbn; [reflexivity|].
    rewrite (asdict_inner_json_only x). exact IH.
  - induction d as [|[k x] d IH]; cbn; [reflexivity|].
    rewrite (asdict_inner_json_only x). exact IH.
  - rewrite (asdict_inner_json_only c). cbn.
    rewrite andb_true_r.
    induction md as [|[k x] md IH]; cbn; [reflexivity|].
    rewrite (asdict_inner_json_only x). exact IH.
Qed.

Lemma map_asdict_inner_json_only (l : list PyVal) :
  forallb json_only (map asdict_inner l) = true.
Proof.
  induction l as [|x l IH]; cbn; [reflexivity|].
  rewrite asdict_inner_json_only. exact IH.
Qed.

(** X2.  A task record serialises exactly when every item of its artifact
    list is an [Artifact]: then [to_dict] gives the six-field dictionary,
    made of JSON shapes only; with any other item in the list it raises the
    [TypeError] of [asdict]. *)
Theorem to_dict_needs_artifacts (t : TaskResponse) :
  (forallb is_Artifact (artifacts t) = true ->
   to_dict t =
   Ok (PDict [("task_id", PStr (task_id t));
              ("status", PStr (TaskStatus_value (status t)));
              ("artifacts", PList (map asdict_inner (artifacts t)));
              ("error", match error t with Some e => PStr e | None => PNone end);
              ("created_at", PStr (created_at t));
              ("updated_at", PStr (updated_at t))])
   /\ forall d, to_dict t = Ok d -> json_only d = true)
  /\ (forallb is_Artifact (artifacts t) = false ->
      to_dict t = Raise (TypeError "asdict() should be called on dataclass instances")).
Proof.
  split; intros Harts; unfold to_dict.
  - rewrite (map_result_asdict_ok _ Harts). split; [reflexivity|].
    intros d [= <-]. cbn. rewrite map_asdict_inner_json_only.
    destruct (error t); reflexivity.
  - rewrite (map_result_asdict_raise _ Harts). reflexivity.
Qed.

Lemma register_all_spec (regs : list (string * Handler)) :
  forall (self self' : A2AServer) (k : string),
    register_all self regs = Ok self' ->
    handlers self' !! k
    = match last (filter (fun r => fst r = k) regs) with
      | Some r => Some (snd r)
      | None => handlers self !! k
      end
    /\ skills self' = skills self
    /\ tasks self' = tasks self
    /\ Forall (fun r => is_Some (dict_get (skills self) (fst r))) regs.
Proof.
  induction regs as [|[sid h] regs IH]; intros self self' k; cbn [register_all].
  - intros [= <-]. auto.
  - unfold register_handler at 1, dict_mem.
    destruct (dict_get (skills self) sid) as [sk|] eqn:Hsid; cbn [negb]; [|discriminate].
    intros Hrest. destruct (IH _ _ k Hrest) as (Hh & Hsk & Hts & Hall).
    cbn [handlers skills tasks with_handlers] in Hh, Hsk, Hts, Hall.
    split; [|split; [exact Hsk|split; [exact Hts|]]].
    + rewrite Hh, filter_cons. cbn [fst].
      destruct (decide (sid = k)) as [<-|Hne].
      * rewrite last_cons, lookup_insert_eq.
        destruct (last (filter (fun r => fst r = sid) regs)); reflexivity.
      * rewrite lookup_insert_ne by exact Hne. reflexivity.
    + constructor; [cbn; rewrite Hsid; eauto | exact Hall].
Qed.

(** X3.  When an agent is constructed and its registrations all succeed,
    the handler table holds exactly the registered ids, every one of them a
    declared skill, each with the handler registered last under it; the
    skill table and the task store are as the construction left them. *)
Theorem registered_handlers_are_declared (name version description : string)
    (l : list AgentSkill) (port : Z) (host : string)
    (regs : list (string * Handler)) (self : A2AServer) (k : string) :
  register_all (A2AServer_init name version description l port host) regs = Ok self ->
  (is_Some (handlers self !! k) <-> k ∈ map fst regs)
  /\ handlers self !! k = snd <$> last (filter (fun r => fst r = k) regs)
  /\ (k ∈ map fst regs -> k ∈ map sk_id l)
  /\ skills self = skills (A2AServer_init name version description l port host)
  /\ tasks self = ∅.
Proof.
  intros Hreg.
  destruct (register_all_spec regs _ _ k Hreg) as (Hh & Hsk & Hts & Hall).
  cbn [handlers A2AServer_init] in Hh. rewrite lookup_empty in Hh.
  assert (Hlast : handlers self !! k = snd <$> last (filter (fun r => fst r = k) regs)).
  { rewrite Hh. destruct (last _); reflexivity. }
  assert (Hiff : is_Some (handlers self !! k) <-> k ∈ map fst regs).
  { rewrite Hlast, fmap_is_Some. split.
    - intros [r Hr]. apply last_Some_elem_of, list_elem_of_filter in Hr as [<- Hr].
      apply list_elem_of_fmap. eauto.
    - intros (r & -> & Hr)%list_elem_of_fmap.
      assert (Hin : r ∈ filter (fun r0 => fst r0 = fst r) regs)
        by (apply list_elem_of_filter; auto).
      destruct (filter (fun r0 => fst r0 = fst r) regs) as [|x xs] eqn:Hf using rev_ind.
      + inversion Hin.
      + rewrite last_snoc. eauto. }
  split; [exact Hiff|]. split; [exact Hlast|]. split; [|auto].
  intros (r & -> & Hr)%list_elem_of_fmap.
  rewrite Forall_forall in Hall. specialize (Hall r Hr).
  apply (declared_skills_dict name version description l port host). exact Hall.
Qed.

Section ServerFurther.

Variable py_repr : PyVal -> string.

(** X4.  An accepted asynchronous submission answers with the new record
    (SUBMITTED, no artifacts, no error), schedules one job with the
    request's arguments, and a status request for the new id gives that same
    answer; every other record, the skills and the handlers are untouched. *)
Theorem submit_then_status (self : A2AServer) (request : TaskRequest)
    (uuid created updated : string) :
  is_Some (dict_get (skills self) (skill_id request)) ->
  exists self',
    create_task py_repr self request uuid created updated
    = (Ok (PDict [("task_id", PStr uuid);
                  ("status", PStr "submitted");
                  ("artifacts", PList []);
                  ("error", PNone);
                  ("created_at", PStr created);
                  ("updated_at", PStr updated)]),
       self',
       Some {| job_task_id := uuid; job_skill_id := skill_id request;
               job_parameters := parameters request;
               job_context := context request |})
    /\ get_task_status self' uuid
       = fst (fst (create_task py_repr self request uuid created updated))
    /\ (forall tid, tid <> uuid ->
        get_task_status self' tid = get_task_status self tid)
    /\ skills self' = skills self
    /\ handlers self' = handlers self.
Proof.
  intros Hskill. apply dict_mem_true in Hskill.
  unfold create_task. rewrite Hskill. cbn [negb].
  eexists. split; [reflexivity|]. cbn [fst].
  split; [|split; [|split; reflexivity]].
  - unfold get_task_status. cbn. rewrite lookup_insert_eq. reflexivity.
  - intros tid Hne. unfold get_task_status. cbn.
    rewrite lookup_insert_ne by congruence. reflexivity.
Qed.

(** X5.  Cancelling a task that is SUBMITTED or WORKING makes it CANCELLED
    and stamps the update time, leaves its other fields and every other
    record as they were, and a second cancellation, at any later time,
    gives the same answer and changes nothing. *)
Theorem cancel_pending_task (self : A2AServer) (tid now : string)
    (task : TaskResponse) :
  tasks self !! tid = Some task ->
  status task = SUBMITTED \/ status task = WORKING ->
  let cancelled := {| task_id := task_id task; status := CANCELLED;
                      artifacts := artifacts task; error := error task;
                      created_at := created_at task; updated_at := now |} in
  let self' := snd (cancel_task self tid now) in
  fst (cancel_task self tid now) = to_dict cancelled
  /\ tasks self' !! tid = Some cancelled
  /\ (forall t, t <> tid -> tasks self' !! t = tasks self !! t)
  /\ skills self' = skills self
  /\ handlers self' = handlers self
  /\ (forall later, cancel_task self' tid later = (to_dict cancelled, self')).
Proof.
  intros Htask Hstatus cancelled self'.
  assert (Hrun : cancel_task self tid now
                 = (to_dict cancelled,
                    with_tasks self (<[tid := cancelled]> (tasks self)))).
  { unfold cancel_task. rewrite Htask.
    destruct Hstatus as [-> | ->]; reflexivity. }
  subst self'. rewrite Hrun. cbn [fst snd].
  split; [reflexivity|]. split; [cbn; apply lookup_insert_eq|].
  split; [intros t Hne; cbn; apply lookup_insert_ne; congruence|].
  split; [reflexivity|]. split; [reflexivity|].
  intros later. unfold cancel_task. cbn [tasks with_tasks].
  rewrite lookup_insert_eq. reflexivity.
Qed.

(** X6.  The engine either finds no record under the task id, raises the
    [KeyError] and has changed nothing, or it runs to its end and leaves
    that record COMPLETED or FAILED with the final timestamp, its id and
    creation time as they were; a FAILED record keeps its artifacts and
    carries an error text.  No other record, no skill and no handler is
    touched. *)
Theorem execute_task_touches_one_record (self : A2AServer) (tid sid : string)
    (ps : list (string * PyVal)) (ctx : option (list (string * PyVal)))
    (now1 now2 : string) :
  match _execute_task py_repr self tid sid ps ctx now1 now2 with
  | Raise e => tasks self !! tid = None /\ e = KeyError (py_repr (PStr tid))
  | Ok self' =>
      exists task task',
        tasks self !! tid = Some task
        /\ tasks self' !! tid = Some task'
        /\ (status task' = COMPLETED \/ status task' = FAILED)
        /\ task_id task' = task_id task
        /\ created_at task' = created_at task
        /\ updated_at task' = now2
        /\ (status task' = FAILED ->
            artifacts task' = artifacts task /\ is_Some (error task'))
        /\ (forall t, t <> tid -> tasks self' !! t = tasks self !! t)
        /\ skills self' = skills self
        /\ handlers self' = handlers self
  end.
Proof.
  unfold _execute_task, _execute_task_until_await.
  destruct (tasks self !! tid) as [task|] eqn:Htask; [|auto].
  exists task. eexists. split; [reflexivity|].
  unfold _execute_task_after_await. cbn [tasks with_tasks skills handlers].
  rewrite lookup_alter_eq, lookup_insert_eq. cbn [fmap option_fmap option_map].
  split; [reflexivity|].
  destruct (handler_outcome (handlers self !! sid) sid ps ctx) as [result|e]; cbn;
    repeat split; auto; try discriminate; try (eauto; fail);
    intros t Hne; rewrite lookup_alter_ne, lookup_insert_ne by congruence;
    reflexivity.
Qed.

(** X7.  A synchronous submission of a declared skill whose handler returns
    a value that the engine stores as artifacts only is answered with the
    COMPLETED record, its artifacts serialised and its error null; a status
    request for the id afterwards gives the same answer. *)
Theorem sync_submit_returns_completed_record (self : A2AServer)
    (request : TaskRequest) (h : Handler) (result : PyVal)
    (uuid created updated now1 now2 : string) :
  is_Some (dict_get (skills self) (skill_id request)) ->
  handlers self !! skill_id request = Some h ->
  h (parameters request) (context request) = Ok result ->
  forallb is_Artifact (result_to_artifacts py_repr result) = true ->
  exists self',
    create_task_sync py_repr self request uuid created updated now1 now2
    = (Ok (PDict [("task_id", PStr uuid);
                  ("status", PStr "completed");
                  ("artifacts",
                   PList (map asdict_inner (result_to_artifacts py_repr result)));
                  ("error", PNone);
                  ("created_at", PStr created);
                  ("updated_at", PStr now2)]),
       self')
    /\ get_task_status self' uuid
       = fst (create_task_sync py_repr self request uuid created updated now1 now2).
Proof.
  intros Hskill Hh Hret Harts. apply dict_mem_true in Hskill.
  unfold create_task_sync. rewrite Hskill. cbn [negb].
  set (self1 := with_tasks self _).
  destruct (_execute_task_stored py_repr self1 uuid (skill_id request)
              (parameters request) (context request) now1 now2
              (new_task uuid created updated))
    as (self' & Hrun & _ & _ & Hstored).
  { subst self1. cbn. apply lookup_insert_eq. }
  exists self'. rewrite Hrun. unfold get_task_status. rewrite Hstored.
  subst self1. cbn [handlers with_tasks]. rewrite Hh. cbn [handler_outcome].
  rewrite Hret. cbn [fst].
  split; [|reflexivity].
  f_equal. unfold to_dict. cbn [artifacts settle with_updated_at with_status with_artifacts].
  rewrite (map_result_asdict_ok _ Harts). reflexivity.
Qed.

End ServerFurther.

(** ** Runs of the event loop *)

Lemma take_job_spec (tid : string) (l : list (Job * Handler)) (j : Job) (h : Handler)
    (rest : list (Job * Handler)) :
  take_job tid l = Some (j, h, rest) ->
  job_task_id j = tid /\ l ≡ₚ (j, h) :: rest.
Proof.
  revert rest. induction l as [|[j0 h0] l IH]; intros rest; cbn; [discriminate|].
  case_bool_decide as Hid.
  - intros [= <- <- <-]. auto.
  - destruct (take_job tid l) as [[[j' h'] rest']|]; [|discriminate].
    intros [= <- <- <-]. destruct (IH rest' eq_refl) as [Hj Hperm].
    split; [exact Hj|]. rewrite Hperm. apply Permutation_swap.
Qed.

Section RunProperties.

Variable py_repr : PyVal -> string.

Lemma step_keeps_jobs_consistent (sys : System) (ev : Event) (rest : list Event)
    (tid : string) :
  jobs_consistent sys ->
  uninterrupted_run py_repr sys (ev :: rest) = true ->
  jobs_consistent (step py_repr sys ev)
  /\ allowed_transition (status <$> tasks (server sys) !! tid)
       (status <$> tasks (server (step py_repr sys ev)) !! tid) = true.
Proof.
  intros (Hsched & Hsusp & Hnd1 & Hnd2) Hrun. unfold jobs_consistent.
  cbn [uninterrupted_run] in Hrun. apply andb_true_iff in Hrun as [Hev _].
  assert (Hsame : forall a : option TaskStatus, allowed_transition a a = true).
  { intros a. unfold allowed_transition. rewrite bool_decide_true by reflexivity.
    reflexivity. }
  destruct ev as [request uuid created updated | now1 now2 | tid0 now | tid0 now];
    [| | |discriminate].
  - (* a submission *)
    apply bool_decide_eq_true in Hev. cbn [step]. unfold create_task.
    destruct (dict_mem (skills (server sys)) (skill_id request)); cbn [negb].
    + cbn [server scheduled suspended tasks with_tasks].
      assert (Hother : forall t, is_Some (tasks (server sys) !! t) ->
                <[uuid := new_task uuid created updated]> (tasks (server sys)) !! t
                = tasks (server sys) !! t).
      { intros t [x Hx]. apply lookup_insert_ne. congruence. }
      split; [split; [|split; [|split]]|].
      * intros j [Hj|Hj]%elem_of_app.
        -- rewrite Hother; [auto|]. specialize (Hsched j Hj).
           destruct (tasks (server sys) !! job_task_id j); [eauto|discriminate].
        -- apply list_elem_of_singleton in Hj as ->. cbn.
           rewrite lookup_insert_eq. reflexivity.
      * intros jh Hjh. rewrite Hother; [auto|]. specialize (Hsusp jh Hjh).
        destruct (tasks (server sys) !! job_task_id (fst jh)); [eauto|discriminate].
      * rewrite map_app. cbn. apply NoDup_app. split; [exact Hnd1|].
        split; [|apply NoDup_singleton].
        intros t (j & Ht & Hj)%list_elem_of_fmap Hu%list_elem_of_singleton.
        specialize (Hsched j Hj). rewrite <- Ht, Hu, Hev in Hsched. discriminate.
      * exact Hnd2.
      * destruct (decide (tid = uuid)) as [->|Hne].
        -- rewrite lookup_insert_eq, Hev. reflexivity.
        -- rewrite lookup_insert_ne by congruence. apply Hsame.
    + cbn [server scheduled suspended]. rewrite app_nil_r.
      split; [repeat split; assumption | apply Hsame].
  - (* a job starts *)
    cbn [step]. destruct (scheduled sys) as [|j jobs] eqn:Hjobs.
    { split; [rewrite Hjobs; auto | apply Hsame]. }
    assert (Hj : (status <$> tasks (server sys) !! job_task_id j) = Some SUBMITTED)
      by (apply Hsched; left).
    unfold _execute_task_until_await.
    destruct (tasks (server sys) !! job_task_id j) as [task|] eqn:Htask; [|discriminate].
    cbn in Hj. injection Hj as Hj.
    cbn [map] in Hnd1. apply NoDup_cons in Hnd1 as [Hfresh Hnd1].
    assert (Hsched' : forall j', j' ∈ jobs -> job_task_id j' <> job_task_id j).
    { intros j' Hj' Heq. apply Hfresh. rewrite <- Heq.
      apply list_elem_of_fmap. eauto. }
    assert (Hsusp' : forall jh, jh ∈ suspended sys ->
                       job_task_id (fst jh) <> job_task_id j).
    { intros jh Hjh Heq. specialize (Hsusp jh Hjh). rewrite Heq, Htask in Hsusp.
      cbn in Hsusp. congruence. }
    destruct (handlers (server sys) !! job_skill_id j) as [h|] eqn:Hh.
    + cbn [server scheduled suspended tasks with_tasks].
      split; [split; [|split; [|split]]|].
      * intros j' Hj'. rewrite lookup_insert_ne by (apply not_eq_sym; auto).
        apply Hsched. right. exact Hj'.
      * intros jh [Hjh| ->%list_elem_of_singleton]%elem_of_app.
        -- rewrite lookup_insert_ne by (apply not_eq_sym; auto). auto.
        -- cbn. rewrite lookup_insert_eq. reflexivity.
      * exact Hnd1.
      * rewrite map_app. cbn. apply NoDup_app. split; [exact Hnd2|].
        split; [|apply NoDup_singleton].
        intros t (jh & -> & Hjh)%list_elem_of_fmap Heq%list_elem_of_singleton.
        exact (Hsusp' jh Hjh Heq).
      * destruct (decide (tid = job_task_id j)) as [->|Hne].
        -- rewrite lookup_insert_eq, Htask. cbn. rewrite Hj. reflexivity.
        -- rewrite lookup_insert_ne by congruence. apply Hsame.
    + unfold _execute_task_after_await.
      cbn [server scheduled suspended tasks with_tasks].
      split; [split; [|split; [|split]]|].
      * intros j' Hj'.
        rewrite lookup_alter_ne, lookup_insert_ne by (apply not_eq_sym; auto).
        apply Hsched. right. exact Hj'.
      * intros jh Hjh.
        rewrite lookup_alter_ne, lookup_insert_ne by (apply not_eq_sym; auto). auto.
      * exact Hnd1.
      * exact Hnd2.
      * destruct (decide (tid = job_task_id j)) as [->|Hne].
        -- rewrite lookup_alter_eq, lookup_insert_eq, Htask. cbn. rewrite Hj.
           reflexivity.
        -- rewrite lookup_alter_ne, lookup_insert_ne by congruence. apply Hsame.
  - (* a handler is done *)
    cbn [step].
    destruct (take_job tid0 (suspended sys)) as [[[j h] others]|] eqn:Htake.
    2:{ split; [repeat split; assumption | apply Hsame]. }
    apply take_job_spec in Htake as [Hid Hperm].
    assert (Hj : (status <$> tasks (server sys) !! tid0) = Some WORKING).
    { rewrite <- Hid. apply (Hsusp (j, h)). rewrite Hperm. left. }
    assert (Hnd2' : NoDup (job_task_id j :: map (fun jh => job_task_id (fst jh)) others)).
    { change (NoDup ((fun jh => job_task_id (fst jh)) <$> ((j, h) :: others))).
      rewrite <- Hperm. exact Hnd2. }
    apply NoDup_cons in Hnd2' as [Hfresh Hnd2'].
    unfold _execute_task_after_await.
    cbn [server scheduled suspended tasks with_tasks].
    split; [split; [|split; [|split]]|].
    + intros j' Hj'. rewrite lookup_alter_ne; [auto|].
      intros Heq. specialize (Hsched j' Hj'). rewrite <- Heq, Hj in Hsched.
      discriminate.
    + intros jh Hjh. rewrite lookup_alter_ne.
      * apply Hsusp. rewrite Hperm. right. exact Hjh.
      * intros Heq. apply Hfresh. rewrite Hid, Heq.
        apply list_elem_of_fmap. eauto.
    + exact Hnd1.
    + exact Hnd2'.
    + destruct (decide (tid = tid0)) as [->|Hne].
      * rewrite lookup_alter_eq.
        destruct (tasks (server sys) !! tid0) as [task|]; [|discriminate].
        cbn in Hj. injection Hj as Hj. cbn.
        destruct (h (job_parameters j) (job_context j)); cbn; rewrite Hj; reflexivity.
      * rewrite lookup_alter_ne by congruence. apply Hsame.
Qed.

Lemma run_transitions_allowed (evs : list Event) :
  forall (sys : System) (tid : string),
    jobs_consistent sys ->
    uninterrupted_run py_repr sys evs = true ->
    transitions_allowed
      ((status <$> tasks (server sys) !! tid) :: observed py_repr sys tid evs) = true.
Proof.
  induction evs as [|ev evs IH]; intros sys tid Hinv Hrun; [reflexivity|].
  destruct (step_keeps_jobs_consistent sys ev evs tid Hinv Hrun) as [Hinv' Hstep].
  cbn [observed transitions_allowed]. rewrite Hstep. cbn [andb].
  apply IH; [exact Hinv'|].
  cbn [uninterrupted_run] in Hrun. apply andb_true_iff in Hrun as [_ Hrun]. exact Hrun.
Qed.


End RunProperties.

(** ** The client, continued *)

Lemma rstrip_slash_snoc (s : string) : rstrip_slash (s ++ "/") = rstrip_slash s.
Proof.
  induction s as [|c s IH]; [reflexivity|].
  change (rstrip_slash (String c (s ++ "/")) = rstrip_slash (String c s)).
  cbn [rstrip_slash]. rewrite IH. reflexivity.
Qed.

Lemma rstrip_slash_idempotent (s : string) :
  rstrip_slash (rstrip_slash s) = rstrip_slash s.
Proof.
  induction s as [|c s IH]; cbn; [reflexivity|].
  destruct (rstrip_slash s) as [|c' s'] eqn:Hs.
  - case_bool_decide; cbn; [reflexivity|].
    rewrite bool_decide_false by assumption. reflexivity.
  - cbn in *. rewrite IH. reflexivity.
Qed.

Lemma py_key_eqb_refl (k : PyVal) : py_hashable k = true -> py_key_eqb k k = true.
Proof.
  destruct k; cbn; try discriminate; intros _; try reflexivity.
  - destruct b; reflexivity.
  - apply Qeq_bool_iff, Qeq_refl.
  - apply Qeq_bool_iff, Qeq_refl.
  - apply bool_decide_eq_true. reflexivity.
Qed.

Lemma cache_get_put (cache : list (PyVal * AgentInfo)) (k : PyVal) (v : AgentInfo) :
  py_hashable k = true -> cache_get (cache_put cache k v) k = Some v.
Proof.
  intros Hk. induction cache as [|[k' v'] cache IH]; cbn.
  - rewrite (py_key_eqb_refl k Hk). reflexivity.
  - destruct (py_key_eqb k' k) eqn:Hkk; cbn; rewrite Hkk; [reflexivity | exact IH].
Qed.

Section ClientFurtherProperties.

Variable env : list NetCall -> HttpOutcome.
Variable py_repr : PyVal -> string.
Variable wait_exponential : Z -> Q.
Variable retry_error_str : Exn -> string.

(** A retried function every attempt of which makes [a] POSTs and [b] GETs:
    between one and the allowed number of attempts are made, an exception
    only after the last of them, and a value is the value of an attempt. *)
Lemma retrying_attempts {A : Type} (f : Client A) (a b : nat) :
  (forall tr, exists calls,
      snd (f tr) = tr ++ calls /\ count_posts calls = a /\ count_gets calls = b) ->
  forall more attempt_number tr, exists calls n,
    snd (retrying wait_exponential retry_error_str more attempt_number f tr) = tr ++ calls
    /\ 1 <= n <= S more
    /\ count_posts calls = n * a
    /\ count_gets calls = n * b
    /\ match fst (retrying wait_exponential retry_error_str more attempt_number f tr) with
       | Ok x => exists tr0 tr1, f tr0 = (Ok x, tr1)
       | Raise e => n = S more /\ exists e0, e = RetryError e0 (retry_error_str e0)
       end.
Proof.
  intros Hf. induction more as [|more IH]; intros j tr.
  - destruct (Hf tr) as (calls & Htr & Hposts & Hgets).
    exists calls, 1. cbn [retrying]. unfold try_except.
    destruct (f tr) as [[x|e] tr'] eqn:Hrun; cbn [fst snd raise] in *;
      (split; [exact Htr|]); (split; [lia|]); (split; [lia|]); (split; [lia|]); eauto.
  - destruct (Hf tr) as (calls & Htr & Hposts & Hgets).
    cbn [retrying]. unfold try_except.
    destruct (f tr) as [[x|e] tr'] eqn:Hrun; cbn [fst snd] in *.
    + exists calls, 1. split; [exact Htr|]. repeat (split; [lia|]). eauto.
    + unfold mbind, Client_bind, bind, sleep.
      destruct (IH (j + 1)%Z (tr' ++ [Sleep (wait_exponential j)]))
        as (calls' & n & Htr' & Hn & Hposts' & Hgets' & Hres).
      exists (calls ++ Sleep (wait_exponential j) :: calls'), (S n).
      split; [rewrite Htr', Htr, <- !app_assoc; reflexivity|].
      split; [lia|].
      rewrite count_posts_app, count_gets_app, count_posts_cons, count_gets_cons.
      cbn [is_post is_get]. split; [lia|]. split; [lia|].
      destruct (fst (retrying wait_exponential retry_error_str more (j + 1) f
                       (tr' ++ [Sleep (wait_exponential j)]))) as [x|e'].
      * exact Hres.
      * destruct Hres as [-> Hres]. auto.
Qed.

(** One attempt at discovery makes one GET, whatever comes back. *)
Lemma discover_agent_body_trace (self : A2AClient) (cache : list (PyVal * AgentInfo))
    (agent_url : string) (tr : list NetCall) :
  snd (discover_agent_body env self cache agent_url tr)
  = tr ++ [Get (rstrip_slash agent_url ++ "/.well-known/agent.json") (timeout self)].
Proof.
  unfold discover_agent_body, mbind, Client_bind, bind, client_get, lift, ret.
  repeat match goal with
         | |- context [match ?r with Ok _ => _ | Raise _ => _ end] => destruct r
         end; reflexivity.
Qed.

Lemma discover_agent_body_ok (self : A2AClient) (cache cache' : list (PyVal * AgentInfo))
    (agent_url : string) (tr tr' : list NetCall) (agent : AgentInfo) :
  discover_agent_body env self cache agent_url tr = (Ok (agent, cache'), tr') ->
  info_url agent = agent_url
  /\ cache' = cache_put cache (info_name agent) agent
  /\ cache_get cache' (info_name agent) = Some agent.
Proof.
  unfold discover_agent_body, mbind, Client_bind, bind, client_get, lift, ret.
  repeat match goal with
         | |- context [match ?r with Ok _ => _ | Raise _ => _ end] =>
             destruct r eqn:?; try discriminate
         end.
  intros [= <- <- _]. cbn [info_url info_name].
  match goal with
  | H : cache_set _ _ _ = Ok _ |- _ => unfold cache_set in H
  end.
  destruct (py_hashable a0) eqn:Hhash; [|discriminate].
  match goal with H : Ok _ = Ok _ |- _ => injection H as <- end.
  repeat split. apply cache_get_put. exact Hhash.
Qed.

(** X9.  Discovery against any network makes between one and three GETs of
    the card and no other request.  It raises only after the third GET, and
    then the retry policy's [RetryError].  The agent it returns carries the
    address as the caller gave it and is in the cache under its name. *)
Theorem discover_agent_attempts (self : A2AClient) (cache : list (PyVal * AgentInfo))
    (agent_url : string) (tr : list NetCall) :
  exists calls n,
    snd (discover_agent env wait_exponential retry_error_str self cache agent_url tr)
    = tr ++ calls
    /\ 1 <= n <= 3
    /\ count_gets calls = n
    /\ count_posts calls = 0
    /\ match fst (discover_agent env wait_exponential retry_error_str self cache
                    agent_url tr) with
       | Ok (agent, cache') =>
           info_url agent = agent_url
           /\ cache' = cache_put cache (info_name agent) agent
           /\ cache_get cache' (info_name agent) = Some agent
       | Raise e => n = 3 /\ exists e0, e = RetryError e0 (retry_error_str e0)
       end.
Proof.
  unfold discover_agent, retry_stop_after_attempt_3.
  destruct (retrying_attempts (discover_agent_body env self cache agent_url) 0 1)
    with (more := 2) (attempt_number := 1%Z) (tr := tr)
    as (calls & n & Htr & Hn & Hposts & Hgets & Hres).
  { intros tr0. eexists. split; [apply discover_agent_body_trace|].
    rewrite count_posts_cons, count_gets_cons. split; reflexivity. }
  exists calls, n. split; [exact Htr|]. split; [exact Hn|].
  split; [lia|]. split; [lia|].
  destruct (fst (retrying wait_exponential retry_error_str 2 1
                   (discover_agent_body env self cache agent_url) tr))
    as [[agent cache']|e]; [|exact Hres].
  destruct Hres as (tr0 & tr1 & Hrun).
  exact (discover_agent_body_ok self cache cache' agent_url tr0 tr1 agent Hrun).
Qed.

Lemma retrying_step {A : Type} (f : Client A) (more : nat) (j : Z) (tr : list NetCall) :
  retrying wait_exponential retry_error_str (S more) j f tr
  = match f tr with
    | (Ok x, tr') => (Ok x, tr')
    | (Raise e, tr') =>
        retrying wait_exponential retry_error_str more (j + 1) f
          (tr' ++ [Sleep (wait_exponential j)])
    end.
Proof.
  cbn [retrying]. unfold try_except. destruct (f tr) as [[x|e] tr']; reflexivity.
Qed.

Lemma retrying_last {A : Type} (f : Client A) (j : Z) (tr : list NetCall) :
  retrying wait_exponential retry_error_str 0 j f tr
  = match f tr with
    | (Ok x, tr') => (Ok x, tr')
    | (Raise e, tr') => (Raise (RetryError e (retry_error_str e)), tr')
    end.
Proof.
  cbn [retrying]. unfold try_except. destruct (f tr) as [[x|e] tr']; reflexivity.
Qed.

Lemma discover_agent_body_fails (self : A2AClient) (cache : list (PyVal * AgentInfo))
    (agent_url : string) (tr : list NetCall) (e : Exn) :
  checked_json (env (tr ++ [Get (rstrip_slash agent_url ++ "/.well-known/agent.json")
                              (timeout self)])) = Raise e ->
  discover_agent_body env self cache agent_url tr
  = (Raise e, tr ++ [Get (rstrip_slash agent_url ++ "/.well-known/agent.json")
                       (timeout self)]).
Proof.
  intros Hfail.
  unfold discover_agent_body, mbind, Client_bind, bind, client_get, lift.
  rewrite Hfail. reflexivity.
Qed.

Lemma discover_agent_body_parses (self : A2AClient) (cache : list (PyVal * AgentInfo))
    (agent_url : string) (tr : list NetCall) (d : list (string * PyVal))
    (agent_name : string) :
  let agent := {| info_name := PStr agent_name; info_url := agent_url;
                  info_version := default (PStr "1.0.0") (dict_get d "version");
                  info_description := default (PStr EmptyString) (dict_get d "description");
                  info_skills := default (PList []) (dict_get d "skills") |} in
  checked_json (env (tr ++ [Get (rstrip_slash agent_url ++ "/.well-known/agent.json")
                              (timeout self)])) = Ok (PDict d) ->
  dict_get d "name" = Some (PStr agent_name) ->
  discover_agent_body env self cache agent_url tr
  = (Ok (agent, cache_put cache (PStr agent_name) agent),
     tr ++ [Get (rstrip_slash agent_url ++ "/.well-known/agent.json") (timeout self)]).
Proof.
  intros agent Hjson Hname.
  unfold discover_agent_body, mbind, Client_bind, bind, client_get, lift, ret.
  rewrite Hjson. cbn [py_getitem py_get]. rewrite Hname.
  subst agent. unfold default.
  destruct (dict_get d "version"), (dict_get d "description"), (dict_get d "skills");
    reflexivity.
Qed.

(** X10.  When the first two GETs of the card fail, for any reason, and the
    third gives a card with a text as its name, discovery returns that
    card's agent after exactly three GETs with the policy's two waits in
    between; absent entries of the card get their defaults. *)
Theorem discovery_succeeds_on_third_attempt (self : A2AClient)
    (cache : list (PyVal * AgentInfo)) (agent_url : string) (tr : list NetCall)
    (e1 e2 : Exn) (d : list (string * PyVal)) (agent_name : string) :
  let get := Get (rstrip_slash agent_url ++ "/.well-known/agent.json") (timeout self) in
  let calls := [get; Sleep (wait_exponential 1); get; Sleep (wait_exponential 2); get] in
  let agent := {| info_name := PStr agent_name; info_url := agent_url;
                  info_version := default (PStr "1.0.0") (dict_get d "version");
                  info_description := default (PStr EmptyString) (dict_get d "description");
                  info_skills := default (PList []) (dict_get d "skills") |} in
  checked_json (env (tr ++ [get])) = Raise e1 ->
  checked_json (env (tr ++ [get; Sleep (wait_exponential 1); get])) = Raise e2 ->
  checked_json (env (tr ++ calls)) = Ok (PDict d) ->
  dict_get d "name" = Some (PStr agent_name) ->
  discover_agent env wait_exponential retry_error_str self cache agent_url tr
  = (Ok (agent, cache_put cache (PStr agent_name) agent), tr ++ calls).
Proof.
  intros get calls agent H1 H2 H3 Hname.
  unfold discover_agent, retry_stop_after_attempt_3.
  rewrite retrying_step, (discover_agent_body_fails self cache agent_url tr e1 H1).
  fold get. rewrite retrying_step.
  rewrite (discover_agent_body_fails self cache agent_url _ e2);
    [|fold get; rewrite <- !app_assoc; exact H2].
  fold get. rewrite retrying_last.
  rewrite (discover_agent_body_parses self cache agent_url _ d agent_name);
    [|fold get; rewrite <- !app_assoc; exact H3 | exact Hname].
  fold get. rewrite <- !app_assoc. reflexivity.
Qed.

(** X11.  The health probe never raises: whatever the network does it
    makes one GET of [/health] with a timeout of five seconds and returns a
    boolean, which is true exactly when a response with status code 200
    came back. *)
Theorem health_check_never_raises (self : A2AClient) (agent_url : string)
    (tr : list NetCall) :
  let tr' := tr ++ [Get (rstrip_slash agent_url ++ "/health") (Qmake 5 1)] in
  exists healthy,
    A2AClient_health_check env self agent_url tr = (Ok healthy, tr')
    /\ (healthy = true <-> exists body, env tr' = Response 200 body).
Proof.
  intros tr'. unfold A2AClient_health_check, try_except. fold tr'.
  destruct (env tr') as [e|code body] eqn:Henv.
  - exists false. split; [reflexivity|].
    split; [discriminate | intros [? ?]; discriminate].
  - exists (code =? 200)%Z. split; [reflexivity|].
    rewrite Z.eqb_eq. split; [intros ->; eauto | intros [? [= -> _]]; reflexivity].
Qed.

(** One attempt at a waited submission makes one POST. *)
Lemma send_task_body_wait_trace (self : A2AClient) (agent_url skill_id : string)
    (parameters : list (string * PyVal)) (context : option (list (string * PyVal)))
    (tr : list NetCall) :
  exists call,
    snd (send_task_body env py_repr self agent_url skill_id parameters context true tr)
    = tr ++ [call]
    /\ is_post call = true.
Proof.
  unfold send_task_body, mbind, Client_bind, bind, client_post, lift, ret. cbn [negb].
  eexists. split; [destruct (checked_json _); reflexivity | reflexivity].
Qed.

(** X12.  A submission that waits for completion sends between one and
    three POSTs and never polls, whatever the network does; it raises only
    after the third POST, and then the retry policy's [RetryError]. *)
Theorem send_task_wait_attempts (self : A2AClient) (agent_url skill_id : string)
    (parameters : list (string * PyVal)) (context : option (list (string * PyVal)))
    (tr : list NetCall) :
  exists calls n,
    snd (send_task env py_repr wait_exponential retry_error_str self agent_url
           skill_id parameters context true tr) = tr ++ calls
    /\ 1 <= n <= 3
    /\ count_posts calls = n
    /\ count_gets calls = 0
    /\ forall e,
         fst (send_task env py_repr wait_exponential retry_error_str self agent_url
                skill_id parameters context true tr) = Raise e ->
         n = 3 /\ exists e0, e = RetryError e0 (retry_error_str e0).
Proof.
  unfold send_task, retry_stop_after_attempt_3.
  destruct (retrying_attempts
              (send_task_body env py_repr self agent_url skill_id parameters context true)
              1 0)
    with (more := 2) (attempt_number := 1%Z) (tr := tr)
    as (calls & n & Htr & Hn & Hposts & Hgets & Hres).
  { intros tr0.
    destruct (send_task_body_wait_trace self agent_url skill_id parameters context tr0)
      as (call & Htr0 & Hpost).
    exists [call]. split; [exact Htr0|].
    rewrite count_posts_cons, count_gets_cons, Hpost.
    destruct call; try discriminate. split; reflexivity. }
  exists calls, n. split; [exact Htr|]. split; [exact Hn|].
  split; [lia|]. split; [lia|].
  intros e He. rewrite He in Hres. exact Hres.
Qed.

(** X13.  Trailing slashes of the agent's address do not matter: a
    submission, waited for or polled, to an address with one more slash at
    its end behaves exactly as to the address itself. *)
Theorem send_task_ignores_trailing_slash (self : A2AClient) (agent_url skill_id : string)
    (parameters : list (string * PyVal)) (context : option (list (string * PyVal)))
    (wait_for_completion : bool) (tr : list NetCall) :
  send_task env py_repr wait_exponential retry_error_str self (agent_url ++ "/")
    skill_id parameters context wait_for_completion tr
  = send_task env py_repr wait_exponential retry_error_str self agent_url
      skill_id parameters context wait_for_completion tr.
Proof.
  unfold send_task, send_task_body, _poll_task.
  rewrite rstrip_slash_snoc. reflexivity.
Qed.

End ClientFurtherProperties.

(** ** The coordinator, continued *)

Lemma keeps_bind (I : list (string * PyVal) -> Prop) {A B : Type}
    (c : Body A) (k : A -> Body B) :
  keeps I c -> (forall a, keeps I (k a)) -> keeps I (body_bind c k).
Proof.
  intros Hc Hk rs tr HI. unfold body_bind.
  specialize (Hc rs tr HI). destruct (c rs tr) as [[[a|e] rs'] tr']; cbn in *.
  - apply Hk. exact Hc.
  - exact Hc.
Qed.

Lemma keeps_update (I : list (string * PyVal) -> Prop)
    (f : list (string * PyVal) -> list (string * PyVal)) :
  (forall rs, I rs -> I (f rs)) -> keeps I (body_update f).
Proof. intros Hf rs tr HI. cbn. auto. Qed.

Lemma keeps_lift (I : list (string * PyVal) -> Prop) {A : Type} (r : Result A) :
  keeps I (body_lift r).
Proof. intros rs tr HI. exact HI. Qed.

Lemma keeps_call (I : list (string * PyVal) -> Prop) {A : Type} (c : Client A) :
  keeps I (body_call c).
Proof. intros rs tr HI. unfold body_call. destruct (c tr). exact HI. Qed.

Lemma keeps_read (I : list (string * PyVal) -> Prop) : keeps I body_read.
Proof. intros rs tr HI. exact HI. Qed.

Lemma keeps_ret (I : list (string * PyVal) -> Prop) {A : Type} (a : A) :
  keeps I (body_ret a).
Proof. intros rs tr HI. exact HI. Qed.

Lemma results_shaped_set (question : PyVal) (rs : list (string * PyVal))
    (k : string) (v : PyVal) :
  k <> "question" -> k <> "steps" -> k <> "agent_results" ->
  results_shaped question rs -> results_shaped question (dict_set rs k v).
Proof.
  intros H1 H2 H3 (Hq & Hs & Ha). unfold results_shaped.
  rewrite !dict_get_set_ne by assumption. auto.
Qed.

Lemma results_shaped_append_step (question : PyVal) (rs : list (string * PyVal))
    (s : PyVal) :
  results_shaped question rs -> results_shaped question (append_step s rs).
Proof.
  intros (Hq & [l Hs] & Ha). unfold append_step. rewrite Hs.
  unfold results_shaped. rewrite dict_get_set_eq.
  rewrite !dict_get_set_ne by discriminate. eauto.
Qed.

Lemma results_shaped_set_agent_result (question : PyVal) (rs : list (string * PyVal))
    (k : string) (v : PyVal) :
  results_shaped question rs -> results_shaped question (set_agent_result k v rs).
Proof.
  intros (Hq & Hs & [d Ha]). unfold set_agent_result. rewrite Ha.
  unfold results_shaped. rewrite dict_get_set_eq.
  rewrite !dict_get_set_ne by discriminate. eauto.
Qed.

Section OrchestratorFurtherProperties.

Variable env : list NetCall -> HttpOutcome.
Variable py_repr : PyVal -> string.
Variable wait_exponential : Z -> Q.
Variable retry_error_str : Exn -> string.
Variable plan : PyVal -> string -> Result Prediction.
Variable synthesize_results : PyVal -> string -> Result Synthesis.

(** X14.  [_call_agent] raises exactly when the agent name is not
    registered, and then without any request: the [ValueError] naming the
    agent.  For a registered name, and so for any name just registered with
    [register_agent], it returns a value whatever the network does. *)
Theorem call_agent_raises_only_for_unknown_agent (self : OrchestratorAgent)
    (agent_name skill_id : string) (parameters : list (string * PyVal))
    (tr : list NetCall) :
  (agents self !! agent_name = None ->
   _call_agent env py_repr wait_exponential retry_error_str self agent_name skill_id
     parameters tr
   = (Raise (ValueError ("Unknown agent: " ++ agent_name)), tr))
  /\ (is_Some (agents self !! agent_name) ->
      exists v, fst (_call_agent env py_repr wait_exponential retry_error_str self
                       agent_name skill_id parameters tr) = Ok v)
  /\ (forall url skills,
        exists v, fst (_call_agent env py_repr wait_exponential retry_error_str
                         (register_agent self agent_name url skills)
                         agent_name skill_id parameters tr) = Ok v).
Proof.
  assert (Hreg : forall self0 : OrchestratorAgent,
             is_Some (agents self0 !! agent_name) ->
             exists v, fst (_call_agent env py_repr wait_exponential retry_error_str
                              self0 agent_name skill_id parameters tr) = Ok v).
  { intros self0 [agent Hagent]. unfold _call_agent. rewrite Hagent.
    unfold try_except.
    match goal with
    | |- context [match ?c with (_, _) => _ end] => destruct c as [[v|e] tr']
    end; cbn; eauto. }
  split; [|split].
  - intros Hnone. unfold _call_agent. rewrite Hnone. reflexivity.
  - apply Hreg.
  - intros url skills. apply Hreg. unfold register_agent. cbn.
    rewrite lookup_insert_eq. eauto.
Qed.

Lemma discovery_step_keeps (self : OrchestratorAgent) (question : PyVal)
    (skills : list string) :
  keeps (results_shaped question)
    (discovery_step env py_repr wait_exponential retry_error_str self question skills).
Proof.
  unfold discovery_step. destruct (_ && _); [|apply keeps_ret].
  apply keeps_bind; [apply keeps_call|]. intros r.
  apply keeps_bind;
    [apply keeps_update; intros; apply results_shaped_set_agent_result; assumption|].
  intros _. apply keeps_bind; [apply keeps_lift|]. intros tables.
  apply keeps_update. intros. apply results_shaped_append_step. assumption.
Qed.

Lemma sql_step_keeps (self : OrchestratorAgent) (question : PyVal)
    (skills : list string) :
  keeps (results_shaped question)
    (sql_step env py_repr wait_exponential retry_error_str self question skills).
Proof.
  unfold sql_step. destruct (_ && _); [|apply keeps_ret].
  apply keeps_bind; [apply keeps_read|]. intros rs0.
  apply keeps_bind; [apply keeps_lift|]. intros discovered.
  apply keeps_bind; [apply keeps_lift|]. intros tables.
  apply keeps_bind; [apply keeps_call|]. intros r.
  apply keeps_bind;
    [apply keeps_update; intros; apply results_shaped_set_agent_result; assumption|].
  intros _. apply keeps_bind; [apply keeps_lift|]. intros sql.
  apply keeps_bind; [apply keeps_lift|]. intros row_count.
  apply keeps_update. intros. apply results_shaped_append_step. assumption.
Qed.

Lemma synthesis_step_keeps (question : PyVal) :
  keeps (results_shaped question) (synthesis_step py_repr synthesize_results question).
Proof.
  unfold synthesis_step.
  apply keeps_bind; [apply keeps_read|]. intros rs0.
  apply keeps_bind; [apply keeps_lift|]. intros s.
  apply keeps_bind;
    [apply keeps_update; intros; apply results_shaped_set; try discriminate; assumption|].
  intros _. apply keeps_bind;
    [apply keeps_update; intros; apply results_shaped_set; try discriminate; assumption|].
  intros _. apply keeps_update. intros.
  apply results_shaped_set; try discriminate; assumption.
Qed.

Lemma planning_step_keeps (question : PyVal) :
  keeps (results_shaped question) (planning_step plan question).
Proof.
  unfold planning_step.
  apply keeps_bind; [apply keeps_lift|]. intros p.
  apply keeps_bind;
    [apply keeps_update; intros; apply results_shaped_set; try discriminate; assumption|].
  intros _. apply keeps_bind;
    [apply keeps_update; intros; apply results_shaped_append_step; assumption|].
  intros _. apply keeps_ret.
Qed.


End OrchestratorFurtherProperties.

(** ** Texts: stripping, splitting, cleaning *)

Lemma rstrip_idempotent (s : string) : rstrip (rstrip s) = rstrip s.
Proof.
  induction s as [|c s IH]; cbn [rstrip]; [reflexivity|].
  destruct (rstrip s) as [|c' s'] eqn:Hs.
  - destruct (is_space c) eqn:Hc; cbn [rstrip]; [reflexivity|].
    rewrite Hc. reflexivity.
  - cbn [rstrip] in *. rewrite IH. reflexivity.
Qed.

Lemma lstrip_shape (s : string) :
  lstrip s = EmptyString
  \/ exists c r, lstrip s = String c r /\ is_space c = false.
Proof.
  induction s as [|c s IH]; cbn [lstrip]; [auto|].
  destruct (is_space c) eqn:Hc; [exact IH | eauto].
Qed.

Lemma rstrip_keeps_head (c : ascii) (r : string) :
  is_space c = false -> exists r', rstrip (String c r) = String c r'.
Proof.
  intros Hc. cbn [rstrip]. destruct (rstrip r); [rewrite Hc|]; eauto.
Qed.

Lemma strip_idempotent (s : string) : strip (strip s) = strip s.
Proof.
  unfold strip. destruct (lstrip_shape s) as [-> | (c & r & -> & Hc)]; [reflexivity|].
  destruct (rstrip_keeps_head c r Hc) as [r' Hr].
  rewrite Hr at 1. cbn [lstrip]. rewrite Hc, <- Hr. apply rstrip_idempotent.
Qed.

Lemma split_fence_nonempty (s : string) : split_fence s <> [].
Proof.
  induction s as [|c s IH]; cbn [split_fence]; [discriminate|].
  destruct c as [[] [] [] [] [] [] [] []]; try (destruct (split_fence s); discriminate);
    destruct s as [|c1 s1]; try (destruct (split_fence _); discriminate);
    destruct c1 as [[] [] [] [] [] [] [] []];
    try (destruct (split_fence _); discriminate);
    destruct s1 as [|c2 s2]; try (destruct (split_fence _); discriminate);
    destruct c2 as [[] [] [] [] [] [] [] []];
    try (destruct (split_fence _); discriminate); discriminate.
Qed.

Lemma fenced_shape (s : string) :
  String.prefix "```" s = true ->
  exists rest, s = String "`" (String "`" (String "`" rest)).
Proof.
  destruct s as [|c0 [|c1 [|c2 rest]]]; cbn; try discriminate;
    repeat match goal with
           | |- context [if ?b then _ else _] => destruct b eqn:?; try discriminate
           end;
    intros _;
    repeat match goal with
           | H : Ascii.eqb _ _ = true |- _ => apply Ascii.eqb_eq in H; subst
           | H : ascii_dec _ _ = left _ |- _ => clear H
           end; subst; eauto.
Qed.

(** X16.  Cleaning a generated query never raises (an opening fence always
    has something after it to take), the cleaned query has no whitespace
    left at either end, and a query that does not open with a fence is
    returned as it is, stripped. *)
Theorem clean_sql_never_raises (sql : string) :
  exists query,
    clean_sql sql = Ok query
    /\ strip query = query
    /\ (String.prefix "```" (strip sql) = false -> query = strip sql).
Proof.
  unfold clean_sql.
  destruct (String.prefix "```" (strip sql)) eqn:Hfence.
  - destruct (fenced_shape _ Hfence) as [rest Hshape]. rewrite Hshape.
    cbn [split_fence].
    destruct (split_fence rest) as [|p ps] eqn:Hrest;
      [exfalso; exact (split_fence_nonempty rest Hrest)|].
    cbn [py_index1]. eexists. split; [reflexivity|].
    split; [apply strip_idempotent | discriminate].
  - eexists. split; [reflexivity|]. split; [apply strip_idempotent | reflexivity].
Qed.

Lemma split_comma_nonempty (s : string) : split_comma s <> [].
Proof.
  induction s as [|c s IH]; cbn [split_comma]; [discriminate|].
  case_bool_decide; [discriminate|]. destruct (split_comma s); discriminate.
Qed.

Lemma split_comma_no_comma (s x : string) :
  x ∈ split_comma s -> contains_char "," x = false.
Proof.
  revert x. induction s as [|c s IH]; intros x; cbn [split_comma].
  - intros ->%list_elem_of_singleton. reflexivity.
  - case_bool_decide as Hc.
    + intros [-> | Hx]%elem_of_cons; [reflexivity | auto].
    + destruct (split_comma s) as [|p ps] eqn:Hs.
      * intros ->%list_elem_of_singleton. cbn.
        rewrite bool_decide_false by exact Hc. reflexivity.
      * intros [-> | Hx]%elem_of_cons.
        -- cbn. rewrite bool_decide_false by exact Hc. apply IH. left.
        -- apply IH. right. exact Hx.
Qed.

Lemma lstrip_no_char (c : ascii) (s : string) :
  contains_char c s = false -> contains_char c (lstrip s) = false.
Proof.
  induction s as [|c' s IH]; cbn [lstrip]; [auto|].
  destruct (is_space c'); [|auto].
  cbn [contains_char]. intros [_ H]%orb_false_iff. auto.
Qed.

Lemma rstrip_no_char (c : ascii) (s : string) :
  contains_char c s = false -> contains_char c (rstrip s) = false.
Proof.
  induction s as [|c' s IH]; cbn [rstrip contains_char]; [auto|].
  intros [Hc Hs]%orb_false_iff. specialize (IH Hs).
  destruct (rstrip s) as [|c2 s2].
  - destruct (is_space c'); cbn [contains_char]; [reflexivity|].
    rewrite Hc. reflexivity.
  - cbn [contains_char] in *. rewrite Hc. exact IH.
Qed.

(** X17.  The skill names read from a planner's comma-separated list: there
    is always at least one, and each has no comma in it and no whitespace
    at either end. *)
Theorem parsed_skills_are_clean (required : string) :
  map strip (split_comma required) <> []
  /\ forall x, x ∈ map strip (split_comma required) ->
       strip x = x /\ contains_char "," x = false.
Proof.
  split.
  - destruct (split_comma required) eqn:Hs; [|discriminate].
    exfalso. exact (split_comma_nonempty required Hs).
  - intros x (y & -> & Hy)%list_elem_of_fmap. split; [apply strip_idempotent|].
    unfold strip. apply rstrip_no_char, lstrip_no_char.
    exact (split_comma_no_comma required y Hy).
Qed.

(** ** Handlers behind the engine *)

Section HandlersBehindTheEngine.

Variable py_repr : PyVal -> string.
Variable plan : PyVal -> string -> Result Prediction.
Variable synthesize_results : PyVal -> string -> Result Synthesis.

(** The answer of a synchronous submission is the record the handler's
    outcome settles. *)
Lemma create_task_sync_settles (self : A2AServer) (request : TaskRequest) (h : Handler)
    (uuid created updated now1 now2 : string) :
  is_Some (dict_get (skills self) (skill_id request)) ->
  handlers self !! skill_id request = Some h ->
  fst (create_task_sync py_repr self request uuid created updated now1 now2)
  = to_dict (settle py_repr (h (parameters request) (context request)) now2
               (with_updated_at (with_status (new_task uuid created updated) WORKING)
                  now1)).
Proof.
  intros Hskill Hh. apply dict_mem_true in Hskill.
  unfold create_task_sync. rewrite Hskill. cbn [negb].
  set (self1 := with_tasks self _).
  destruct (_execute_task_stored py_repr self1 uuid (skill_id request)
              (parameters request) (context request) now1 now2
              (new_task uuid created updated))
    as (self' & Hrun & _ & _ & Hstored).
  { subst self1. cbn. apply lookup_insert_eq. }
  rewrite Hrun. cbn [fst]. rewrite Hstored.
  subst self1. cbn [handlers with_tasks]. rewrite Hh. reflexivity.
Qed.

(** X18.  The plan-analysis skill behind the engine.  A synchronous
    submission without a question is answered with a FAILED record whose
    error is [Question is required]; when the planner raises, with a FAILED
    record carrying the planner's message (this handler does not catch it);
    otherwise with a COMPLETED record holding one [json] artifact with the
    plan and the required agents read from the planner's list. *)
Theorem plan_analysis_through_the_engine (self : A2AServer) (request : TaskRequest)
    (uuid created updated now1 now2 : string) :
  is_Some (dict_get (skills self) (skill_id request)) ->
  handlers self !! skill_id request = Some (_handle_plan_analysis plan) ->
  let question := default (PStr EmptyString) (dict_get (parameters request) "question") in
  let failed msg :=
    Ok (PDict [("task_id", PStr uuid); ("status", PStr "failed");
               ("artifacts", PList []); ("error", PStr msg);
               ("created_at", PStr created); ("updated_at", PStr now2)]) in
  let answer := fst (create_task_sync py_repr self request uuid created updated
                       now1 now2) in
  (py_truthy question = false -> answer = failed "Question is required")
  /\ (py_truthy question = true ->
      forall e, plan question BUSINESS_CONTEXT = Raise e -> answer = failed (exn_str e))
  /\ (py_truthy question = true ->
      forall p, plan question BUSINESS_CONTEXT = Ok p ->
      answer =
      Ok (PDict [("task_id", PStr uuid); ("status", PStr "completed");
                 ("artifacts",
                  PList [PDict [("type", PStr "json");
                                ("content",
                                 asdict_inner
                                   (PDict [("plan", task_plan p);
                                           ("required_agents",
                                            PList (map PStr
                                                     (map strip
                                                        (split_comma
                                                           (required_skills p)))))]));
                                ("metadata", PDict [])]]);
                 ("error", PNone);
                 ("created_at", PStr created); ("updated_at", PStr now2)])).
Proof.
  intros Hskill Hh question failed answer. subst answer.
  rewrite (create_task_sync_settles self request _ uuid created updated now1 now2
             Hskill Hh).
  unfold _handle_plan_analysis. fold question.
  split; [|split].
  - intros ->. reflexivity.
  - intros -> e ->. reflexivity.
  - intros -> p ->. reflexivity.
Qed.

Variable discovery_program : string -> string -> Result Discovery.
Variable generate : string -> string -> string -> Result Generated.
Variable unexpected_keyword : string -> string -> string.
Variable missing_arguments : string -> list string -> string.
Variable db : option (string -> Result (list PyVal)).
Variable table_descriptions : string.
Variable schema_prompt : string.

(** X19.  [process_query] never returns a result.  It hands the schema to
    the query writer under the keyword [schema], and the writer's [forward]
    has no such parameter (it is called [db_schema]): whenever the planner
    and the table finder answer, the run ends at step 3 with the
    [TypeError] for that keyword, whatever the chain of thought, the
    database and the synthesizer would do.  Before that, an exception of
    the planner or of the table finder ends the run. *)
Theorem process_query_stops_at_sql_generation (question : string) :
  let run := process_query py_repr plan synthesize_results discovery_program generate
               unexpected_keyword missing_arguments db table_descriptions
               schema_prompt question in
  (forall results, run <> Ok results)
  /\ (forall p found,
        plan (PStr question) BUSINESS_CONTEXT = Ok p ->
        discovery_program question table_descriptions = Ok found ->
        run = Raise (TypeError
                       (unexpected_keyword "SQLGenerationProgram.forward" "schema")))
  /\ (forall e, plan (PStr question) BUSINESS_CONTEXT = Raise e -> run = Raise e)
  /\ (forall p e,
        plan (PStr question) BUSINESS_CONTEXT = Ok p ->
        discovery_program question table_descriptions = Raise e ->
        run = Raise e).
Proof.
  intros run. subst run. unfold process_query.
  assert (Hcall : forall requirement schema rules,
             SQLGenerationProgram_call generate unexpected_keyword missing_arguments
               [("requirement", requirement); ("schema", schema);
                ("business_rules", rules)]
             = Raise (TypeError
                        (unexpected_keyword "SQLGenerationProgram.forward" "schema")))
    by reflexivity.
  rewrite Hcall.
  destruct (plan (PStr question) BUSINESS_CONTEXT) as [p|e].
  - destruct (discovery_program question table_descriptions) as [found|e].
    + repeat split; intros; congruence.
    + repeat split; intros; congruence.
  - repeat split; intros; congruence.
Qed.

End HandlersBehindTheEngine.

(** ** Discovery and data flow *)

Lemma advertised_ids_of_card (l : list AgentSkill) :
  advertised_ids (PList (map AgentSkill_asdict l)) = map (fun s => PStr (sk_id s)) l.
Proof.
  unfold advertised_ids. rewrite List.map_map. apply List.map_ext.
  intros s. reflexivity.
Qed.

Section DiscoveryAndDataFlow.

Variable env : list NetCall -> HttpOutcome.
Variable py_repr : PyVal -> string.
Variable wait_exponential : Z -> Q.
Variable retry_error_str : Exn -> string.

(** X20.  Round trip of the capability card.  When the GET of the card is
    answered with the card a server built at construction, discovery
    returns at once, with the server's name, version and description, and
    the skill ids the card lists are the ids declared at construction, in
    order; an id is listed exactly when the server's skill table has it, so
    exactly when a submission under it is accepted. *)
Theorem discovered_card_lists_the_declared_skills (self : A2AClient)
    (cache : list (PyVal * AgentInfo)) (agent_url : string) (tr : list NetCall)
    (name version description : string) (l : list AgentSkill) (port : Z)
    (host : string) :
  let get := Get (rstrip_slash agent_url ++ "/.well-known/agent.json") (timeout self) in
  env (tr ++ [get])
  = Response 200
      (Some (get_agent_card
               (A2AServer_agent_card name version description l port host))) ->
  exists agent,
    discover_agent env wait_exponential retry_error_str self cache agent_url tr
    = (Ok (agent, cache_put cache (PStr name) agent), tr ++ [get])
    /\ info_name agent = PStr name
    /\ info_version agent = PStr version
    /\ info_description agent = PStr description
    /\ advertised_ids (info_skills agent) = map (fun s => PStr (sk_id s)) l
    /\ forall sid,
         PStr sid ∈ advertised_ids (info_skills agent)
         <-> is_Some (dict_get
                        (skills (A2AServer_init name version description l port host))
                        sid).
Proof.
  intros get Henv.
  eexists. split; [|split; [|split; [|split; [|split]]]].
  - unfold discover_agent, retry_stop_after_attempt_3.
    rewrite retrying_step.
    rewrite (discover_agent_body_parses env self cache agent_url tr
               [("name", PStr name); ("version", PStr version);
                ("description", PStr description);
                ("url", PStr ("http://" ++ host ++ ":" ++ pretty port));
                ("skills", PList (map AgentSkill_asdict l))] name);
      [reflexivity | fold get; rewrite Henv; reflexivity | reflexivity].
  - reflexivity.
  - reflexivity.
  - reflexivity.
  - cbn [info_skills]. apply advertised_ids_of_card.
  - intros sid. cbn [info_skills]. change (default (PList []) _)
      with (PList (map AgentSkill_asdict l)).
    rewrite advertised_ids_of_card.
    destruct (skills_dict_fold l [] sid) as (Hin & _ & _). cbn [skills A2AServer_init].
    rewrite Hin. split.
    + intros (s & [= ->] & Hs)%list_elem_of_fmap. left.
      apply list_elem_of_fmap. eauto.
    + intros [(s & -> & Hs)%list_elem_of_fmap | [? ?]]; [|discriminate].
      apply list_elem_of_fmap. eauto.
Qed.

(** The first request of a waited submission, whatever follows. *)
Lemma send_task_wait_first_call (self : A2AClient) (agent_url skill_id : string)
    (parameters : list (string * PyVal)) (context : option (list (string * PyVal)))
    (tr : list NetCall) :
  exists rest,
    snd (send_task env py_repr wait_exponential retry_error_str self agent_url skill_id
           parameters context true tr)
    = tr ++ Post ((rstrip_slash agent_url ++ "/tasks") ++ "/sync")
              (Some (PDict [("skill_id", PStr skill_id);
                            ("parameters", PDict parameters);
                            ("context",
                             match context with Some c => PDict c | None => PNone end)]))
              (Qmake 120 1) :: rest.
Proof.
  unfold send_task, retry_stop_after_attempt_3. rewrite retrying_step.
  set (post := Post _ _ _).
  assert (Hbody : forall tr0, exists r,
             send_task_body env py_repr self agent_url skill_id parameters context
               true tr0 = (r, tr0 ++ [post])).
  { intros tr0. unfold send_task_body, mbind, Client_bind, bind, client_post, lift, ret.
    cbn [negb]. fold post. destruct (checked_json (env (tr0 ++ [post]))); eauto. }
  destruct (Hbody tr) as [[v|e] Hrun]; rewrite Hrun.
  - exists []. reflexivity.
  - destruct (retrying_attempts wait_exponential retry_error_str
                (send_task_body env py_repr self agent_url skill_id parameters context
                   true) 1 0)
      with (more := 1) (attempt_number := (1 + 1)%Z)
           (tr := (tr ++ [post]) ++ [Sleep (wait_exponential 1)])
      as (calls & n & Htr & _).
    { intros tr0. destruct (Hbody tr0) as [r Hr]. exists [post]. rewrite Hr.
      split; [reflexivity|]. rewrite count_posts_cons, count_gets_cons.
      split; reflexivity. }
    exists (Sleep (wait_exponential 1) :: calls).
    rewrite Htr, <- !app_assoc. reflexivity.
Qed.

(** [_call_agent] adds to the trace what its submission adds. *)
Lemma call_agent_trace (self : OrchestratorAgent) (agent_name skill_id : string)
    (parameters : list (string * PyVal)) (agent : AgentEndpoint) (tr : list NetCall) :
  agents self !! agent_name = Some agent ->
  snd (_call_agent env py_repr wait_exponential retry_error_str self agent_name
         skill_id parameters tr)
  = snd (send_task env py_repr wait_exponential retry_error_str (a2a_client self)
           (ep_url agent) skill_id parameters None true tr).
Proof.
  intros Hagent. unfold _call_agent, error_of. rewrite Hagent.
  unfold try_except, mbind, Client_bind, bind, lift, ret.
  destruct (send_task _ _ _ _ _ _ _ _ _ _ _) as [[result|e] tr']; [|reflexivity].
  cbn [snd].
  repeat match goal with
         | |- context [match ?r with Ok _ => _ | Raise _ => _ end] => destruct r
         | |- context [if ?b then _ else _] => destruct b
         end; reflexivity.
Qed.

(** X21.  What the discovery step found is what the SQL step sends.  With
    the SQL agent registered and its skill planned, the step's first
    request is a POST to that agent's synchronous endpoint whose parameters
    are the question, the tables read from the discovery agent's entry of
    the results, and [execute: True]; and after a discovery step has stored
    the dictionary [dd], those tables are [dd]'s (none when it has none). *)
Theorem sql_step_sends_discovered_tables (self : OrchestratorAgent) (question : PyVal)
    (skills : list string) (results ar : list (string * PyVal)) (tr : list NetCall)
    (agent : AgentEndpoint) (tables : PyVal) :
  "text-to-sql" ∈ skills ->
  agents self !! "sql_generation" = Some agent ->
  dict_get results "agent_results" = Some (PDict ar) ->
  py_get (default (PDict []) (dict_get ar "data_discovery")) "tables" (PList [])
  = Ok tables ->
  (exists rest,
      snd (sql_step env py_repr wait_exponential retry_error_str self question skills
             results tr)
      = tr ++ Post ((rstrip_slash (ep_url agent) ++ "/tasks") ++ "/sync")
                (Some (PDict [("skill_id", PStr "text-to-sql");
                              ("parameters",
                               PDict [("requirement", question);
                                      ("tables", tables);
                                      ("execute", PBool true)]);
                              ("context", PNone)]))
                (Qmake 120 1) :: rest)
  /\ (forall dd results0 step,
        (exists ar0, dict_get results0 "agent_results" = Some (PDict ar0)) ->
        results = append_step step (set_agent_result "data_discovery" (PDict dd) results0) ->
        tables = default (PList []) (dict_get dd "tables")).
Proof.
  intros Hskill Hagent Har Htables. split.
  - unfold sql_step. rewrite bool_decide_true by exact Hskill.
    rewrite Hagent. rewrite bool_decide_true by eauto. cbn [andb].
    unfold mbind, Body_bind, body_bind, body_read, body_lift.
    unfold agent_results_of. rewrite Har.
    assert (Hfound : py_get (PDict ar) "data_discovery" (PDict [])
                     = Ok (default (PDict []) (dict_get ar "data_discovery")))
      by (cbn; destruct (dict_get ar "data_discovery"); reflexivity).
    rewrite Hfound, Htables.
    unfold body_call.
    destruct (send_task_wait_first_call (a2a_client self) (ep_url agent) "text-to-sql"
                [("requirement", question); ("tables", tables); ("execute", PBool true)]
                None tr) as [rest Hrest].
    rewrite <- (call_agent_trace self "sql_generation" _ _ agent tr Hagent) in Hrest.
    destruct (_call_agent _ _ _ _ _ _ _ _ _) as [[r|e] tr']; cbn [snd] in Hrest;
      subst tr'; exists rest; [|reflexivity].
    unfold body_update.
    repeat match goal with
           | |- context [match ?r with Ok _ => _ | Raise _ => _ end] => destruct r
           end; reflexivity.
  - intros dd results0 step [ar0 Har0] ->.
    unfold append_step, set_agent_result in Har. rewrite Har0 in Har.
    assert (Hget : forall rs : list (string * PyVal),
               dict_get
                 (match dict_get rs "steps" with
                  | Some (PList l0) => dict_set rs "steps" (PList (l0 ++ [step]))
                  | _ => rs
                  end) "agent_results" = dict_get rs "agent_results").
    { intros rs. destruct (dict_get rs "steps") as [[]|]; try reflexivity.
      apply dict_get_set_ne. discriminate. }
    rewrite Hget, dict_get_set_eq in Har. injection Har as <-.
    rewrite dict_get_set_eq in Htables.
    cbn in Htables. injection Htables as <-. reflexivity.
Qed.

End DiscoveryAndDataFlow.

(** ** The data discovery agent *)

Lemma elem_of_fromkeys (l : list string) (t : string) :
  t ∈ fromkeys l <-> t ∈ l.
Proof.
  induction l as [|x l IH]; cbn [fromkeys]; [reflexivity|].
  rewrite !elem_of_cons, list_elem_of_filter, IH.
  destruct (decide (t = x)); tauto.
Qed.

Lemma fromkeys_NoDup (l : list string) : NoDup (fromkeys l).
Proof.
  induction l as [|x l IH]; cbn [fromkeys]; constructor.
  - rewrite list_elem_of_filter. tauto.
  - apply NoDup_filter, IH.
Qed.

(** A second pass removes nothing. *)
Lemma fromkeys_NoDup_id (l : list string) : NoDup l -> fromkeys l = l.
Proof.
  induction 1 as [|x l Hx Hl IH]; cbn [fromkeys]; [reflexivity|].
  rewrite IH. f_equal.
  clear -Hx. induction l as [|y l IH]; [reflexivity|].
  rewrite filter_cons. destruct (decide (y <> x)) as [_|Hy].
  - f_equal. apply IH. rewrite elem_of_cons in Hx. tauto.
  - exfalso. apply Hx. rewrite elem_of_cons. left.
    destruct (decide (x = y)); [assumption|]. exfalso. apply Hy. congruence.
Qed.

Lemma elem_of_matching_tables (question_lower t : string) :
  t ∈ flat_map (fun group => if group_matches question_lower (fst group)
                             then snd group else []) keywords_to_tables
  <-> exists group, group ∈ keywords_to_tables
                    /\ group_matches question_lower (fst group) = true
                    /\ t ∈ snd group.
Proof.
  rewrite list_elem_of_In, in_flat_map. split.
  - intros (g & Hg & Ht). exists g. rewrite list_elem_of_In. split; [assumption|].
    destruct (group_matches question_lower (fst g)); [|destruct Ht].
    split; [reflexivity|]. apply list_elem_of_In, Ht.
  - intros (g & Hg & Hm & Ht). exists g. split; [apply list_elem_of_In, Hg|].
    rewrite Hm. apply list_elem_of_In, Ht.
Qed.

Section DataDiscoveryProperties.

Variable py_lower : string -> string.
Variable retail_tables : list (string * PyVal).
Variable discovery_program : PyVal -> string -> Result TableDiscovery.
Variable table_descriptions : string.

Lemma schema_details_fold (tables : list string) (d : list (string * PyVal)) (t : string) :
  NoDup (map fst d) ->
  let d' := fold_left (fun d t => match dict_get retail_tables t with
                                  | Some info => dict_set d t info
                                  | None => d
                                  end) tables d in
  NoDup (map fst d')
  /\ dict_get d' t
     = if bool_decide (t ∈ tables /\ is_Some (dict_get retail_tables t))
       then dict_get retail_tables t else dict_get d t.
Proof.
  revert d. induction tables as [|x tables IH]; intros d Hd; cbn [fold_left].
  - split; [assumption|]. rewrite bool_decide_false; [reflexivity|].
    intros [H _]. inversion H.
  - set (d1 := match dict_get retail_tables x with
               | Some info => dict_set d x info
               | None => d
               end).
    assert (Hd1 : NoDup (map fst d1)).
    { subst d1. destruct (dict_get retail_tables x); [|assumption].
      apply dict_set_keys_NoDup, Hd. }
    destruct (IH d1 Hd1) as [Hnd Hget]. split; [exact Hnd|].
    rewrite Hget.
    destruct (decide (t ∈ tables /\ is_Some (dict_get retail_tables t))) as [Hin|Hout].
    + rewrite !bool_decide_true; [reflexivity| |assumption].
      split; [apply elem_of_cons; tauto | tauto].
    + rewrite (bool_decide_false _ Hout).
      destruct (decide (t = x)) as [->|Hne].
      * subst d1. destruct (dict_get retail_tables x) as [info|] eqn:Hx.
        -- rewrite bool_decide_true by (split; [apply elem_of_cons; tauto | eauto]).
           apply dict_get_set_eq.
        -- rewrite bool_decide_false; [reflexivity|].
           intros [_ [? ?]]. discriminate.
      * rewrite bool_decide_false.
        -- subst d1. destruct (dict_get retail_tables x); [|reflexivity].
           apply dict_get_set_ne. congruence.
        -- rewrite elem_of_cons. tauto.
Qed.

(** X22.  The fallback's choice of tables.  For a text question
    [_fallback_discovery] returns one [json] artifact; its tables are never
    empty and never repeat; a table is among them exactly when a keyword
    group with a keyword occurring in the lowered question lists it, or,
    when no group has such a keyword, when it is one of the three default
    tables. *)
Theorem fallback_discovery_tables (q : string) :
  let tables := fallback_tables (py_lower q) in
  _fallback_discovery py_lower retail_tables (PStr q)
  = Ok (PList [Artifact "json"
                 (PDict [("tables", PList (map PStr tables));
                         ("explanation",
                          PStr "Tables identified based on keyword matching");
                         ("join_hints",
                          PStr "Join on store_id, product_id as appropriate");
                         ("schema_details",
                          PDict (schema_details_of retail_tables tables))])])
  /\ tables <> []
  /\ NoDup tables
  /\ forall t,
       t ∈ tables
       <-> (exists group, group ∈ keywords_to_tables
                          /\ group_matches (py_lower q) (fst group) = true
                          /\ t ∈ snd group)
           \/ ((forall group, group ∈ keywords_to_tables ->
                              group_matches (py_lower q) (fst group) = false)
               /\ t ∈ ["sales_transactions"; "products_catalog"; "stores_locations"]).
Proof.
  intros tables. split; [reflexivity|]. subst tables.
  unfold fallback_tables.
  set (found := flat_map _ keywords_to_tables).
  assert (Hfound : forall t, t ∈ fromkeys found <->
            exists group, group ∈ keywords_to_tables
                          /\ group_matches (py_lower q) (fst group) = true
                          /\ t ∈ snd group).
  { intros t. rewrite elem_of_fromkeys. apply elem_of_matching_tables. }
  assert (Hnonempty : Forall (fun group : list string * list string => snd group <> [])
                        keywords_to_tables)
    by (repeat constructor; discriminate).
  pose proof (fromkeys_NoDup found) as Hnd.
  destruct (fromkeys found) as [|x rest] eqn:Hfk.
  - split; [discriminate|]. split.
    { apply (bool_decide_unpack _). vm_compute. exact I. }
    assert (Hnone : forall group, group ∈ keywords_to_tables ->
                      group_matches (py_lower q) (fst group) = false).
    { intros group Hg.
      destruct (group_matches (py_lower q) (fst group)) eqn:Hm; [|reflexivity].
      exfalso. rewrite Forall_forall in Hnonempty. specialize (Hnonempty group Hg).
      destruct (snd group) as [|t ts] eqn:Hs; [congruence|].
      assert (Hin : t ∈ @nil string); [|inversion Hin].
      apply Hfound. exists group. rewrite Hs. split; [assumption|].
      split; [assumption | left]. }
    intros t. split; [tauto|].
    intros [(group & Hg & Hm & _) | [_ Ht]]; [|exact Ht].
    rewrite (Hnone group Hg) in Hm. discriminate.
  - split; [discriminate|]. split; [exact Hnd|].
    intros t. rewrite Hfound. split; [tauto|].
    intros [H | [Hnone _]]; [exact H|].
    exfalso. assert (Hx : x ∈ x :: rest) by left.
    apply Hfound in Hx as (group & Hg & Hm & _).
    rewrite (Hnone group Hg) in Hm. discriminate.
Qed.

(** X23.  The schema details handed back with the tables.  The dictionary
    built from a list of table names has no repeated key, and it holds a
    name exactly when the name is in the list and the retail schema has
    it, with the schema's own entry. *)
Theorem schema_details_are_the_known_tables (tables : list string) :
  NoDup (map fst (schema_details_of retail_tables tables))
  /\ forall t,
       dict_get (schema_details_of retail_tables tables) t
       = if bool_decide (t ∈ tables) then dict_get retail_tables t else None.
Proof.
  destruct (schema_details_fold tables [] "" NoDup_nil_2) as [Hnd _].
  split; [exact Hnd|]. intros t.
  destruct (schema_details_fold tables [] t NoDup_nil_2) as [_ Hget].
  unfold schema_details_of. rewrite Hget. cbn [dict_get].
  destruct (decide (t ∈ tables)) as [Hin|Hout].
  - rewrite (bool_decide_true (t ∈ tables)) by assumption.
    destruct (dict_get retail_tables t) eqn:Ht.
    + rewrite bool_decide_true by eauto. reflexivity.
    + rewrite bool_decide_false; [reflexivity|]. intros [_ [? ?]]. discriminate.
  - rewrite !bool_decide_false; [reflexivity | assumption | tauto].
Qed.

(** X24.  What [_handle_discover_tables] can do.  Without a question (or
    with an empty one) it raises [Question is required].  For a non-empty
    text it never raises, whatever the table finder does: it returns one
    [json] artifact whose tables are either all tables of the retail
    schema (the finder's list, filtered) or the fallback's tables.  Only a
    question that is not a text can make it raise otherwise: when the
    finder fails on it, the fallback's [lower] raises. *)
Theorem discover_tables_outcomes (parameters : list (string * PyVal))
    (context : option (list (string * PyVal))) :
  let question := default (PStr EmptyString) (dict_get parameters "question") in
  let r := _handle_discover_tables py_lower retail_tables discovery_program
             table_descriptions parameters context in
  (py_truthy question = false -> r = Raise (ValueError "Question is required"))
  /\ (forall q, question = PStr q -> q <> EmptyString ->
      exists tables explanation join_hints,
        r = Ok (PList [Artifact "json"
                         (PDict [("tables", PList (map PStr tables));
                                 ("explanation", explanation);
                                 ("join_hints", join_hints);
                                 ("schema_details",
                                  PDict (schema_details_of retail_tables tables))])])
        /\ ((forall t, t ∈ tables -> is_Some (dict_get retail_tables t))
            \/ tables = fallback_tables (py_lower q)))
  /\ (py_truthy question = true -> (forall q, question <> PStr q) ->
      forall e, discovery_program question table_descriptions = Raise e ->
      r = Raise (AttributeError
                   ("'" ++ py_type_name question ++ "' object has no attribute 'lower'"))).
Proof.
  intros question r. subst r. unfold _handle_discover_tables. fold question.
  split; [|split].
  - intros ->. reflexivity.
  - intros q -> Hq.
    assert (Htruthy : py_truthy (PStr q) = true)
      by (cbn; rewrite bool_decide_false by assumption; reflexivity).
    rewrite Htruthy. cbn [negb].
    destruct (discovery_program (PStr q) table_descriptions) as [result|e].
    + destruct (td_relevant_tables result) as [| | | |s| | |] eqn:Hr;
        try (do 3 eexists; split; [reflexivity | right; reflexivity]).
      do 3 eexists. split; [reflexivity|]. left.
      intros t Ht. apply list_elem_of_filter in Ht as [Ht _]. exact Ht.
    + do 3 eexists. split; [reflexivity | right; reflexivity].
  - intros -> Hq e ->. cbn [negb].
    destruct question; try reflexivity. exfalso. eapply Hq. reflexivity.
Qed.

End DataDiscoveryProperties.

Section DataDiscoveryAgentRuns.

Variable py_repr : PyVal -> string.
Variable py_lower : string -> string.
Variable retail_tables : list (string * PyVal).
Variable discovery_program : PyVal -> string -> Result TableDiscovery.
Variable table_descriptions : string.
Variable _handle_get_schema : Handler.

(** X25.  The data discovery agent as it is constructed.  Its constructor
    does not raise (both skills it registers are declared), and a
    synchronous [discover-tables] submission with a non-empty text question
    is always answered with a COMPLETED record holding exactly one [json]
    artifact, whether or not the table finder works; the tables in it are
    tables of the retail schema or the fallback's. *)
Theorem discovery_agent_completes_text_questions (port : Z) (request : TaskRequest)
    (uuid created updated now1 now2 q : string) :
  skill_id request = "discover-tables" ->
  dict_get (parameters request) "question" = Some (PStr q) ->
  q <> EmptyString ->
  exists self tables explanation join_hints,
    DataDiscoveryAgent_init py_lower retail_tables discovery_program table_descriptions
      _handle_get_schema port = Ok self
    /\ fst (create_task_sync py_repr self request uuid created updated now1 now2)
       = Ok (PDict [("task_id", PStr uuid); ("status", PStr "completed");
                    ("artifacts",
                     PList [PDict [("type", PStr "json");
                                   ("content",
                                    asdict_inner
                                      (PDict [("tables", PList (map PStr tables));
                                              ("explanation", explanation);
                                              ("join_hints", join_hints);
                                              ("schema_details",
                                               PDict (schema_details_of retail_tables
                                                        tables))]));
                                   ("metadata", PDict [])]]);
                    ("error", PNone);
                    ("created_at", PStr created); ("updated_at", PStr now2)])
    /\ ((forall t, t ∈ tables -> is_Some (dict_get retail_tables t))
        \/ tables = fallback_tables (py_lower q)).
Proof.
  intros Hskill Hq Hne.
  eexists.
  assert (Houtcome : exists tables explanation join_hints,
             _handle_discover_tables py_lower retail_tables discovery_program
               table_descriptions (parameters request) (context request)
             = Ok (PList [Artifact "json"
                            (PDict [("tables", PList (map PStr tables));
                                    ("explanation", explanation);
                                    ("join_hints", join_hints);
                                    ("schema_details",
                                     PDict (schema_details_of retail_tables tables))])])
             /\ ((forall t, t ∈ tables -> is_Some (dict_get retail_tables t))
                 \/ tables = fallback_tables (py_lower q))).
  { unfold _handle_discover_tables. rewrite Hq.
    unfold default; cbn [from_option id py_truthy].
    rewrite bool_decide_false by assumption. cbn [negb].
    destruct (discovery_program (PStr q) table_descriptions) as [result|e].
    - destruct (td_relevant_tables result) as [| | | |s| | |] eqn:Hr;
        try (do 3 eexists; split; [reflexivity | right; reflexivity]).
      do 3 eexists. split; [reflexivity|]. left.
      intros t Ht. apply list_elem_of_filter in Ht as [Ht _]. exact Ht.
    - do 3 eexists. split; [reflexivity | right; reflexivity]. }
  destruct Houtcome as (tables & explanation & join_hints & Hrun & Htables).
  exists tables, explanation, join_hints.
  split; [reflexivity|]. split; [|exact Htables].
  rewrite (create_task_sync_settles py_repr _ request
             (_handle_discover_tables py_lower retail_tables discovery_program
                table_descriptions) uuid created updated now1 now2).
  - rewrite Hrun. reflexivity.
  - rewrite Hskill. eexists. reflexivity.
  - rewrite Hskill. reflexivity.
Qed.

End DataDiscoveryAgentRuns.

(** ** The further properties at concrete inputs *)

Lemma registered_handlers_are_declared_witness :
  register_all echo_agent_bare [("echo", fun _ _ => Ok (PStr "done"))] = Ok echo_agent
  /\ (is_Some (handlers echo_agent !! "echo")
      <-> "echo" ∈ map fst [("echo", (fun _ _ => Ok (PStr "done")) : Handler)])
  /\ skills echo_agent = skills echo_agent_bare
  /\ tasks echo_agent = ∅.
Proof.
  split; [reflexivity|].
  destruct (registered_handlers_are_declared "Echo Agent" "1.0.0"
              "An agent for the runs below" [echo_skill] 8000 "0.0.0.0"
              [("echo", fun _ _ => Ok (PStr "done"))] echo_agent "echo" eq_refl)
    as (Hiff & _ & _ & Hskills & Htasks).
  split; [exact Hiff|]. split; [exact Hskills | exact Htasks].
Defined.

Lemma submit_then_status_witness :
  is_Some (dict_get (skills echo_agent) (skill_id echo_request))
  /\ exists self',
       create_task repr_simple echo_agent echo_request "t1" "00:00" "00:00"
       = (Ok (PDict [("task_id", PStr "t1");
                     ("status", PStr "submitted");
                     ("artifacts", PList []);
                     ("error", PNone);
                     ("created_at", PStr "00:00");
                     ("updated_at", PStr "00:00")]),
          self',
          Some {| job_task_id := "t1"; job_skill_id := "echo";
                  job_parameters := []; job_context := None |})
       /\ get_task_status self' "t1"
          = fst (fst (create_task repr_simple echo_agent echo_request
                        "t1" "00:00" "00:00"))
       /\ (forall tid, tid <> "t1" ->
           get_task_status self' tid = get_task_status echo_agent tid)
       /\ skills self' = skills echo_agent
       /\ handlers self' = handlers echo_agent.
Proof.
  assert (Hskill : is_Some (dict_get (skills echo_agent) (skill_id echo_request)))
    by (eexists; reflexivity).
  split; [exact Hskill|].
  exact (submit_then_status repr_simple echo_agent echo_request "t1" "00:00" "00:00"
           Hskill).
Defined.

Lemma cancel_pending_task_witness :
  let cancelled := {| task_id := "t1"; status := CANCELLED; artifacts := [];
                      error := None; created_at := "00:00"; updated_at := "00:05" |} in
  let self' := snd (cancel_task echo_agent_submitted "t1" "00:05") in
  tasks echo_agent_submitted !! "t1" = Some (new_task "t1" "00:00" "00:00")
  /\ fst (cancel_task echo_agent_submitted "t1" "00:05") = to_dict cancelled
  /\ tasks self' !! "t1" = Some cancelled
  /\ (forall later, cancel_task self' "t1" later = (to_dict cancelled, self')).
Proof.
  intros cancelled self'.
  assert (Hstored : tasks echo_agent_submitted !! "t1"
                    = Some (new_task "t1" "00:00" "00:00")) by reflexivity.
  split; [exact Hstored|].
  destruct (cancel_pending_task echo_agent_submitted "t1" "00:05"
              (new_task "t1" "00:00" "00:00") Hstored (or_introl eq_refl))
    as (Hanswer & Hnow & _ & _ & _ & Hagain).
  split; [exact Hanswer|]. split; [exact Hnow | exact Hagain].
Defined.

Lemma sync_submit_returns_completed_record_witness :
  handlers echo_agent !! "echo" = Some (fun _ _ => Ok (PStr "done"))
  /\ exists self',
       create_task_sync repr_simple echo_agent echo_request
         "t1" "00:00" "00:00" "00:01" "00:02"
       = (Ok (PDict [("task_id", PStr "t1");
                     ("status", PStr "completed");
                     ("artifacts",
                      PList [PDict [("type", PStr "text");
                                    ("content", PStr "done");
                                    ("metadata", PDict [])]]);
                     ("error", PNone);
                     ("created_at", PStr "00:00");
                     ("updated_at", PStr "00:02")]),
          self')
       /\ get_task_status self' "t1"
          = fst (create_task_sync repr_simple echo_agent echo_request
                   "t1" "00:00" "00:00" "00:01" "00:02").
Proof.
  split; [reflexivity|].
  apply (sync_submit_returns_completed_record repr_simple echo_agent echo_request
           (fun _ _ => Ok (PStr "done")) (PStr "done")
           "t1" "00:00" "00:00" "00:01" "00:02").
  - eexists. reflexivity.
  - reflexivity.
  - reflexivity.
  - reflexivity.
Defined.


Lemma discovery_succeeds_on_third_attempt_witness :
  let get := Get "http://localhost:8000/.well-known/agent.json" (Qmake 30 1) in
  let agent := {| info_name := PStr "Echo Agent";
                  info_url := "http://localhost:8000/";
                  info_version := PStr "1.0.0";
                  info_description := PStr "An agent for the runs below";
                  info_skills := PList [AgentSkill_asdict echo_skill] |} in
  checked_json (env_card_on_third_get [get])
  = Raise (HttpxError false "All connection attempts failed")
  /\ discover_agent env_card_on_third_get wait_exponential_1_1_10
       retry_error_str_simple A2AClient_default [] "http://localhost:8000/" []
     = (Ok (agent, cache_put [] (PStr "Echo Agent") agent),
        [get; Sleep (Qmake 1 1); get; Sleep (Qmake 2 1); get]).
Proof.
  intros get agent. split; [reflexivity|].
  apply (discovery_succeeds_on_third_attempt env_card_on_third_get
           wait_exponential_1_1_10 retry_error_str_simple A2AClient_default []
           "http://localhost:8000/" []
           (HttpxError false "All connection attempts failed")
           (HttpxError false "All connection attempts failed")
           [("name", PStr "Echo Agent"); ("version", PStr "1.0.0");
            ("description", PStr "An agent for the runs below");
            ("url", PStr "http://0.0.0.0:8000");
            ("skills", PList [AgentSkill_asdict echo_skill])]
           "Echo Agent"); reflexivity.
Defined.

Lemma plan_analysis_through_the_engine_witness :
  handlers planner_agent !! "plan-analysis" = Some (_handle_plan_analysis plan_both)
  /\ fst (create_task_sync repr_simple planner_agent plan_request
            "t1" "00:00" "00:00" "00:01" "00:02")
     = Ok (PDict [("task_id", PStr "t1"); ("status", PStr "completed");
                  ("artifacts",
                   PList [PDict [("type", PStr "json");
                                 ("content",
                                  PDict [("plan", PStr "1. find tables 2. query");
                                         ("required_agents",
                                          PList [PStr "discover-tables";
                                                 PStr "text-to-sql"])]);
                                 ("metadata", PDict [])]]);
                  ("error", PNone);
                  ("created_at", PStr "00:00"); ("updated_at", PStr "00:02")]).
Proof.
  split; [reflexivity|].
  assert (Hskill : is_Some (dict_get (skills planner_agent) (skill_id plan_request)))
    by (eexists; reflexivity).
  destruct (plan_analysis_through_the_engine repr_simple plan_both planner_agent
              plan_request "t1" "00:00" "00:00" "00:01" "00:02" Hskill eq_refl)
    as (_ & _ & Hcompleted).
  exact (Hcompleted eq_refl _ eq_refl).
Defined.

Lemma discovered_card_lists_the_declared_skills_witness :
  exists agent,
    discover_agent env_card wait_exponential_1_1_10 retry_error_str_simple
      A2AClient_default [] "http://localhost:8000" []
    = (Ok (agent, cache_put [] (PStr "Echo Agent") agent),
       [Get "http://localhost:8000/.well-known/agent.json" (Qmake 30 1)])
    /\ advertised_ids (info_skills agent) = [PStr "echo"].
Proof.
  destruct (discovered_card_lists_the_declared_skills env_card wait_exponential_1_1_10
              retry_error_str_simple A2AClient_default [] "http://localhost:8000" []
              "Echo Agent" "1.0.0" "An agent for the runs below" [echo_skill] 8000
              "0.0.0.0" eq_refl)
    as (agent & Hrun & _ & _ & _ & Hids & _).
  exists agent. split; [exact Hrun | exact Hids].
Defined.

Lemma sql_step_sends_discovered_tables_witness :
  agents coordinator_with_sql !! "sql_generation"
  = Some {| ep_name := "sql_generation"; ep_url := "http://localhost:8002";
            ep_skills := ["text-to-sql"] |}
  /\ exists rest,
       snd (sql_step env_discovery repr_simple wait_exponential_1_1_10
              retry_error_str_simple coordinator_with_sql
              (PStr "Which stores sell most?") ["discover-tables"; "text-to-sql"]
              results_after_discovery [])
       = Post "http://localhost:8002/tasks/sync"
           (Some (PDict [("skill_id", PStr "text-to-sql");
                         ("parameters",
                          PDict [("requirement", PStr "Which stores sell most?");
                                 ("tables", PList [PStr "sales"]);
                                 ("execute", PBool true)]);
                         ("context", PNone)]))
           (Qmake 120 1) :: rest.
Proof.
  split; [reflexivity|].
  assert (Hskill : "text-to-sql" ∈ ["discover-tables"; "text-to-sql"])
    by (right; left).
  destruct (sql_step_sends_discovered_tables env_discovery repr_simple
              wait_exponential_1_1_10 retry_error_str_simple coordinator_with_sql
              (PStr "Which stores sell most?") ["discover-tables"; "text-to-sql"]
              results_after_discovery [("data_discovery", discovery_content)] []
              {| ep_name := "sql_generation"; ep_url := "http://localhost:8002";
                 ep_skills := ["text-to-sql"] |}
              (PList [PStr "sales"]) Hskill eq_refl eq_refl eq_refl)
    as [[rest Hrest] _].
  exists rest. exact Hrest.
Defined.

Lemma discovery_agent_completes_text_questions_witness :
  fallback_tables (lower_ascii "Which stores sell most?") = ["stores_locations"]
  /\ exists self tables explanation join_hints,
       DataDiscoveryAgent_init lower_ascii retail_two_tables discovery_program_down
         EmptyString (fun _ _ => Ok (PList [])) 8001 = Ok self
       /\ fst (create_task_sync repr_simple self discover_request
                 "t1" "00:00" "00:00" "00:01" "00:02")
          = Ok (PDict [("task_id", PStr "t1"); ("status", PStr "completed");
                       ("artifacts",
                        PList [PDict [("type", PStr "json");
                                      ("content",
                                       asdict_inner
                                         (PDict [("tables", PList (map PStr tables));
                                                 ("explanation", explanation);
                                                 ("join_hints", join_hints);
                                                 ("schema_details",
                                                  PDict (schema_details_of
                                                           retail_two_tables tables))]));
                                      ("metadata", PDict [])]]);
                       ("error", PNone);
                       ("created_at", PStr "00:00"); ("updated_at", PStr "00:02")])
       /\ ((forall t, t ∈ tables -> is_Some (dict_get retail_two_tables t))
           \/ tables = fallback_tables (lower_ascii "Which stores sell most?")).
Proof.
  split; [reflexivity|].
  apply (discovery_agent_completes_text_questions repr_simple lower_ascii
           retail_two_tables discovery_program_down EmptyString
           (fun _ _ => Ok (PList [])) 8001 discover_request
           "t1" "00:00" "00:00" "00:01" "00:02" "Which stores sell most?").
  - reflexivity.
  - reflexivity.
  - discriminate.
Defined.

(** ** The coordinator's steps, one agent missing *)

Lemma poll_task_is_bounded_and_prompt_witness :
  let get := Get "http://localhost:8001/tasks/t1" (Qmake 30 1) in
  terminal_answer (env_done_on_second_check [get; Sleep (Qmake 1 2); get])
    (completed_record [])
  /\ _poll_task env_done_on_second_check repr_simple impatient_client
       "http://localhost:8001" (PStr "t1") []
     = (Ok (completed_record []), [get; Sleep (Qmake 1 2); get]).
Proof.
  intros get.
  assert (Hat : terminal_answer (env_done_on_second_check [get; Sleep (Qmake 1 2); get])
                  (completed_record [])).
  { eexists 200%Z, _, "completed". split; [reflexivity|]. split; [reflexivity|].
    split; [lia|]. split; [reflexivity | left; reflexivity]. }
  split; [exact Hat|].
  destruct (poll_task_is_bounded_and_prompt env_done_on_second_check repr_simple
              impatient_client "http://localhost:8001" (PStr "t1") [])
    as (Hprompt & _).
  apply (Hprompt 1 (completed_record [])).
  - cbn. lia.
  - intros j r Hj (code & d & s & Hresp & _ & _ & Hstatus & Hs).
    assert (j = 0) as -> by lia.
    vm_compute in Hresp. injection Hresp as _ <-.
    vm_compute in Hstatus. injection Hstatus as <-.
    destruct Hs as [Hs | [Hs | Hs]]; discriminate.
  - exact Hat.
Defined.

Section SkippedSteps.

Variable env : list NetCall -> HttpOutcome.
Variable py_repr : PyVal -> string.
Variable wait_exponential : Z -> Q.
Variable retry_error_str : Exn -> string.
Variable plan : PyVal -> string -> Result Prediction.
Variable synthesize_results : PyVal -> string -> Result Synthesis.

(** For a registered agent [_call_agent] returns a value, and its first
    request is the submission to that agent's synchronous endpoint. *)
Lemma call_agent_returns (self : OrchestratorAgent) (agent_name skill_id : string)
    (parameters : list (string * PyVal)) (agent : AgentEndpoint) (tr : list NetCall) :
  agents self !! agent_name = Some agent ->
  exists v rest,
    _call_agent env py_repr wait_exponential retry_error_str self agent_name
      skill_id parameters tr
    = (Ok v,
       tr ++ Post ((rstrip_slash (ep_url agent) ++ "/tasks") ++ "/sync")
               (Some (PDict [("skill_id", PStr skill_id);
                             ("parameters", PDict parameters);
                             ("context", PNone)]))
               (Qmake 120 1) :: rest).
Proof.
  intros Hagent.
  destruct (send_task_wait_first_call env py_repr wait_exponential retry_error_str
              (a2a_client self) (ep_url agent) skill_id parameters None tr)
    as [rest Hrest].
  rewrite <- (call_agent_trace env py_repr wait_exponential retry_error_str self
                agent_name skill_id parameters agent tr Hagent) in Hrest.
  assert (Hok : exists v,
             fst (_call_agent env py_repr wait_exponential retry_error_str self
                    agent_name skill_id parameters tr) = Ok v).
  { unfold _call_agent, error_of. rewrite Hagent.
    unfold try_except, mbind, Client_bind, bind, lift, ret.
    destruct (send_task _ _ _ _ _ _ _ _ _ _ _) as [[result|e] tr']; [|eauto].
    repeat match goal with
           | |- context [match ?r with Ok _ => _ | Raise _ => _ end] => destruct r
           | |- context [if ?b then _ else _] => destruct b
           end; eauto. }
  destruct Hok as [v Hv]. exists v, rest.
  destruct (_call_agent _ _ _ _ _ _ _ _ _) as [r tr']. cbn [fst snd] in *.
  congruence.
Qed.

(** The discovery step when it is planned and its agent registered. *)
Lemma discovery_step_runs (self : OrchestratorAgent) (question : PyVal)
    (skills : list string) (results : list (string * PyVal)) (tr tr1 : list NetCall)
    (v : PyVal) :
  "discover-tables" ∈ skills ->
  is_Some (agents self !! "data_discovery") ->
  _call_agent env py_repr wait_exponential retry_error_str self "data_discovery"
    "discover-tables" [("question", question)] tr = (Ok v, tr1) ->
  discovery_step env py_repr wait_exponential retry_error_str self question skills
    results tr
  = match py_get v "tables" (PList []) with
    | Ok tables =>
        (Ok tt,
         append_step (PDict [("step", PStr "data_discovery"); ("tables", tables)])
           (set_agent_result "data_discovery" v results),
         tr1)
    | Raise e => (Raise e, set_agent_result "data_discovery" v results, tr1)
    end.
Proof.
  intros Hskill Hagent Hcall. unfold discovery_step.
  rewrite !bool_decide_true by assumption. cbn [andb].
  unfold mbind, Body_bind, body_bind, body_call, body_update, body_lift.
  rewrite Hcall. destruct (py_get v "tables" (PList [])); reflexivity.
Qed.

(** The SQL step when it is planned, its agent is registered and no
    discovery result is stored. *)
Lemma sql_step_runs (self : OrchestratorAgent) (question : PyVal)
    (skills : list string) (results : list (string * PyVal)) (tr tr1 : list NetCall)
    (v : PyVal) :
  "text-to-sql" ∈ skills ->
  is_Some (agents self !! "sql_generation") ->
  dict_get results "agent_results" = Some (PDict []) ->
  _call_agent env py_repr wait_exponential retry_error_str self "sql_generation"
    "text-to-sql"
    [("requirement", question); ("tables", PList []); ("execute", PBool true)] tr
  = (Ok v, tr1) ->
  sql_step env py_repr wait_exponential retry_error_str self question skills results tr
  = match v with
    | PDict d =>
        (Ok tt,
         append_step (PDict [("step", PStr "sql_generation");
                             ("sql", default (PStr EmptyString) (dict_get d "sql"));
                             ("row_count", default (PInt 0) (dict_get d "row_count"))])
           (set_agent_result "sql_generation" v results),
         tr1)
    | _ =>
        (Raise (AttributeError
                  ("'" ++ py_type_name v ++ "' object has no attribute 'get'")),
         set_agent_result "sql_generation" v results, tr1)
    end.
Proof.
  intros Hskill Hagent Hresults Hcall. unfold sql_step.
  rewrite !bool_decide_true by assumption. cbn [andb].
  unfold mbind, Body_bind, body_bind, body_read, body_call, body_update, body_lift.
  unfold agent_results_of. rewrite Hresults. cbn [py_get dict_get].
  rewrite Hcall. destruct v; reflexivity.
Qed.

(** A step that is not planned does nothing either. *)
Lemma discovery_step_unplanned (self : OrchestratorAgent) (question : PyVal)
    (skills : list string) (results : list (string * PyVal)) (tr : list NetCall) :
  "discover-tables" ∉ skills ->
  discovery_step env py_repr wait_exponential retry_error_str self question skills
    results tr = (Ok tt, results, tr).
Proof.
  intros Hnot. unfold discovery_step. rewrite bool_decide_false by assumption.
  reflexivity.
Qed.

Lemma sql_step_unplanned (self : OrchestratorAgent) (question : PyVal)
    (skills : list string) (results : list (string * PyVal)) (tr : list NetCall) :
  "text-to-sql" ∉ skills ->
  sql_step env py_repr wait_exponential retry_error_str self question skills
    results tr = (Ok tt, results, tr).
Proof.
  intros Hnot. unfold sql_step. rewrite bool_decide_false by assumption.
  reflexivity.
Qed.

(** The run of the handler, step by step, once the question is accepted
    and the plan is made. *)
Lemma answer_question_run (self : OrchestratorAgent)
    (parameters : list (string * PyVal)) (context : option (list (string * PyVal)))
    (question : PyVal) (p : Prediction) (tr : list NetCall) :
  dict_get parameters "question" = Some question ->
  py_truthy question = true ->
  py_sliceable question = true ->
  plan question BUSINESS_CONTEXT = Ok p ->
  let skills := map strip (split_comma (required_skills p)) in
  let report (e : Exn) (results : list (string * PyVal)) (tr' : list NetCall) :=
    (Ok (PList [Artifact "json" (PDict (dict_set results "error" (PStr (exn_str e))))]),
     tr') in
  _handle_answer_question env py_repr wait_exponential retry_error_str plan
    synthesize_results self parameters context tr
  = match discovery_step env py_repr wait_exponential retry_error_str self question
            skills (planned_results question p) tr with
    | (Raise e, results, tr') => report e results tr'
    | (Ok _, results, tr') =>
        match sql_step env py_repr wait_exponential retry_error_str self question
                skills results tr' with
        | (Raise e, results, tr') => report e results tr'
        | (Ok _, results, tr') =>
            match synthesize_results question (py_repr (agent_results_of results)) with
            | Raise e => report e results tr'
            | Ok s =>
                (Ok (PList [Artifact "json"
                              (PDict (dict_set
                                        (dict_set (dict_set results "answer" (answer s))
                                           "recommendations" (recommendations s))
                                        "confidence" (confidence s)))]),
                 tr')
            end
        end
    end.
Proof.
  intros Hquestion Htruthy Hslice Hplan skills report.
  unfold _handle_answer_question. rewrite Hquestion.
  unfold default. cbn [from_option id]. rewrite Htruthy, Hslice. cbn [negb].
  unfold answer_question_steps, mbind, Body_bind. unfold body_bind at 1.
  rewrite (planning_step_ok plan question p tr Hplan). fold skills.
  unfold body_bind at 1.
  destruct (discovery_step env py_repr wait_exponential retry_error_str self question
              skills (planned_results question p) tr) as [[[[]|e] results1] tr1];
    [|reflexivity].
  unfold body_bind at 1.
  destruct (sql_step env py_repr wait_exponential retry_error_str self question skills
              results1 tr1) as [[[[]|e] results2] tr2]; [|reflexivity].
  unfold synthesis_step, mbind, Body_bind, body_bind, body_read, body_lift, body_update.
  destruct (synthesize_results question (py_repr (agent_results_of results2)));
    reflexivity.
Qed.


End SkippedSteps.

